(** * budgeauto: the transaction reconciliation pipeline

    A shallow embedding of the pipeline of [src/models.py],
    [src/categorizer.py], [src/pdf_parser.py], [src/main.py],
    [src/sheets_handler.py] and [src/email_handler.py], and the
    properties of it that the specification states.

    Conventions of the embedding:
    - Python [str] is [string]; only the ASCII range is modelled, so
      [upper], [lower] and [strip] are the ASCII restrictions of the
      Python methods.
    - Python [int] is [Z]; Python [bool] stored in an [int] field is the
      integer it equals ([False] is [0]).
    - Python [float] amounts are rationals [Q]; [None] and [NaN] are [None].
      Only [abs], negation and comparison with zero are used on them.
    - Objects mutated in place (the transactions of a batch) are a list
      that is threaded through the function and updated by index.
    - A [dict] is a [gmap] with [string] keys; a [set] of sheet titles is
      a [gset], and the order in which a loop iterates it is a parameter.
    - The services the pipeline calls (the classifier, the page
      extraction, the document service of the spreadsheet) are inputs:
      their answers are data of the model. *)

From Stdlib Require Import ZArith QArith Qabs Qround String Ascii List Bool Lia.
From Stdlib Require Import Permutation DecimalString.
From stdpp Require Import base option list gmap strings sorting.

Import ListNotations.
Local Open Scope string_scope.
Local Open Scope Z_scope.
Local Open Scope list_scope.

(** ** Strings as Python uses them *)

Module PyStr.

(** The strings the model covers: those made of ASCII characters. On
    them the functions below are the Python methods they are named
    after; what the methods do with other characters ([str.upper] and
    [str.lower] map letters of other alphabets, and a few other
    characters, to ASCII letters) is not modelled, and a statement that
    depends on it is made for ASCII strings only. *)
Fixpoint is_ascii (s : string) : bool :=
  match s with
  | EmptyString => true
  | String c r => Nat.ltb (nat_of_ascii c) 128 && is_ascii r
  end.

Definition is_upper_ascii (c : ascii) : bool :=
  let n := nat_of_ascii c in (Nat.leb 65 n && Nat.leb n 90)%bool.

Definition is_lower_ascii (c : ascii) : bool :=
  let n := nat_of_ascii c in (Nat.leb 97 n && Nat.leb n 122)%bool.

Definition upper_char (c : ascii) : ascii :=
  if is_lower_ascii c then ascii_of_nat (nat_of_ascii c - 32) else c.

Definition lower_char (c : ascii) : ascii :=
  if is_upper_ascii c then ascii_of_nat (nat_of_ascii c + 32) else c.

(** [str.upper()] and [str.lower()], on ASCII strings. *)
Fixpoint upper (s : string) : string :=
  match s with
  | EmptyString => EmptyString
  | String c r => String (upper_char c) (upper r)
  end.

Fixpoint lower (s : string) : string :=
  match s with
  | EmptyString => EmptyString
  | String c r => String (lower_char c) (lower r)
  end.

(** The characters [str.strip()] and the regular expression class [\s]
    remove or match: tab, line feed, vertical tab, form feed, carriage
    return, the four separators 28..31 and the space. *)
Definition is_space (c : ascii) : bool :=
  let n := nat_of_ascii c in
  ((Nat.leb 9 n && Nat.leb n 13) || (Nat.leb 28 n && Nat.leb n 32))%bool.

Fixpoint lstrip (s : string) : string :=
  match s with
  | EmptyString => EmptyString
  | String c r => if is_space c then lstrip r else s
  end.

Fixpoint rstrip (s : string) : string :=
  match s with
  | EmptyString => EmptyString
  | String c r =>
      match rstrip r with
      | EmptyString => if is_space c then EmptyString else String c EmptyString
      | r' => String c r'
      end
  end.

(** [str.strip()]. *)
Definition strip (s : string) : string := rstrip (lstrip s).

(** [str.replace(" ", "_")]. *)
Fixpoint replace_space_underscore (s : string) : string :=
  match s with
  | EmptyString => EmptyString
  | String c r =>
      String (if Ascii.eqb c " "%char then "_"%char else c)
             (replace_space_underscore r)
  end.

(** [sub in s]. *)
Fixpoint contains (sub s : string) : bool :=
  (String.prefix sub s ||
   match s with
   | EmptyString => false
   | String _ r => contains sub r
   end)%bool.

Definition is_digit (c : ascii) : bool :=
  let n := nat_of_ascii c in (Nat.leb 48 n && Nat.leb n 57)%bool.

Definition digit_val (c : ascii) : Z := Z.of_nat (nat_of_ascii c - 48).

End PyStr.

(** ** [models.py]: the category vocabulary *)

Inductive Category : Set :=
| ACHU | AISHU | AMMA | BANK | BODY | BUDGET | CAR | CHRISTMAS | COOK | DRESS
| EDUCATION | ELECTRICITY | ENTERTAINMENT | FAITH | FAMILY | FOOD | FUEL | GIFT
| GROCERY | GYM | HOUSE | HOUSEHOLD | INCOME_TAX | INSURANCE | INTERNET
| INTERNATIONAL_TRIP | INVESTMENT | KITCHEN | MAID | MEDICAL | PHONE
| PHILANTHROPY | PROCESSED_TRANSACTIONS | PROFESSION | RENT | SALE | SALON
| SCOOTER | COURIER | PAYMENT | PETROL | SHOPPING | SOFTWARE | SUBSCRIPTION
| TAX | TRANSPORTATION | TRAVEL | UNCATEGORIZED | VALUE_ADD | WATER | WEDDING
| INCOME | SALARY | REFUND | CASHBACK | INTEREST | TRANSFER.

#[global] Instance Category_eq_dec : EqDecision Category.
Proof. solve_decision. Defined.

(** The members in definition order, as iterating the enum yields them. *)
Definition Category_members : list Category :=
  [ACHU; AISHU; AMMA; BANK; BODY; BUDGET; CAR; CHRISTMAS; COOK; DRESS;
   EDUCATION; ELECTRICITY; ENTERTAINMENT; FAITH; FAMILY; FOOD; FUEL; GIFT;
   GROCERY; GYM; HOUSE; HOUSEHOLD; INCOME_TAX; INSURANCE; INTERNET;
   INTERNATIONAL_TRIP; INVESTMENT; KITCHEN; MAID; MEDICAL; PHONE;
   PHILANTHROPY; PROCESSED_TRANSACTIONS; PROFESSION; RENT; SALE; SALON;
   SCOOTER; COURIER; PAYMENT; PETROL; SHOPPING; SOFTWARE; SUBSCRIPTION;
   TAX; TRANSPORTATION; TRAVEL; UNCATEGORIZED; VALUE_ADD; WATER; WEDDING;
   INCOME; SALARY; REFUND; CASHBACK; INTEREST; TRANSFER].

(** The key of a member ([member.name]). *)
Definition Category_name (c : Category) : string :=
  match c with
  | ACHU => "ACHU" | AISHU => "AISHU" | AMMA => "AMMA" | BANK => "BANK"
  | BODY => "BODY" | BUDGET => "BUDGET" | CAR => "CAR"
  | CHRISTMAS => "CHRISTMAS" | COOK => "COOK" | DRESS => "DRESS"
  | EDUCATION => "EDUCATION" | ELECTRICITY => "ELECTRICITY"
  | ENTERTAINMENT => "ENTERTAINMENT" | FAITH => "FAITH" | FAMILY => "FAMILY"
  | FOOD => "FOOD" | FUEL => "FUEL" | GIFT => "GIFT" | GROCERY => "GROCERY"
  | GYM => "GYM" | HOUSE => "HOUSE" | HOUSEHOLD => "HOUSEHOLD"
  | INCOME_TAX => "INCOME_TAX" | INSURANCE => "INSURANCE"
  | INTERNET => "INTERNET" | INTERNATIONAL_TRIP => "INTERNATIONAL_TRIP"
  | INVESTMENT => "INVESTMENT" | KITCHEN => "KITCHEN" | MAID => "MAID"
  | MEDICAL => "MEDICAL" | PHONE => "PHONE" | PHILANTHROPY => "PHILANTHROPY"
  | PROCESSED_TRANSACTIONS => "PROCESSED_TRANSACTIONS"
  | PROFESSION => "PROFESSION" | RENT => "RENT" | SALE => "SALE"
  | SALON => "SALON" | SCOOTER => "SCOOTER" | COURIER => "COURIER"
  | PAYMENT => "PAYMENT" | PETROL => "PETROL" | SHOPPING => "SHOPPING"
  | SOFTWARE => "SOFTWARE" | SUBSCRIPTION => "SUBSCRIPTION" | TAX => "TAX"
  | TRANSPORTATION => "TRANSPORTATION" | TRAVEL => "TRAVEL"
  | UNCATEGORIZED => "UNCATEGORIZED" | VALUE_ADD => "VALUE_ADD"
  | WATER => "WATER" | WEDDING => "WEDDING" | INCOME => "INCOME"
  | SALARY => "SALARY" | REFUND => "REFUND" | CASHBACK => "CASHBACK"
  | INTEREST => "INTEREST" | TRANSFER => "TRANSFER"
  end.

(** The display value of a member ([member.value]). *)
Definition Category_value (c : Category) : string :=
  match c with
  | ACHU => "Achu" | AISHU => "Aishu" | AMMA => "Amma" | BANK => "Bank"
  | BODY => "Body" | BUDGET => "Budget" | CAR => "Car"
  | CHRISTMAS => "Christmas" | COOK => "Cook" | DRESS => "Dress"
  | EDUCATION => "Education" | ELECTRICITY => "Electricity"
  | ENTERTAINMENT => "Entertainment" | FAITH => "Faith" | FAMILY => "Family"
  | FOOD => "Food" | FUEL => "Fuel" | GIFT => "Gift" | GROCERY => "Grocery"
  | GYM => "Gym" | HOUSE => "House" | HOUSEHOLD => "Household"
  | INCOME_TAX => "Income Tax" | INSURANCE => "Insurance"
  | INTERNET => "Internet" | INTERNATIONAL_TRIP => "International Trip"
  | INVESTMENT => "Investment" | KITCHEN => "Kitchen" | MAID => "Maid"
  | MEDICAL => "Medical" | PHONE => "Phone" | PHILANTHROPY => "Philanthropy"
  | PROCESSED_TRANSACTIONS => "Processed Transactions"
  | PROFESSION => "Profession" | RENT => "Rent" | SALE => "Sale"
  | SALON => "Salon" | SCOOTER => "Scooter" | COURIER => "Courier"
  | PAYMENT => "Payment" | PETROL => "Petrol" | SHOPPING => "Shopping"
  | SOFTWARE => "Software" | SUBSCRIPTION => "Subscription" | TAX => "Tax"
  | TRANSPORTATION => "Transportation" | TRAVEL => "Travel"
  | UNCATEGORIZED => "Uncategorized" | VALUE_ADD => "Value Add"
  | WATER => "Water" | WEDDING => "Wedding" | INCOME => "Income"
  | SALARY => "Salary" | REFUND => "Refund" | CASHBACK => "Cashback"
  | INTEREST => "Interest" | TRANSFER => "Transfer"
  end.

(** [Category.from_string] on a [str] argument (the callers test
    [isinstance(value, str)] or hold a validated [str]). *)
Definition Category_from_string (value : string) : Category :=
  let search_value :=
    PyStr.replace_space_underscore (PyStr.strip (PyStr.upper value)) in
  let search_value :=
    if String.eqb search_value "ENTERTAINTMENT" then "ENTERTAINMENT"
    else search_value in
  let search_value :=
    if String.eqb search_value "BODY" then "GYM" else search_value in
  let search_value :=
    if String.eqb search_value "HOUSE" then "HOUSEHOLD" else search_value in
  match List.find (fun m => String.eqb (Category_name m) search_value)
                  Category_members with
  | Some member_obj => member_obj
  | None =>
      match List.find
              (fun m => String.eqb (PyStr.upper (Category_value m))
                                   (PyStr.strip (PyStr.upper value)))
              Category_members with
      | Some member_obj => member_obj
      | None => UNCATEGORIZED
      end
  end.

Definition DEFAULT_CATEGORY_ENUM : Category := UNCATEGORIZED.


(** ** [models.py]: the transaction record *)

Inductive TransactionType : Set := credit | debit.

#[global] Instance TransactionType_eq_dec : EqDecision TransactionType.
Proof. solve_decision. Defined.

Record Transaction : Type := mkTransaction {
  date : option string;
  description : string;
  amount : option Q;
  source_account : option string;
  short_description : option string;
  is_expense : option Z;
  is_split : option Z;
  category : option Category;
  transaction_type : TransactionType
}.

Definition set_source_account (v : option string) (t : Transaction) :=
  mkTransaction (date t) (description t) (amount t) v (short_description t)
                (is_expense t) (is_split t) (category t) (transaction_type t).

Definition set_is_expense (v : option Z) (t : Transaction) :=
  mkTransaction (date t) (description t) (amount t) (source_account t)
                (short_description t) v (is_split t) (category t)
                (transaction_type t).

Definition set_is_split (v : option Z) (t : Transaction) :=
  mkTransaction (date t) (description t) (amount t) (source_account t)
                (short_description t) (is_expense t) v (category t)
                (transaction_type t).

Definition set_category (v : option Category) (t : Transaction) :=
  mkTransaction (date t) (description t) (amount t) (source_account t)
                (short_description t) (is_expense t) (is_split t) v
                (transaction_type t).

(** A Python value as it occurs in a parsed JSON document or in a
    dictionary handed to the [Transaction] constructor. [PyOther] stands
    for lists and nested objects. *)
Inductive pyval : Type :=
| PyNone
| PyBool (b : bool)
| PyInt (z : Z)
| PyFloat (q : Q)
| PyStr (s : string)
| PyCategory (c : Category)
| PyOther.

Module Pydantic.

(** [float(cleaned_v)] for a string that holds only digits, points and
    minus signs: an optional leading minus, then digits with at most one
    point and at least one digit. The value is the decimal it denotes. *)
Fixpoint float_digits (s : string) (seen_point : bool) (num : Z) (den : positive)
                      (ndigits : nat) : option Q :=
  match s with
  | EmptyString => if Nat.eqb ndigits 0 then None else Some (num # den)
  | String c r =>
      if PyStr.is_digit c then
        float_digits r seen_point (10 * num + PyStr.digit_val c)
                     (if seen_point then (10 * den)%positive else den)
                     (S ndigits)
      else if Ascii.eqb c "."%char then
        if seen_point then None else float_digits r true num den ndigits
      else None
  end.

Definition float_of_cleaned (s : string) : option Q :=
  match s with
  | String "-"%char r =>
      match float_digits r false 0 1 0 with
      | Some q => Some (Qopp q)
      | None => None
      end
  | _ => float_digits s false 0 1 0
  end.

(** [re.sub(r'[^\d.-]', '', v)]. *)
Fixpoint keep_amount_chars (s : string) : string :=
  match s with
  | EmptyString => EmptyString
  | String c r =>
      if (PyStr.is_digit c || Ascii.eqb c "."%char || Ascii.eqb c "-"%char)%bool
      then String c (keep_amount_chars r)
      else keep_amount_chars r
  end.

(** The [clean_amount] validator of [Transaction.amount]. *)
Definition clean_amount (v : pyval) : option Q :=
  match v with
  | PyNone => None
  | PyStr s => float_of_cleaned (keep_amount_chars s)
  | PyCategory c => float_of_cleaned (keep_amount_chars (Category_value c))
  | PyBool b => Some (if b then 1%Q else 0%Q)
  | PyInt z => Some (inject_Z z)
  | PyFloat q => Some q
  | PyOther => None
  end.

(** An integer written as an optional sign and decimal digits. *)
Fixpoint int_digits (s : string) (acc : Z) (ndigits : nat) : option Z :=
  match s with
  | EmptyString => if Nat.eqb ndigits 0 then None else Some acc
  | String c r =>
      if PyStr.is_digit c
      then int_digits r (10 * acc + PyStr.digit_val c) (S ndigits)
      else None
  end.

Definition int_of_string (s : string) : option Z :=
  match PyStr.strip s with
  | String "-"%char r => option_map Z.opp (int_digits r 0 0)
  | String "+"%char r => int_digits r 0 0
  | r => int_digits r 0 0
  end.

(** Validation of one field, in the lax mode the model is declared in:
    an [int] field takes an integer, a boolean, a float without
    fraction or a string of digits; a [str] field takes only strings.
    The outer [option] is the outcome of the validation ([None]: a
    [ValidationError]); the argument is the entry of the dictionary,
    [None] when the key is absent. *)
Definition validate_optional_str (default : option string) (entry : option pyval)
  : option (option string) :=
  match entry with
  | None => Some default
  | Some PyNone => Some None
  | Some (PyStr s) => Some (Some s)
  | Some (PyCategory c) => Some (Some (Category_value c))
  | Some _ => None
  end.

Definition validate_required_str (entry : option pyval) : option string :=
  match entry with
  | Some (PyStr s) => Some s
  | Some (PyCategory c) => Some (Category_value c)
  | _ => None
  end.

Definition validate_optional_int (default : option Z) (entry : option pyval)
  : option (option Z) :=
  match entry with
  | None => Some default
  | Some PyNone => Some None
  | Some (PyInt z) => Some (Some z)
  | Some (PyBool b) => Some (Some (if b then 1 else 0))
  | Some (PyFloat q) =>
      if Qeq_bool q (inject_Z (Qfloor q)) then Some (Some (Qfloor q)) else None
  | Some (PyStr s) => option_map Some (int_of_string s)
  | Some _ => None
  end.

Definition validate_optional_amount (entry : option pyval) : option Q :=
  match entry with
  | None => None
  | Some v => clean_amount v
  end.

Definition validate_optional_category (entry : option pyval)
  : option (option Category) :=
  match entry with
  | None => Some None
  | Some PyNone => Some None
  | Some (PyCategory c) => Some (Some c)
  | Some (PyStr s) =>
      option_map Some
        (List.find (fun m => String.eqb (Category_value m) s) Category_members)
  | Some _ => None
  end.

Definition validate_transaction_type (entry : option pyval)
  : option TransactionType :=
  match entry with
  | Some (PyStr s) =>
      if String.eqb s "credit" then Some credit
      else if String.eqb s "debit" then Some debit
      else None
  | _ => None
  end.

End Pydantic.

(** The constructor call [Transaction] on the keywords of [item_dict]:
    every field is validated, a missing
    optional field takes its default ([is_split] defaults to [1], the
    other optional fields to [None]), unknown keys are ignored. [None]
    is a [ValidationError]. *)
Definition Transaction_from_dict (d : gmap string pyval) : option Transaction :=
  dt ← Pydantic.validate_optional_str None (d !! "date");
  ds ← Pydantic.validate_required_str (d !! "description");
  sa ← Pydantic.validate_optional_str None (d !! "source_account");
  sd ← Pydantic.validate_optional_str None (d !! "short_description");
  ie ← Pydantic.validate_optional_int None (d !! "is_expense");
  sp ← Pydantic.validate_optional_int (Some 1) (d !! "is_split");
  ct ← Pydantic.validate_optional_category (d !! "category");
  tt ← Pydantic.validate_transaction_type (d !! "transaction_type");
  Some (mkTransaction dt ds (Pydantic.validate_optional_amount (d !! "amount"))
                      sa sd ie sp ct tt).

Definition py_of_opt_str (o : option string) : pyval :=
  match o with Some s => PyStr s | None => PyNone end.

Definition py_of_opt_int (o : option Z) : pyval :=
  match o with Some z => PyInt z | None => PyNone end.

Definition py_of_opt_float (o : option Q) : pyval :=
  match o with Some q => PyFloat q | None => PyNone end.

Definition TransactionType_value (t : TransactionType) : string :=
  match t with credit => "credit" | debit => "debit" end.

(** [t.model_dump(mode='json')]: all nine fields, the category as its
    display value. *)
Definition model_dump_json (t : Transaction) : gmap string pyval :=
  <["date" := py_of_opt_str (date t)]>
  (<["description" := PyStr (description t)]>
  (<["amount" := py_of_opt_float (amount t)]>
  (<["source_account" := py_of_opt_str (source_account t)]>
  (<["short_description" := py_of_opt_str (short_description t)]>
  (<["is_expense" := py_of_opt_int (is_expense t)]>
  (<["is_split" := py_of_opt_int (is_split t)]>
  (<["category" := py_of_opt_str (option_map Category_value (category t))]>
  (<["transaction_type" := PyStr (TransactionType_value (transaction_type t))]>
   ∅)))))))).

(** ** [pdf_parser.py]: the extraction stage *)

Module Extraction.

(** [TransactionList.model_validate_json] on the decoded response, the
    objects of its list "transactions": every object is validated as a
    [Transaction], with every field of the model that it carries; one
    object that does not validate fails the whole response. *)
Definition validate_rows (response : list (gmap string pyval))
  : option (list Transaction) :=
  mapM Transaction_from_dict response.

(** The body of [for tx in page_transactions]. *)
Definition tag_transaction (source_account : string) (tx : Transaction)
  : Transaction :=
  let tx := set_source_account (Some source_account) tx in
  if PyStr.contains "achu" (PyStr.lower (description tx))
  then set_is_split (Some 2) tx
  else tx.

(** A page: [None] when rendering, the model call, the decoding or the
    validation of the response raises (the page is skipped), else the
    validated rows, [parsed_data.transactions]. *)
Definition Page : Type := option (list Transaction).

(** The page a response gives; the argument is [None] when no response
    that decodes was obtained. *)
Definition page_of_response (response : option (list (gmap string pyval))) : Page :=
  response ≫= validate_rows.

Definition page_transactions (source_account : string) (p : Page)
  : list Transaction :=
  match p with
  | None => []
  | Some rows => map (tag_transaction source_account) rows
  end.

Inductive PreviewChoice : Set := PreviewAdd | PreviewSkip | PreviewQuit.

(** A downloaded statement, after the steps that are collaborators of
    the stage: the account the file was attributed to, whether it could
    be opened (with or without one of the passwords), its pages, and
    what the user answers when preview mode shows its transactions. *)
Record PdfDocument : Type := mkPdfDocument {
  pdf_source_account : string;
  pdf_opened : bool;
  pdf_pages : list Page;
  pdf_preview : PreviewChoice
}.

Definition pdf_transactions (doc : PdfDocument) : list Transaction :=
  concat (map (page_transactions (pdf_source_account doc)) (pdf_pages doc)).

(** [parse_pdfs]; [None] is the [sys.exit] of the preview's quit. *)
Fixpoint parse_pdfs (docs : list PdfDocument) (preview_mode : bool)
                    (all_transactions : list Transaction)
  : option (list Transaction) :=
  match docs with
  | [] => Some all_transactions
  | doc :: rest =>
      if negb (pdf_opened doc) then parse_pdfs rest preview_mode all_transactions
      else
        let txs := pdf_transactions doc in
        if (preview_mode && negb (Nat.eqb (length txs) 0))%bool then
          match pdf_preview doc with
          | PreviewAdd => parse_pdfs rest preview_mode (all_transactions ++ txs)
          | PreviewSkip => parse_pdfs rest preview_mode all_transactions
          | PreviewQuit => None
          end
        else parse_pdfs rest preview_mode (all_transactions ++ txs)
  end.

End Extraction.

(** ** [categorizer.py]: the enrichment stage *)

Module Categorizer.

Record AIProcessedTransaction : Type := mkAIProcessedTransaction {
  original_index : Z;
  category_str : string;
  ai_is_expense : Z;
  ai_is_split : Z
}.

(** One entry of [input_data_for_ai]. *)
Record AIInput : Type := mkAIInput {
  input_index : nat;
  input_date : string;
  input_description : string;
  input_amount : Q
}.

(** What [agent.run_sync] does with the request. *)
Inductive AgentOutcome : Type :=
| AgentException                (* any exception but a validation error *)
| AgentValidationError          (* the response does not validate *)
| AgentUnexpectedType           (* the data is not an [AIProcessedBatch] *)
| AgentBatch (processed_transactions : list AIProcessedTransaction).

Definition Agent : Type := list AIInput -> AgentOutcome.

(** The module state the function reads: the agent ([None] when no API
    key is set or the initialisation failed) and whether the prompt
    text holds ["Error:"]. *)
Record AIState : Type := mkAIState {
  agent : option Agent;
  prompt_has_error : bool
}.

Inductive LogEvent : Type :=
| LogAgentNotInitialized
| LogPromptError
| LogNoTransactions
| LogCountMismatch (n_input n_output : nat)
| LogInvalidIndex (idx : Z)
| LogNotUpdated (i : nat) (desc : string)
| LogUnexpectedType
| LogValidationError
| LogProcessingError
| LogAssigningDefaults (error_message : string).

(** The defaults of the two early exits: a field is kept when it is set.
    [False] in the first exit is the integer [0]. *)
Definition assign_if_unset (txn : Transaction) : Transaction :=
  let txn := set_category
               (match category txn with
                | Some c => Some c
                | None => Some DEFAULT_CATEGORY_ENUM
                end) txn in
  let txn := set_is_expense
               (match is_expense txn with
                | Some e => Some e
                | None => Some 1
                end) txn in
  set_is_split
    (match is_split txn with
     | Some s => Some s
     | None => Some 0
     end) txn.

(** The defaults of the failure handler: every field is overwritten. *)
Definition assign_error_defaults (txn : Transaction) : Transaction :=
  set_is_split (Some 0)
    (set_is_expense (Some 1)
       (set_category (Some DEFAULT_CATEGORY_ENUM) txn)).

Definition prepare_input (raw_transactions : list Transaction) : list AIInput :=
  imap (fun i t =>
          mkAIInput i
            (match date t with
             | Some d => if String.eqb d "" then "Unknown" else d
             | None => "Unknown"
             end)
            (description t)
            (match amount t with Some a => a | None => 0%Q end))
       raw_transactions.

(** The update of one matched transaction. *)
Definition update_from (ai_txn : AIProcessedTransaction) (original_txn : Transaction)
  : Transaction :=
  set_is_split (Some (ai_is_split ai_txn))
    (set_is_expense (Some (ai_is_expense ai_txn))
       (set_category (Some (Category_from_string (category_str ai_txn)))
                     original_txn)).

(** The state of the matching loop: the batch, the set
    [updated_indices], and the log. *)
Record MatchState : Type := mkMatchState {
  batch : list Transaction;
  updated_indices : list nat;
  match_log : list LogEvent
}.

(** The body of [for ai_txn in processed_data.processed_transactions]. *)
Definition match_step (st : MatchState) (ai_txn : AIProcessedTransaction)
  : MatchState :=
  let original_idx := original_index ai_txn in
  if ((0 <=? original_idx) && (original_idx <? Z.of_nat (length (batch st))))%bool
  then mkMatchState
         (alter (update_from ai_txn) (Z.to_nat original_idx) (batch st))
         (Z.to_nat original_idx :: updated_indices st)
         (match_log st)
  else mkMatchState (batch st) (updated_indices st)
                    (match_log st ++ [LogInvalidIndex original_idx]).

Definition match_results (results : list AIProcessedTransaction)
                         (raw_transactions : list Transaction) : MatchState :=
  fold_left match_step results (mkMatchState raw_transactions [] []).

(** The warnings for the transactions no result updated. *)
Definition not_updated_log (updated : list nat) (txs : list Transaction)
  : list LogEvent :=
  omap (fun p : nat * Transaction =>
          if existsb (Nat.eqb (fst p)) updated then None
          else Some (LogNotUpdated (fst p) (description (snd p))))
       (imap (fun i t => (i, t)) txs).

(** [process_transactions_ai]: the batch after the call, and the log. *)
Definition process_transactions_ai (st : AIState) (raw_transactions : list Transaction)
  : list Transaction * list LogEvent :=
  match agent st with
  | None => (map assign_if_unset raw_transactions, [LogAgentNotInitialized])
  | Some run =>
      if prompt_has_error st
      then (map assign_if_unset raw_transactions, [LogPromptError])
      else
        match raw_transactions with
        | [] => ([], [LogNoTransactions])
        | _ =>
            match run (prepare_input raw_transactions) with
            | AgentBatch results =>
                let m := match_results results raw_transactions in
                (batch m,
                 (if Nat.eqb (length results) (length raw_transactions) then []
                  else [LogCountMismatch (length raw_transactions) (length results)])
                 ++ match_log m
                 ++ not_updated_log (updated_indices m) (batch m))
            | AgentUnexpectedType =>
                (map assign_error_defaults raw_transactions,
                 [LogUnexpectedType; LogAssigningDefaults "AI Processing Error"])
            | AgentValidationError =>
                (map assign_error_defaults raw_transactions,
                 [LogValidationError; LogAssigningDefaults "AI Validation Error"])
            | AgentException =>
                (map assign_error_defaults raw_transactions,
                 [LogProcessingError; LogAssigningDefaults "AI Processing Error"])
            end
        end
  end.

(** [filter_expenses]: a missing flag counts as an expense. *)
Definition filter_expenses (enriched_transactions : list Transaction)
  : list Transaction :=
  List.filter (fun t => match is_expense t with
                        | None => true
                        | Some e => e =? 1
                        end)
              enriched_transactions.

End Categorizer.

(** ** Dates: [datetime.date] and [datetime.datetime.strptime] *)

Module PyDate.

(** A [datetime.date]. *)
Record t : Type := mk { year : Z; month : Z; day : Z }.

Definition is_leap (y : Z) : bool :=
  ((y mod 4 =? 0) && (negb (y mod 100 =? 0) || (y mod 400 =? 0)))%bool.

Definition days_in_month (y m : Z) : Z :=
  if m =? 2 then (if is_leap y then 29 else 28)
  else if (m =? 4) || (m =? 6) || (m =? 9) || (m =? 11) then 30
  else 31.

(** The check of the [date] constructor ([MINYEAR = 1], [MAXYEAR = 9999]). *)
Definition valid (y m d : Z) : bool :=
  ((1 <=? y) && (y <=? 9999) && (1 <=? m) && (m <=? 12)
   && (1 <=? d) && (d <=? days_in_month y m))%bool.

(** [datetime.date(y, m, d)]; [None] is the [ValueError]. *)
Definition make (y m d : Z) : option t :=
  if valid y m d then Some (mk y m d) else None.

(** [a <= b] on dates. *)
Definition leb (a b : t) : bool :=
  ((year a <? year b)
   || ((year a =? year b)
       && ((month a <? month b)
           || ((month a =? month b) && (day a <=? day b)))))%bool.

(** [d + relativedelta(months=1)]: the same day of the next month,
    clipped to the length of that month. *)
Definition add_one_month (d : t) : option t :=
  let y := if month d =? 12 then year d + 1 else year d in
  let m := if month d =? 12 then 1 else month d + 1 in
  make y m (Z.min (day d) (days_in_month y m)).

(** [d + datetime.timedelta(days=1)]; [None] is the [OverflowError]. *)
Definition add_one_day (d : t) : option t :=
  if day d <? days_in_month (year d) (month d)
  then Some (mk (year d) (month d) (day d + 1))
  else if month d <? 12 then Some (mk (year d) (month d + 1) 1)
  else make (year d + 1) 1 1.

End PyDate.

Module Strptime.

(** The directives of a format, after the format is read: a conversion,
    a literal character, or a run of white space (the pattern [\s+]). *)
Inductive directive : Set :=
| DirY | Dirm | Dird | Dirb | Diry | DirH | DirM | DirS
| Lit (c : ascii)
| Spaces.

(** Reading a format string. [in_space] holds while a run of white
    space is being skipped. [None] is an unknown conversion. *)
Fixpoint read_format (fmt : string) (in_space : bool) : option (list directive) :=
  match fmt with
  | EmptyString => Some []
  | String "%"%char (String k r) =>
      match (if Ascii.eqb k "Y" then Some DirY
             else if Ascii.eqb k "m" then Some Dirm
             else if Ascii.eqb k "d" then Some Dird
             else if Ascii.eqb k "b" then Some Dirb
             else if Ascii.eqb k "y" then Some Diry
             else if Ascii.eqb k "H" then Some DirH
             else if Ascii.eqb k "M" then Some DirM
             else if Ascii.eqb k "S" then Some DirS
             else None)%char, read_format r false with
      | Some d, Some ds => Some (d :: ds)
      | _, _ => None
      end
  | String c r =>
      if PyStr.is_space c then
        if in_space then read_format r true
        else option_map (cons Spaces) (read_format r true)
      else option_map (cons (Lit c)) (read_format r false)
  end.

Definition in_range (lo hi : ascii) (c : ascii) : bool :=
  (Nat.leb (nat_of_ascii lo) (nat_of_ascii c)
   && Nat.leb (nat_of_ascii c) (nat_of_ascii hi))%bool.

Definition is_char (a c : ascii) : bool := Ascii.eqb a c.

(** One alternative of a numeric group: two characters, or one. The
    value is [int] of the matched text. *)
Definition two (p1 p2 : ascii -> bool) (s : string) : list (Z * string) :=
  match s with
  | String c1 (String c2 r) =>
      if (p1 c1 && p2 c2)%bool
      then [((if PyStr.is_digit c1 then 10 * PyStr.digit_val c1 else 0)
             + PyStr.digit_val c2, r)]
      else []
  | _ => []
  end.

Definition one (p : ascii -> bool) (s : string) : list (Z * string) :=
  match s with
  | String c r => if p c then [(PyStr.digit_val c, r)] else []
  | _ => []
  end.

Definition digit : ascii -> bool := PyStr.is_digit.

(** The abbreviated month names of the C locale, lower case, in the
    order of the alternation. *)
Definition a_month : list string :=
  ["jan"; "feb"; "mar"; "apr"; "may"; "jun";
   "jul"; "aug"; "sep"; "oct"; "nov"; "dec"].

Fixpoint index_of (x : string) (l : list string) (i : Z) : option Z :=
  match l with
  | [] => None
  | y :: r => if String.eqb x y then Some i else index_of x r (i + 1)
  end.

(** The suffixes left after a greedy [\s+], longest match first. *)
Fixpoint after_spaces (s : string) : list string :=
  match s with
  | String c r => if PyStr.is_space c then after_spaces r ++ [r] else []
  | EmptyString => []
  end.

(** The keys of the groups a match binds. *)
Inductive key : Set := KY | Km | Kd | Kb | Ky | KH | KM | KS.

#[global] Instance key_eq_dec : EqDecision key.
Proof. solve_decision. Defined.

Definition bind (k : key) (alts : list (Z * string))
  : list (list (key * Z) * string) :=
  map (fun p => ([(k, fst p)], snd p)) alts.

(** The ways a directive matches a prefix of [s], in the order a
    backtracking matcher tries them, each with the text that is left. *)
Definition candidates (d : directive) (s : string)
  : list (list (key * Z) * string) :=
  match d with
  | DirY =>
      match s with
      | String c1 (String c2 (String c3 (String c4 r))) =>
          if (digit c1 && digit c2 && digit c3 && digit c4)%bool
          then [([(KY, 1000 * PyStr.digit_val c1 + 100 * PyStr.digit_val c2
                       + 10 * PyStr.digit_val c3 + PyStr.digit_val c4)], r)]
          else []
      | _ => []
      end
  | Diry => bind Ky (two digit digit s)
  | Dirm =>
      bind Km (two (is_char "1") (in_range "0" "2") s
               ++ two (is_char "0") (in_range "1" "9") s
               ++ one (in_range "1" "9") s)
  | Dird =>
      bind Kd (two (is_char "3") (in_range "0" "1") s
               ++ two (in_range "1" "2") digit s
               ++ two (is_char "0") (in_range "1" "9") s
               ++ one (in_range "1" "9") s
               ++ two (is_char " ") (in_range "1" "9") s)
  | DirH =>
      bind KH (two (is_char "2") (in_range "0" "3") s
               ++ two (in_range "0" "1") digit s
               ++ one digit s)
  | DirM =>
      bind KM (two (in_range "0" "5") digit s ++ one digit s)
  | DirS =>
      bind KS (two (is_char "6") (in_range "0" "1") s
               ++ two (in_range "0" "5") digit s
               ++ one digit s)
  | Dirb =>
      match s with
      | String c1 (String c2 (String c3 r)) =>
          match index_of (PyStr.lower (String c1 (String c2 (String c3 "")))) a_month 1 with
          | Some i => [([(Kb, i)], r)]
          | None => []
          end
      | _ => []
      end
  | Lit c =>
      match s with
      | String c' r =>
          if Ascii.eqb (PyStr.lower_char c) (PyStr.lower_char c')
          then [([], r)] else []
      | _ => []
      end
  | Spaces => map (fun r => ([], r)) (after_spaces s)
  end.

(** All matches of a sequence of directives against a prefix of [s], in
    the order of the matcher; the head is the match [re.match] returns. *)
Fixpoint matches (ds : list directive) (s : string)
  : list (list (key * Z) * string) :=
  match ds with
  | [] => [([], s)]
  | d :: ds' =>
      flat_map (fun c =>
                  map (fun m => (fst c ++ fst m, snd m)) (matches ds' (snd c)))
               (candidates d s)
  end.

Fixpoint lookup_key (k : key) (l : list (key * Z)) : option Z :=
  match l with
  | [] => None
  | (k', v) :: r => if decide (k = k') then Some v else lookup_key k r
  end.

(** A [datetime.datetime], as far as it is used. *)
Record datetime : Type := mkDatetime {
  dt_date : PyDate.t;
  dt_hour : Z;
  dt_minute : Z;
  dt_second : Z
}.

(** The conversion of the bound groups: a two digit year up to 68 is in
    the 2000s, missing fields take 1900-01-01 00:00:00, and the
    [datetime] constructor rejects what is out of range. *)
Definition convert (found : list (key * Z)) : option datetime :=
  let y := match lookup_key KY found, lookup_key Ky found with
           | Some y, _ => y
           | None, Some yy => if yy <=? 68 then yy + 2000 else yy + 1900
           | None, None => 1900
           end in
  let m := match lookup_key Km found, lookup_key Kb found with
           | Some m, _ => m
           | None, Some b => b
           | None, None => 1
           end in
  let d := default 1 (lookup_key Kd found) in
  let hh := default 0 (lookup_key KH found) in
  let mm := default 0 (lookup_key KM found) in
  let ss := default 0 (lookup_key KS found) in
  match PyDate.make y m d with
  | Some dd => if ss <=? 59 then Some (mkDatetime dd hh mm ss) else None
  | None => None
  end.

(** [datetime.datetime.strptime(data_string, fmt)]; [None] is the
    [ValueError] (no match, unconverted data, or a value out of range). *)
Definition strptime (data_string fmt : string) : option datetime :=
  match read_format fmt false with
  | None => None
  | Some ds =>
      match matches ds data_string with
      | (found, EmptyString) :: _ => convert found
      | _ => None
      end
  end.

(** The first format of the list that parses the string. *)
Fixpoint first_format (formats : list string) (s : string) : option datetime :=
  match formats with
  | [] => None
  | fmt :: rest =>
      match strptime s fmt with
      | Some parsed => Some parsed
      | None => first_format rest s
      end
  end.

End Strptime.

(** ** [sheets_handler.py]: the date written to a sheet *)

Definition str_of_Z (z : Z) : string :=
  NilZero.string_of_uint (N.to_uint (Z.to_N z)).

Definition pad2 (z : Z) : string :=
  if z <? 10 then String "0" (str_of_Z z) else str_of_Z z.

(** [d.strftime('%d/%m/%Y')]. *)
Definition strftime_dmy (d : PyDate.t) : string :=
  String.append (pad2 (PyDate.day d))
    (String "/" (String.append (pad2 (PyDate.month d))
       (String "/" (str_of_Z (PyDate.year d))))).

Definition sheet_formats_to_try : list string :=
  ["%d/%m/%Y"; "%d-%b-%y"; "%d/%m/%Y %H:%M:%S"].

(** [parse_date_flexible]; the argument is [None] for a value that is
    not a string. *)
Definition parse_date_flexible (date_input : option string) : string :=
  match date_input with
  | None => ""
  | Some "" => ""
  | Some s =>
      match Strptime.first_format sheet_formats_to_try s with
      | Some parsed_date => strftime_dmy (Strptime.dt_date parsed_date)
      | None => ""
      end
  end.

(** ** [main.py]: the date-window filter, the checkpoints and the run *)

Module Main.

Definition formats_to_try : list string :=
  ["%Y-%m-%d"; "%d/%m/%Y"; "%d-%b-%Y";
   "%b %d, %Y"; "%d/%m/%Y %H:%M:%S"; "%d-%b-%y"].

(** The date the filter reads from a date string. *)
Definition parse_transaction_date (s : string) : option PyDate.t :=
  option_map Strptime.dt_date (Strptime.first_format formats_to_try s).

(** [start_date] and [end_date_inclusive]; [None] when one of the three
    date computations raises. *)
Definition date_window (target_year target_month : Z)
  : option (PyDate.t * PyDate.t) :=
  start_date ← PyDate.make target_year target_month 1;
  first_day_next_month ← PyDate.add_one_month start_date;
  end_date_inclusive ← PyDate.add_one_day first_day_next_month;
  Some (start_date, end_date_inclusive).

Record FilterState : Type := mkFilterState {
  filtered_list : list Transaction;
  ignored_count : nat;
  no_date_count : nat
}.

(** The body of [for t in transactions]. *)
Definition filter_step (window : PyDate.t * PyDate.t) (st : FilterState)
                       (t : Transaction) : FilterState :=
  match date t with
  | None => mkFilterState (filtered_list st) (ignored_count st) (S (no_date_count st))
  | Some s =>
      match parse_transaction_date s with
      | None =>
          mkFilterState (filtered_list st) (ignored_count st) (S (no_date_count st))
      | Some transaction_date_obj =>
          if (PyDate.leb (fst window) transaction_date_obj
              && PyDate.leb transaction_date_obj (snd window))%bool
          then mkFilterState (filtered_list st ++ [t]) (ignored_count st)
                             (no_date_count st)
          else mkFilterState (filtered_list st) (S (ignored_count st))
                             (no_date_count st)
      end
  end.

Definition filter_loop (window : PyDate.t * PyDate.t)
                       (transactions : list Transaction) : FilterState :=
  fold_left (filter_step window) transactions (mkFilterState [] 0 0).

(** [filter_transactions_by_date]: the original list when the window
    cannot be computed. *)
Definition filter_transactions_by_date (transactions : list Transaction)
                                       (target_year target_month : Z)
  : list Transaction :=
  match date_window target_year target_month with
  | Some window => filtered_list (filter_loop window transactions)
  | None => transactions
  end.

(** A checkpoint file: missing, unreadable (an [IOError] or a
    [JSONDecodeError]), or a JSON array. An element of the array that
    is not an object is [ItemOther]. *)
Inductive CheckpointItem : Type :=
| ItemDict (item_dict : gmap string pyval)
| ItemOther.

Inductive CheckpointFile : Type :=
| FileMissing
| FileUnreadable
| FileArray (loaded_dicts : list CheckpointItem).

(** The category of an item of the categorized file, before the
    constructor is called. *)
Definition convert_category (item_dict : gmap string pyval) : gmap string pyval :=
  match item_dict !! "category" with
  | Some (PyStr s) => <["category" := PyCategory (Category_from_string s)]> item_dict
  | Some PyNone | Some (PyCategory _) | None => item_dict
  | Some _ => <["category" := PyNone]> item_dict
  end.

Definition deserialize_categorized_item (it : CheckpointItem) : option Transaction :=
  match it with
  | ItemDict item_dict => Transaction_from_dict (convert_category item_dict)
  | ItemOther => None
  end.

(** The date and the category of an item of the processed file. *)
Definition convert_processed (item_dict : gmap string pyval) : gmap string pyval :=
  let item_dict :=
    match item_dict !! "date" with
    | Some (PyStr s) => <["date" := PyStr (parse_date_flexible (Some s))]> item_dict
    | Some (PyCategory c) =>
        <["date" := PyStr (parse_date_flexible (Some (Category_value c)))]> item_dict
    | _ => item_dict
    end in
  match item_dict !! "category" with
  | Some _ => <["category" := PyNone]> item_dict
  | None => item_dict
  end.

Definition deserialize_processed_item (it : CheckpointItem) : option Transaction :=
  match it with
  | ItemDict item_dict => Transaction_from_dict (convert_processed item_dict)
  | ItemOther => None
  end.

(** Loading a checkpoint: [None] when the stage is not resumed from it
    (missing, unreadable or empty); an item that fails is dropped. *)
Definition load_checkpoint (deserialize : CheckpointItem -> option Transaction)
                           (f : CheckpointFile) : option (list Transaction) :=
  match f with
  | FileArray [] => None
  | FileArray loaded_dicts => Some (omap deserialize loaded_dicts)
  | FileMissing | FileUnreadable => None
  end.

Definition load_categorized := load_checkpoint deserialize_categorized_item.
Definition load_processed := load_checkpoint deserialize_processed_item.

(** The array a checkpoint is saved as. *)
Definition save_checkpoint (transactions : list Transaction) : CheckpointFile :=
  FileArray (map (fun t => ItemDict (model_dump_json t)) transactions).

Inductive ResumeStage : Set := Fresh | Processed | Categorized.

(** The body of [for txn in final_transactions] before the save. *)
Definition ensure_category (txn : Transaction) : Transaction :=
  match category txn with
  | None => set_category (Some DEFAULT_CATEGORY_ENUM) txn
  | Some _ => txn
  end.

(** What the run does that is visible outside of it. A checkpoint is
    saved when its file is written; a write that raises is caught and
    logged, and the run goes on. *)
Inductive Event : Type :=
| EvFetchEmails
| EvParsePdfs
| EvDateFilter
| EvSaveProcessed (f : CheckpointFile)
| EvSaveProcessedFailed
| EvEnrich (batch : list Transaction)
| EvSaveCategorized (f : CheckpointFile)
| EvSaveCategorizedFailed
| EvAskUser
| EvUpdateSheet (final_transactions : list Transaction)
| EvQuit.

(** What the run reads. [downloaded] is what the e-mail step returns;
    the last two fields tell whether the write of each checkpoint file
    succeeds. *)
Record World : Type := mkWorld {
  categorized_transactions_file : CheckpointFile;
  processed_transactions_file : CheckpointFile;
  downloaded : list Extraction.PdfDocument;
  preview : bool;
  ai_state : Categorizer.AIState;
  year : Z;
  month_num : Z;
  proceed : bool;
  processed_write_ok : bool;
  categorized_write_ok : bool
}.

(** The resume point: the categorized file is looked at first. *)
Definition resume (w : World)
  : ResumeStage * option (list Transaction) * option (list Transaction) :=
  match load_categorized (categorized_transactions_file w) with
  | Some final_transactions => (Categorized, None, Some final_transactions)
  | None =>
      match load_processed (processed_transactions_file w) with
      | Some all_transactions => (Processed, Some all_transactions, None)
      | None => (Fresh, None, None)
      end
  end.

(** Stage 1; [None] when the preview quits the process. *)
Definition stage1 (w : World) : option (list Transaction * list Event) :=
  match downloaded w with
  | [] =>
      Some (filter_transactions_by_date [] (year w) (month_num w),
            [EvFetchEmails; EvDateFilter])
  | docs =>
      match Extraction.parse_pdfs docs (preview w) [] with
      | None => None
      | Some parsed_transactions =>
          let all_transactions :=
            filter_transactions_by_date parsed_transactions (year w) (month_num w) in
          Some (all_transactions,
                [EvFetchEmails; EvParsePdfs; EvDateFilter]
                ++ match all_transactions with
                   | [] => []
                   | _ => [if processed_write_ok w
                           then EvSaveProcessed (save_checkpoint all_transactions)
                           else EvSaveProcessedFailed]
                   end)
      end
  end.

(** Stage 2 on the transactions of stage 1 or of the processed file. *)
Definition stage2 (w : World) (all_transactions : list Transaction)
  : option (list Transaction) * list Event :=
  match all_transactions with
  | [] => (None, [])
  | _ =>
      match fst (Categorizer.process_transactions_ai (ai_state w) all_transactions) with
      | [] => (Some [], [EvEnrich all_transactions])
      | enriched_transactions =>
          let final_transactions := map ensure_category enriched_transactions in
          (Some final_transactions,
           [EvEnrich all_transactions;
            if categorized_write_ok w
            then EvSaveCategorized (save_checkpoint final_transactions)
            else EvSaveCategorizedFailed])
      end
  end.

(** The final gate and the sheet update. *)
Definition finish (w : World) (final_transactions : option (list Transaction))
  : list Event :=
  match final_transactions with
  | None | Some [] => []
  | Some txs => EvAskUser :: (if proceed w then [EvUpdateSheet txs] else [])
  end.

(** [main], after the configuration and the credentials are there. *)
Definition main (w : World) : list Event :=
  match resume w with
  | (Categorized, _, final_transactions) => finish w final_transactions
  | (Processed, all_transactions, _) =>
      let r := stage2 w (default [] all_transactions) in
      snd r ++ finish w (fst r)
  | (Fresh, _, _) =>
      match stage1 w with
      | None => [EvFetchEmails; EvParsePdfs; EvQuit]
      | Some (all_transactions, events) =>
          let r := stage2 w all_transactions in
          events ++ snd r ++ finish w (fst r)
      end
  end.

End Main.

(** ** [sheets_handler.py]: the rows of an account sheet *)

Module SheetRows.

(** A value written to a cell; the blank cell is the empty string. *)
Inductive cell : Type :=
| CellStr (s : string)
| CellNum (q : Q).

Definition blank : cell := CellStr "".

(** The sign step of [update_google_sheet]: the transaction type
    decides the sign, a missing amount stays missing. *)
Definition signed_amount (t : Transaction) : option Q :=
  match amount t with
  | Some a =>
      match transaction_type t with
      | credit => Some (Qopp (Qabs a))
      | debit => Some (Qabs a)
      end
  | None => None
  end.

Definition cell_of_opt_num (o : option Q) : cell :=
  match o with Some q => CellNum q | None => blank end.

Definition cell_of_opt_str (o : option string) : cell :=
  match o with Some s => CellStr s | None => blank end.

(** [output_columns_data]: date, is_expense, category,
    short_description, description, amount, is_split. *)
Definition account_row (t : Transaction) : list cell :=
  [CellStr (parse_date_flexible (date t));
   cell_of_opt_num (option_map inject_Z (is_expense t));
   cell_of_opt_str (option_map Category_value (category t));
   cell_of_opt_str (short_description t);
   CellStr (description t);
   cell_of_opt_num (signed_amount t);
   cell_of_opt_num (option_map inject_Z (is_split t))].

(** [data_to_write] of the group of one account. *)
Definition data_to_write (account_name : string) (all_transactions : list Transaction)
  : list (list cell) :=
  map account_row
      (List.filter (fun t => match source_account t with
                             | Some a => String.eqb a account_name
                             | None => false
                             end)
                   all_transactions).

End SheetRows.

(** ** [sheets_handler.py]: the row formulas *)

Module SheetFormulas.

(** The four templates of [_apply_row_formulas], as written there. *)
Definition achu_sheet_appu_formula_template : string :=
  "=IF(G{row}=0, F{row}, IF(G{row}=1, F{row}/2, IF(G{row}=2, 0, 0)))".

Definition achu_sheet_achu_formula_template : string :=
  "=IF(G{row}=0, 0, IF(G{row}=1, F{row}/2, IF(G{row}=2, F{row}, 0)))".

Definition standard_appu_formula_template : string :=
  "=ROUND(IF(G{row}<>0, B{row}*F{row}/G{row}, 0))".

Definition standard_achu_formula_template : string :=
  "=ROUND(IF(G{row}<>1, IF(G{row}<>0, B{row}*F{row}/G{row}, B{row}*F{row}) , 0))".

Definition appu_formula_template (is_achu_sheet : bool) : string :=
  if is_achu_sheet then achu_sheet_appu_formula_template
  else standard_appu_formula_template.

Definition achu_formula_template (is_achu_sheet : bool) : string :=
  if is_achu_sheet then achu_sheet_achu_formula_template
  else standard_achu_formula_template.

(** [template.format(row=row)]. *)
Fixpoint format_row (template : string) (row : Z) : string :=
  match template with
  | String "{" (String "r" (String "o" (String "w" (String "}" rest)))) =>
      String.append (str_of_Z row) (format_row rest row)
  | String c rest => String c (format_row rest row)
  | EmptyString => EmptyString
  end.

(** The requests of one call: for every row of the range the cell in
    column H with the first formula, then the cell in column I with the
    second. *)
Definition row_requests (is_achu_sheet : bool) (row : Z) : list (string * string) :=
  [(String.append "H" (str_of_Z row),
    format_row (appu_formula_template is_achu_sheet) row);
   (String.append "I" (str_of_Z row),
    format_row (achu_formula_template is_achu_sheet) row)].

Definition formula_requests (is_achu_sheet : bool) (start_row end_row : Z)
  : list (string * string) :=
  flat_map (fun i => row_requests is_achu_sheet (start_row + Z.of_nat i))
           (seq 0 (Z.to_nat (end_row + 1 - start_row))).

(** *** Reading a template as a spreadsheet formula *)

Inductive token : Type :=
| TEq | TNe | TMul | TDiv | TLParen | TRParen | TComma
| TNum (z : Z)
| TName (s : string)          (* a function name *)
| TCell (col : string).       (* a column of the row of the formula *)

Inductive pending : Type :=
| PNothing
| PWord (w : string)
| PNumber (z : Z).

Definition flush (p : pending) : list token :=
  match p with
  | PNothing => []
  | PWord w => [TName w]
  | PNumber z => [TNum z]
  end.

(** The tokens of a template; a word followed by the row placeholder is
    a reference to that column in the row that holds the formula. *)
Fixpoint lex (s : string) (p : pending) : option (list token) :=
  match s with
  | EmptyString => Some (flush p)
  | String "{" (String "r" (String "o" (String "w" (String "}" rest)))) =>
      match p with
      | PWord w => option_map (cons (TCell w)) (lex rest PNothing)
      | _ => None
      end
  | String c rest =>
      if PyStr.is_upper_ascii c then
        match p with
        | PWord w => lex rest (PWord (String.append w (String c "")))
        | PNothing => lex rest (PWord (String c ""))
        | PNumber _ => None
        end
      else if PyStr.is_digit c then
        match p with
        | PNumber z => lex rest (PNumber (10 * z + PyStr.digit_val c))
        | PNothing => lex rest (PNumber (PyStr.digit_val c))
        | PWord _ => None
        end
      else
        let sym (ts : list token) (r : string) :=
          option_map (fun l => flush p ++ ts ++ l) (lex r PNothing) in
        if Ascii.eqb c " " then sym [] rest
        else if Ascii.eqb c "=" then sym [TEq] rest
        else if Ascii.eqb c "*" then sym [TMul] rest
        else if Ascii.eqb c "/" then sym [TDiv] rest
        else if Ascii.eqb c "(" then sym [TLParen] rest
        else if Ascii.eqb c ")" then sym [TRParen] rest
        else if Ascii.eqb c "," then sym [TComma] rest
        else if Ascii.eqb c "<" then
          match rest with
          | String ">" rest' => sym [TNe] rest'
          | _ => None
          end
        else None
  end.

Inductive expr : Type :=
| Num (z : Z)
| Ref (col : string)
| Mul (a b : expr)
| Div (a b : expr)
| Eq (a b : expr)
| Ne (a b : expr)
| If (c a b : expr)
| Round (a : expr).

(** Recursive descent: a comparison of products of factors. *)
Fixpoint parse_factor (fuel : nat) (ts : list token) : option (expr * list token) :=
  match fuel with
  | O => None
  | S fuel =>
      match ts with
      | TNum z :: r => Some (Num z, r)
      | TCell c :: r => Some (Ref c, r)
      | TName f :: TLParen :: r =>
          if String.eqb f "IF" then
            match parse_comparison fuel r with
            | Some (c, TComma :: r1) =>
                match parse_comparison fuel r1 with
                | Some (a, TComma :: r2) =>
                    match parse_comparison fuel r2 with
                    | Some (b, TRParen :: r3) => Some (If c a b, r3)
                    | _ => None
                    end
                | _ => None
                end
            | _ => None
            end
          else if String.eqb f "ROUND" then
            match parse_comparison fuel r with
            | Some (a, TRParen :: r1) => Some (Round a, r1)
            | _ => None
            end
          else None
      | _ => None
      end
  end
with parse_product_rest (fuel : nat) (acc : expr) (ts : list token)
  : option (expr * list token) :=
  match fuel with
  | O => None
  | S fuel =>
      match ts with
      | TMul :: r =>
          match parse_factor fuel r with
          | Some (b, r1) => parse_product_rest fuel (Mul acc b) r1
          | None => None
          end
      | TDiv :: r =>
          match parse_factor fuel r with
          | Some (b, r1) => parse_product_rest fuel (Div acc b) r1
          | None => None
          end
      | _ => Some (acc, ts)
      end
  end
with parse_comparison (fuel : nat) (ts : list token) : option (expr * list token) :=
  match fuel with
  | O => None
  | S fuel =>
      match parse_factor fuel ts with
      | Some (a, r) =>
          match parse_product_rest fuel a r with
          | Some (a', TEq :: r1) =>
              match parse_factor fuel r1 with
              | Some (b, r2) =>
                  match parse_product_rest fuel b r2 with
                  | Some (b', r3) => Some (Eq a' b', r3)
                  | None => None
                  end
              | None => None
              end
          | Some (a', TNe :: r1) =>
              match parse_factor fuel r1 with
              | Some (b, r2) =>
                  match parse_product_rest fuel b r2 with
                  | Some (b', r3) => Some (Ne a' b', r3)
                  | None => None
                  end
              | None => None
              end
          | other => other
          end
      | None => None
      end
  end.

(** A template is a formula when it starts with the equal sign and the
    rest is one expression. *)
Definition parse_template (template : string) : option expr :=
  match lex template PNothing with
  | Some (TEq :: ts) =>
      match parse_comparison (2 * length ts) ts with
      | Some (e, []) => Some e
      | _ => None
      end
  | _ => None
  end.

(** The values of the row: a column holds a number. *)
Definition row_values : Type := string -> Q.

Inductive value : Type :=
| VNum (q : Q)
| VBool (b : bool)
| VError.                     (* a division by zero *)

(** [ROUND] to an integer, halves away from zero. *)
Definition round_half_away (q : Q) : Q :=
  if Qle_bool 0 q then inject_Z (Qfloor (q + (1 # 2)))
  else Qopp (inject_Z (Qfloor (Qopp q + (1 # 2)))).

Definition truth (v : value) : option bool :=
  match v with
  | VBool b => Some b
  | VNum q => Some (negb (Qeq_bool q 0))
  | VError => None
  end.

Definition as_num (v : value) : option Q :=
  match v with
  | VNum q => Some q
  | VBool b => Some (if b then 1%Q else 0%Q)
  | VError => None
  end.

Definition binop (f : Q -> Q -> value) (a b : value) : value :=
  match as_num a, as_num b with
  | Some x, Some y => f x y
  | _, _ => VError
  end.

(** The value of a formula in a row; [IF] evaluates only the branch
    it selects. *)
Fixpoint eval (row : row_values) (e : expr) : value :=
  match e with
  | Num z => VNum (inject_Z z)
  | Ref col => VNum (row col)
  | Mul a b => binop (fun x y => VNum (x * y)) (eval row a) (eval row b)
  | Div a b =>
      binop (fun x y => if Qeq_bool y 0 then VError else VNum (x / y))
            (eval row a) (eval row b)
  | Eq a b => binop (fun x y => VBool (Qeq_bool x y)) (eval row a) (eval row b)
  | Ne a b => binop (fun x y => VBool (negb (Qeq_bool x y))) (eval row a) (eval row b)
  | If c a b =>
      match truth (eval row c) with
      | Some true => eval row a
      | Some false => eval row b
      | None => VError
      end
  | Round a =>
      match as_num (eval row a) with
      | Some x => VNum (round_half_away x)
      | None => VError
      end
  end.

(** The row of an account sheet as the formulas see it: column B is the
    expense flag, F the cost, G the split flag. *)
Definition sheet_row (is_expense cost is_split : Q) : row_values :=
  fun col =>
    if String.eqb col "B" then is_expense
    else if String.eqb col "F" then cost
    else if String.eqb col "G" then is_split
    else 0%Q.

(** The number a template shows in a row, reduced to lowest terms. *)
Definition template_value (template : string) (row : row_values) : option Q :=
  match parse_template template with
  | Some e =>
      match eval row e with
      | VNum q => Some (Qred q)
      | _ => None
      end
  | None => None
  end.

(** The shares columns H (party A) and I (party B) show. *)
Definition shares (is_achu_sheet : bool) (is_expense cost is_split : Q)
  : option Q * option Q :=
  (template_value (appu_formula_template is_achu_sheet)
                  (sheet_row is_expense cost is_split),
   template_value (achu_formula_template is_achu_sheet)
                  (sheet_row is_expense cost is_split)).

End SheetFormulas.

(** ** [sheets_handler.py]: the synchronisation of the sheets *)

Module SheetSync.

(** The target list: the two standard sheets, the two required sheets,
    then the account names (sorted, distinct, not empty) that are not
    among them. *)
Definition base_sheets : list string := ["Cash"; "Achu"; "Final Recon"; "Reporting"].

Definition target_sheet_names (all_account_names : list string) : list string :=
  base_sheets
  ++ List.filter (fun name => negb (bool_decide (name ∈ base_sheets)))
                 (List.filter (fun name => negb (String.eqb name "")) all_account_names).

(** The workbook: the titles of its worksheets in index order. The
    title is the key of a worksheet, as in the dictionary
    [existing_sheets]. The three calls below are the document service;
    [None] is the error it answers: the last worksheet cannot be
    deleted, and a title cannot be given twice. *)
Definition workbook : Type := list string.

Definition del_worksheet (doc : workbook) (title : string) : option workbook :=
  if bool_decide (title ∈ doc) && Nat.ltb 1 (length doc)
  then Some (filter (fun x => x ≠ title) doc)
  else None.

Definition add_worksheet (doc : workbook) (title : string) : option workbook :=
  if bool_decide (title ∈ doc) then None else Some (doc ++ [title]).

Definition update_title (doc : workbook) (old new : string) : option workbook :=
  if bool_decide (old ∈ doc) && negb (bool_decide (new ∈ doc))
  then Some (map (fun x => if bool_decide (x = old) then new else x) doc)
  else None.

(** A call to the document service and whether it succeeded. *)
Inductive Op : Type :=
| OpDelete (title : string) (ok : bool)
| OpAdd (title : string) (ok : bool)
| OpRename (old new : string) (ok : bool)
| OpReorder (titles : list string).

Record SyncState : Type := mkSyncState {
  doc : workbook;
  existing_sheet_names : gset string;
  ops : list Op
}.

(** The body of [for sheet_name in sheets_to_delete]. *)
Definition delete_step (st : SyncState) (sheet_name : string) : SyncState :=
  if bool_decide (size (existing_sheet_names st) = 1%nat)
     && bool_decide (sheet_name = "Sheet1")
  then st
  else
    match del_worksheet (doc st) sheet_name with
    | Some doc' =>
        mkSyncState doc' (existing_sheet_names st ∖ {[sheet_name]})
                    (ops st ++ [OpDelete sheet_name true])
    | None =>
        mkSyncState (doc st) (existing_sheet_names st)
                    (ops st ++ [OpDelete sheet_name false])
    end.

(** The body of [for sheet_name in target_sheet_names]. *)
Definition add_step (sheets_to_add : gset string) (st : SyncState)
                    (sheet_name : string) : SyncState :=
  if bool_decide (sheet_name ∈ sheets_to_add) then
    if bool_decide ("Sheet1" ∈ existing_sheet_names st)
       && bool_decide (size (existing_sheet_names st) = 1%nat)
    then
      match update_title (doc st) "Sheet1" sheet_name with
      | Some doc' =>
          mkSyncState doc'
                      (existing_sheet_names st ∖ {["Sheet1"]} ∪ {[sheet_name]})
                      (ops st ++ [OpRename "Sheet1" sheet_name true])
      | None =>
          mkSyncState (doc st) (existing_sheet_names st)
                      (ops st ++ [OpRename "Sheet1" sheet_name false])
      end
    else
      match add_worksheet (doc st) sheet_name with
      | Some doc' =>
          mkSyncState doc' (existing_sheet_names st ∪ {[sheet_name]})
                      (ops st ++ [OpAdd sheet_name true])
      | None =>
          mkSyncState (doc st) (existing_sheet_names st)
                      (ops st ++ [OpAdd sheet_name false])
      end
  else st.

(** [target_order_map.get(title, 999)]: the index of the title in the
    target list (the last one, were it there twice). *)
Fixpoint target_index (target : list string) (i : nat) (title : string)
                      (found : nat) : nat :=
  match target with
  | [] => found
  | name :: rest =>
      target_index rest (S i) title (if bool_decide (name = title) then i else found)
  end.

Definition order_key (target : list string) (title : string) : nat :=
  target_index target 0 title 999.

(** [sorted(current_worksheets, key=...)]: a stable sort. *)
Fixpoint insert_by (key : string -> nat) (x : string) (l : list string)
  : list string :=
  match l with
  | [] => [x]
  | y :: r => if Nat.ltb (key x) (key y) then x :: l else y :: insert_by key x r
  end.

Definition sorted_by (key : string -> nat) (l : list string) : list string :=
  fold_left (fun acc x => insert_by key x acc) l [].

(** The block "Manage Sheets": the deletions, the additions, the
    reordering. [iteration_order] is the order in which the set
    [sheets_to_delete] is iterated. *)
Definition sync (iteration_order : list string -> list string)
                (target_sheet_names : list string) (spreadsheet : workbook)
  : SyncState :=
  let existing : gset string := list_to_set spreadsheet in
  let target_sheet_names_set : gset string := list_to_set target_sheet_names in
  let sheets_to_delete := existing ∖ target_sheet_names_set in
  let can_delete :=
    Nat.ltb 1 (size existing) || bool_decide (sheets_to_delete = ∅) in
  let st := mkSyncState spreadsheet existing [] in
  let st :=
    if negb (bool_decide (sheets_to_delete = ∅)) && can_delete
    then fold_left delete_step (iteration_order (elements sheets_to_delete)) st
    else st in
  let sheets_to_add := target_sheet_names_set ∖ existing_sheet_names st in
  let st := fold_left (add_step sheets_to_add) target_sheet_names st in
  let ordered_worksheets := sorted_by (order_key target_sheet_names) (doc st) in
  mkSyncState ordered_worksheets (existing_sheet_names st)
              (ops st ++ match ordered_worksheets with
                         | [] => []
                         | _ => [OpReorder ordered_worksheets]
                         end).







End SheetSync.

(** ** [main.py] and [sheets_handler.py]: the month of the run *)

Module RunMonth.

(** [d - datetime.timedelta(days=1)]; [None] is the [OverflowError]
    below [date.min]. *)
Definition sub_one_day (d : PyDate.t) : option PyDate.t :=
  if 1 <? PyDate.day d
  then Some (PyDate.mk (PyDate.year d) (PyDate.month d) (PyDate.day d - 1))
  else if 1 <? PyDate.month d
  then Some (PyDate.mk (PyDate.year d) (PyDate.month d - 1)
                       (PyDate.days_in_month (PyDate.year d) (PyDate.month d - 1)))
  else PyDate.make (PyDate.year d - 1) 12 31.

(** [today.replace(day=1)]. *)
Definition replace_day_1 (d : PyDate.t) : PyDate.t :=
  PyDate.mk (PyDate.year d) (PyDate.month d) 1.

Definition month_names : list string :=
  ["January"; "February"; "March"; "April"; "May"; "June"; "July";
   "August"; "September"; "October"; "November"; "December"].

(** [d.strftime("%B")], in the C locale. *)
Definition strftime_B (d : PyDate.t) : string :=
  nth (Z.to_nat (PyDate.month d - 1)) month_names "".

(** [get_previous_month] of [main.py]; the argument is
    [datetime.date.today()]. *)
Definition get_previous_month (today : PyDate.t) : option (Z * Z * string) :=
  let first_day_of_current_month := replace_day_1 today in
  last_day_of_previous_month ← sub_one_day first_day_of_current_month;
  let year := PyDate.year last_day_of_previous_month in
  let month_num := PyDate.month last_day_of_previous_month in
  let month_name := strftime_B last_day_of_previous_month in
  Some (year, month_num, month_name).

(** The name of the workbook that [update_google_sheet] looks for. The
    function reads the clock itself, when it is called (after the
    confirmation of the user), and computes the month again from the
    same three steps; the argument is the date it reads. *)
Definition sheet_name (today : PyDate.t) : option string :=
  let first_day_of_current_month := replace_day_1 today in
  last_day_of_previous_month ← sub_one_day first_day_of_current_month;
  let year_str := str_of_Z (PyDate.year last_day_of_previous_month) in
  let month_name := strftime_B last_day_of_previous_month in
  Some (String.append "Accounts-"
          (String.append year_str (String.append "-" month_name))).

End RunMonth.

(** ** [pdf_parser.py]: the account a statement is attributed to *)

Module AccountMapping.

Definition default_account : string := "Unknown Account".

Definition hdfc_savings_account_name : string := "HDFC Savings".

(** [sep.join(l)]. *)
Fixpoint join (sep : string) (l : list string) : string :=
  match l with
  | [] => ""
  | [x] => x
  | x :: r => String.append x (String.append sep (join sep r))
  end.

(** The text-generation model: the text of its response to a prompt,
    [None] when the call or the reading of the text raises. *)
Definition GenerativeModel : Type := string -> option string.

Definition account_prompt (filename : string) (allowed_names : list string)
  : string :=
  String.append "Analyze the following filename: '"
    (String.append filename
       (String.append "'. Choose the single best matching account name from this list: "
          (String.append (join ", " allowed_names)
             ". Respond with *only* the chosen account name from the list, and nothing else."))).

(** [_get_account_name_via_ai]; [model] is [None] for a false value. *)
Definition _get_account_name_via_ai (filename : string)
           (allowed_names : list string) (model : option GenerativeModel)
  : string :=
  match allowed_names with
  | [] => default_account
  | _ =>
      match model with
      | None => default_account
      | Some generate_content =>
          match generate_content (account_prompt filename allowed_names) with
          | Some text =>
              let response_text := PyStr.strip text in
              if bool_decide (response_text ∈ allowed_names)
              then response_text
              else default_account
          | None => default_account
          end
      end
  end.

(** The fragment of the regular expressions of [re] that the file-name
    rule uses: a sequence of one-character classes, each taken once or
    one or more times, matched from the start of the string to [$]. *)
Inductive char_class : Set :=
| AnyChar                 (* [.]: any character but the newline *)
| Digit                   (* [\d] *)
| Literal (c : ascii).

Inductive piece : Set :=
| One (k : char_class)
| OneOrMore (k : char_class).

Definition newline : ascii := "010"%char.

Definition in_class (k : char_class) (c : ascii) : bool :=
  match k with
  | AnyChar => negb (Ascii.eqb c newline)
  | Digit => PyStr.is_digit c
  | Literal x => Ascii.eqb c x
  end.

(** [$]: the end of the string, or the newline that ends it. *)
Definition at_end (s : string) : bool :=
  match s with
  | "" => true
  | String c "" => Ascii.eqb c newline
  | _ => false
  end.

(** [re.match]: is there a match of the whole pattern at the start of
    the string. A repetition tries the longer run first. *)
Fixpoint re_match (p : list piece) (s : string) {struct p} : bool :=
  match p with
  | [] => at_end s
  | One k :: p' =>
      match s with
      | String c s' => in_class k c && re_match p' s'
      | "" => false
      end
  | OneOrMore k :: p' =>
      (fix more (s : string) : bool :=
         match s with
         | String c s' => in_class k c && (more s' || re_match p' s')
         | "" => false
         end) s
  end.

(** Reading a pattern of the fragment: [^] at the start, [$] at the
    end, the atoms [.], [\d], an escaped or a plain character, and the
    quantifiers [+] and [{n}] with one digit. *)
Definition atom_quantified (k : char_class) (rest : string)
  : list piece * string :=
  match rest with
  | String "+" rest' => ([OneOrMore k], rest')
  | String "{" (String n (String "}" rest')) =>
      if PyStr.is_digit n
      then (repeat (One k) (Z.to_nat (PyStr.digit_val n)), rest')
      else ([One k], rest)
  | _ => ([One k], rest)
  end.

Definition backslash : ascii := "092"%char.

Definition special_chars : list ascii :=
  ["$"; "^"; "+"; "{"; "}"; "*"; "?"; "("; ")"; "["; "]"; "|"]%char.

Fixpoint compile_atoms (fuel : nat) (s : string) : option (list piece) :=
  match fuel with
  | O => None
  | S fuel' =>
      match s with
      | "" => None                                   (* no [$] *)
      | String c rest =>
          if Ascii.eqb c backslash then
            match rest with
            | String e rest =>
                let k := if Ascii.eqb e "d" then Digit else Literal e in
                let '(ps, rest') := atom_quantified k rest in
                option_map (app ps) (compile_atoms fuel' rest')
            | "" => None
            end
          else if Ascii.eqb c "$" then
            match rest with
            | "" => Some []
            | _ => None
            end
          else if existsb (Ascii.eqb c) special_chars then None
          else
            let k := if Ascii.eqb c "." then AnyChar else Literal c in
            let '(ps, rest') := atom_quantified k rest in
            option_map (app ps) (compile_atoms fuel' rest')
      end
  end.

Definition compile (pattern : string) : option (list piece) :=
  match pattern with
  | String "^" rest => compile_atoms (String.length pattern) rest
  | _ => None
  end.

Definition hdfc_pattern : string := "^.+_\d{8}_.+\.pdf$".

(** [re.match(hdfc_pattern, base_name) is not None]. *)
Definition filename_matches (base_name : string) : bool :=
  match compile hdfc_pattern with
  | Some p => re_match p base_name
  | None => false
  end.

Definition subject_matches (pdf_subject : string) : bool :=
  PyStr.contains "hdfc" (PyStr.lower pdf_subject)
  && PyStr.contains "statement" (PyStr.lower pdf_subject).

(** [os.path.basename]: what follows the last [/]. *)
Fixpoint has_sep (p : string) : bool :=
  match p with
  | "" => false
  | String c r => Ascii.eqb c "/" || has_sep r
  end.

Fixpoint basename (p : string) : string :=
  match p with
  | "" => ""
  | String c r =>
      if has_sep r then basename r
      else if Ascii.eqb c "/" then r else p
  end.

(** An entry of [pdf_info_list]. *)
Record PdfInfo : Type := mkPdfInfo {
  path : string;
  subject : option string
}.

(** The account of one statement: the rule on the file name and the
    subject first, the model otherwise. [ACCOUNT_NAMES] is [None] when
    the configuration has no list under that key. *)
Definition source_account_of (ACCOUNT_NAMES : option (list string))
           (model : GenerativeModel) (pdf_info : PdfInfo) : string :=
  let pdf_path := path pdf_info in
  let pdf_subject := default "" (subject pdf_info) in
  let base_name := basename pdf_path in
  let account_names := default [] ACCOUNT_NAMES in
  let filename_matches := filename_matches base_name in
  let subject_matches := subject_matches pdf_subject in
  if bool_decide (hdfc_savings_account_name ∈ account_names)
     && filename_matches && subject_matches
  then hdfc_savings_account_name
  else _get_account_name_via_ai base_name account_names (Some model).

(** The statement as the extraction loop sees it: its account, and the
    answers of the collaborators for the file. *)
Definition document (ACCOUNT_NAMES : option (list string))
           (model : GenerativeModel)
           (file : PdfInfo * (bool * list Extraction.Page * Extraction.PreviewChoice))
  : Extraction.PdfDocument :=
  let '(pdf_info, (opened, pages, preview)) := file in
  Extraction.mkPdfDocument (source_account_of ACCOUNT_NAMES model pdf_info)
                           opened pages preview.

End AccountMapping.

(** ** [pdf_parser.py]: opening a statement *)

Module PdfOpen.

(** A file as the document library sees it: whether [fitz.open]
    returns, whether the document asks for a password, and what
    [authenticate] answers for a password ([None] when it raises). *)
Record PdfFile : Type := mkPdfFile {
  can_open : bool;
  needs_pass : bool;
  authenticate : string -> option bool
}.

(** The state of the loop over the passwords: [opened_successfully]
    and the passwords handed to [authenticate] so far. *)
Fixpoint try_passwords (f : PdfFile) (pdf_passwords : list string)
         (tried : list string) : bool * list string :=
  match pdf_passwords with
  | [] => (false, tried)
  | password :: rest =>
      if can_open f then
        match authenticate f password with
        | Some true => (true, tried ++ [password])
        | _ => try_passwords f rest (tried ++ [password])
        end
      else try_passwords f rest tried
  end.

(** The opening of one statement: whether it is processed, and the
    passwords that were tried on it. *)
Definition open_document (f : PdfFile) (pdf_passwords : list string)
  : bool * list string :=
  let opened_successfully := can_open f && negb (needs_pass f) in
  if negb opened_successfully
  then match pdf_passwords with
       | [] => (false, [])
       | _ => try_passwords f pdf_passwords []
       end
  else (true, []).

End PdfOpen.

(** ** [sheets_handler.py]: the account sheets and what is written to them *)

Module SheetAccounts.

(** [sorted(l)] on strings, which Python compares by code points. *)
Fixpoint insert_sorted (x : string) (l : list string) : list string :=
  match l with
  | [] => [x]
  | y :: r => if String.ltb x y then x :: l else y :: insert_sorted x r
  end.

Definition sorted (l : list string) : list string :=
  fold_left (fun acc x => insert_sorted x acc) l [].

(** The truth value of [tx.source_account]. *)
Definition has_account (tx : Transaction) : bool :=
  match source_account tx with
  | Some a => negb (String.eqb a "")
  | None => false
  end.

(** [tx.source_account or 'Unknown']. *)
Definition account_or_unknown (tx : Transaction) : string :=
  match source_account tx with
  | Some a => if String.eqb a "" then "Unknown" else a
  | None => "Unknown"
  end.

(** [all_account_names]; [iteration_order] is the order in which
    [list] reads the set. *)
Definition all_account_names (iteration_order : list string -> list string)
           (all_transactions : list Transaction) : list string :=
  let names : gset string :=
    list_to_set (map account_or_unknown (List.filter has_account all_transactions)) in
  sorted (iteration_order (elements names)).

Definition account_sheets (all_account_names : list string) : list string :=
  List.filter (fun name => negb (String.eqb name "")) all_account_names.

(** The sheets that receive rows. *)
Definition account_sheet_names (all_account_names : list string) : gset string :=
  list_to_set (account_sheets all_account_names ++ ["Cash"; "Achu"]).

(** The key of [groupby('source_account')], after [fillna('')]. *)
Definition group_key (tx : Transaction) : string :=
  default "" (source_account tx).

(** [grouped_data]: the groups in the order of their keys, each with
    its transactions in the order of the batch. *)
Definition grouped_data (all_transactions : list Transaction)
  : list (string * list Transaction) :=
  let keys : gset string := list_to_set (map group_key all_transactions) in
  map (fun k => (k, List.filter (fun tx => String.eqb (group_key tx) k)
                                all_transactions))
      (sorted (elements keys)).

(** The loop "Populate Data": the rows written to each sheet.
    [available] tells whether the worksheet of that title is found, has
    an identifier and accepts the update. *)
Definition populate (iteration_order : list string -> list string)
           (available : string -> bool) (all_transactions : list Transaction)
  : list (string * list (list SheetRows.cell)) :=
  let account_sheet_names :=
    account_sheet_names (all_account_names iteration_order all_transactions) in
  omap (fun '(account_name, group_df) =>
          let target_sheet_name : string := account_name in
          if String.eqb target_sheet_name "" || String.eqb target_sheet_name "Unknown"
          then None
          else if negb (bool_decide (target_sheet_name ∈ account_sheet_names))
          then None
          else if negb (available target_sheet_name) then None
          else Some (target_sheet_name, map SheetRows.account_row group_df))
       (grouped_data all_transactions).

End SheetAccounts.

(** ** [categorizer.py] and [sheets_handler.py]: the category lists *)

Module CategoryLists.

(** The names the prompt of the classifier lists as valid categories. *)
Definition offered_names : list string := map Category_name Category_members.

(** The values of the drop-down list of the category column. *)
Definition category_values_for_validation : list string :=
  SheetAccounts.sorted
    (map Category_value
         (List.filter (fun cat => negb (bool_decide (cat = UNCATEGORIZED)))
                      Category_members)).

End CategoryLists.

(** ** [email_handler.py]: the attachments of a message and where they
       are saved *)

Module EmailHandler.

(** A part of a message payload. A key that is absent is the empty
    string here, which has the default and the truth value the code
    reads: [mimeType], [filename], the [attachmentId] of the body, and
    the nested parts (none when the key is absent). *)
#[warnings="-register-all"]
Inductive Part : Type :=
| mkPart (mimeType filename attachmentId : string) (parts : list Part).

Definition part_mimeType (p : Part) : string :=
  match p with mkPart m _ _ _ => m end.

Definition part_filename (p : Part) : string :=
  match p with mkPart _ f _ _ => f end.

Definition part_attachmentId (p : Part) : string :=
  match p with mkPart _ _ a _ => a end.

Definition part_parts (p : Part) : list Part :=
  match p with mkPart _ _ _ l => l end.

(** The truth value of a string. *)
Definition truthy (s : string) : bool := negb (String.eqb s "").

(** [s.endswith(suffix)]. *)
Fixpoint endswith (suffix s : string) : bool :=
  String.eqb s suffix
  || match s with
     | "" => false
     | String _ r => endswith suffix r
     end.

Definition is_potential_pdf (part : Part) : bool :=
  let mime_type := PyStr.lower (part_mimeType part) in
  let filename := part_filename part in
  if existsb (String.eqb mime_type) ["application/pdf"; "application/x-pdf"]
  then true
  else String.eqb mime_type "application/octet-stream"
       && truthy filename && endswith ".pdf" (PyStr.lower filename).

(** [_find_pdf_parts]. *)
Fixpoint _find_pdf_parts (part : Part) : list Part :=
  let found_parts :=
    if is_potential_pdf part
    then if truthy (part_filename part) && truthy (part_attachmentId part)
         then [part] else []
    else [] in
  found_parts
  ++ (fix nested (l : list Part) : list Part :=
        match l with
        | [] => []
        | nested_part :: l' => _find_pdf_parts nested_part ++ nested l'
        end) (part_parts part).

(** *** The name of the saved file *)

Definition is_alnum (c : ascii) : bool :=
  PyStr.is_digit c || PyStr.is_upper_ascii c || PyStr.is_lower_ascii c.

(** ["".join(c if c.isalnum() or c in keep else '_' for c in s)]. *)
Fixpoint sanitize (keep : list ascii) (s : string) : string :=
  match s with
  | "" => ""
  | String c r =>
      String (if is_alnum c || existsb (Ascii.eqb c) keep then c else "_"%char)
             (sanitize keep r)
  end.

(** [s.split('<')[0]]. *)
Fixpoint before_angle (s : string) : string :=
  match s with
  | "" => ""
  | String c r => if Ascii.eqb c "<" then "" else String c (before_angle r)
  end.

Definition len (s : string) : Z := Z.of_nat (String.length s).

(** [s[:n]]; a negative [n] counts from the end. *)
Definition slice_to (n : Z) (s : string) : string :=
  if 0 <=? n then String.substring 0 (Z.to_nat n) s
  else String.substring 0 (Z.to_nat (len s + n)) s.

Definition max_len : Z := 200.

Definition output_filename (msg_date sender subject filename : string) : string :=
  let safe_sender := sanitize [" "; "_"; "-"]%char (PyStr.strip (before_angle sender)) in
  let safe_subject := sanitize [" "; "_"; "-"]%char subject in
  let safe_filename := sanitize ["."; "_"; "-"]%char filename in
  let output_filename :=
    String.append msg_date
      (String "_" (String.append safe_sender
         (String "_" (String.append safe_subject (String "_" safe_filename))))) in
  if max_len <? len output_filename then
    let keep_len :=
      max_len - len (String.append msg_date (String.append "_..._..._" safe_filename)) - 3 in
    let half_keep := keep_len / 2 in
    let output_filename :=
      String.append msg_date
        (String "_" (String.append (slice_to half_keep safe_sender)
           (String.append "..._" (String.append (slice_to half_keep safe_subject)
              (String.append "..._" safe_filename))))) in
    slice_to max_len output_filename
  else output_filename.

(** [os.path.join(a, b)]. *)
Definition path_join (a b : string) : string :=
  match b with
  | String "/" _ => b
  | _ => if negb (truthy a) || endswith "/" a then String.append a b
         else String.append a (String "/" b)
  end.

(** [p.rfind(c)]. *)
Fixpoint rfind_from (c : ascii) (s : string) (i found : Z) : Z :=
  match s with
  | "" => found
  | String x r => rfind_from c r (i + 1) (if Ascii.eqb x c then i else found)
  end.

Definition rfind (c : ascii) (s : string) : Z := rfind_from c s 0 (-1).

Fixpoint all_dots (s : string) : bool :=
  match s with
  | "" => true
  | String c r => Ascii.eqb c "." && all_dots r
  end.

(** [os.path.splitext]: the extension starts at the last dot of the
    last component, the leading dots of the component apart. *)
Definition splitext (p : string) : string * string :=
  let sepIndex := rfind "/" p in
  let dotIndex := rfind "." p in
  if sepIndex <? dotIndex then
    let n := Z.to_nat dotIndex in
    let s := Z.to_nat (sepIndex + 1) in
    if all_dots (String.substring s (n - s) p) then (p, "")
    else (String.substring 0 n p,
          String.substring n (String.length p - n) p)
  else (p, "").

(** The loop that looks for a path that does not exist. [path_exists]
    is [os.path.exists]; the outer [None] is the end of the fuel, the
    inner one the [filepath = None] of the safety break. *)
Fixpoint unique_loop (fuel : nat) (path_exists : string -> bool)
         (original_filepath filepath : string) (counter : Z)
  : option (option string) :=
  match fuel with
  | O => None
  | S fuel' =>
      if path_exists filepath then
        let '(name, ext) := splitext original_filepath in
        let filepath :=
          String.append name (String "_" (String.append (str_of_Z counter) ext)) in
        let counter := counter + 1 in
        if 100 <? counter then Some None
        else unique_loop fuel' path_exists original_filepath filepath counter
      else Some (Some filepath)
  end.

Definition unique_filepath (fuel : nat) (path_exists : string -> bool)
           (filepath : string) : option (option string) :=
  unique_loop fuel path_exists filepath filepath 1.

(** One attachment to save: the path computed for it and whether the
    write succeeds. *)
Record Attachment : Type := mkAttachment {
  attachment_filepath : string;
  write_ok : bool
}.

(** The state of the loop over the attachments: the files that exist
    and [downloaded_files_info]. A failed write leaves no file. *)
Record DownloadState : Type := mkDownloadState {
  files : gset string;
  downloaded_files_info : list string
}.

Definition download_step (st : DownloadState) (a : Attachment) : DownloadState :=
  match unique_filepath 101 (fun p => bool_decide (p ∈ files st))
                        (attachment_filepath a) with
  | Some (Some filepath) =>
      if write_ok a
      then mkDownloadState (files st ∪ {[filepath]})
                           (downloaded_files_info st ++ [filepath])
      else st
  | _ => st
  end.

Definition download_all (existing : gset string) (l : list Attachment)
  : DownloadState :=
  fold_left download_step l (mkDownloadState existing []).

End EmailHandler.

(** * Properties *)

(** ** Helper facts on lists *)

Lemma map_is_fmap {A B} (f : A -> B) (l : list A) : map f l = f <$> l.
Proof. induction l as [|x l IH]; simpl; [reflexivity | now rewrite IH]. Qed.

Lemma Forall_concat {A} (P : A -> Prop) (ls : list (list A)) :
  Forall (Forall P) ls -> Forall P (concat ls).
Proof.
  induction 1 as [|l ls Hl _ IH]; simpl; [constructor | ].
  apply Forall_app. split; assumption.
Qed.

(** ** The category resolver *)

Example from_string_typo :
  Category_from_string "ENTERTAINTMENT" = ENTERTAINMENT.
Proof. vm_compute. reflexivity. Qed.

Example from_string_unknown : Category_from_string "Foobar" = UNCATEGORIZED.
Proof. vm_compute. reflexivity. Qed.

Example from_string_normalized :
  Category_from_string "  income tax " = INCOME_TAX.
Proof. vm_compute. reflexivity. Qed.

(** ** Extraction: what a new transaction holds *)

Module ExtractionFacts.
Import Extraction.

(** What extraction leaves in the four enrichment fields of a
    transaction. *)
Definition extracted_state (t : Transaction) : Prop :=
  short_description t = None
  /\ category t = None
  /\ is_expense t = None
  /\ is_split t = Some (if PyStr.contains "achu" (PyStr.lower (description t))
                        then 2 else 1).

(** The four enrichment fields as the constructor leaves them when it
    is given none of them. *)
Definition at_defaults (t : Transaction) : Prop :=
  short_description t = None /\ category t = None
  /\ is_expense t = None /\ is_split t = Some 1.

(** An object of a response that carries none of the four enrichment
    fields, as the prompt asks. *)
Definition follows_protocol (o : gmap string pyval) : Prop :=
  o !! "short_description" = None /\ o !! "category" = None
  /\ o !! "is_expense" = None /\ o !! "is_split" = None.

(** A statement as its pages answer: the account, whether the file
    opens, the decoded response of every page ([None] when there is
    none), and the answer to the preview. *)
Definition StatementFile : Type :=
  string * bool * list (option (list (gmap string pyval))) * PreviewChoice.

Definition document_of (file : StatementFile) : PdfDocument :=
  let '(source_account, opened, responses, preview) := file in
  mkPdfDocument source_account opened (map page_of_response responses) preview.

Definition responses_follow_protocol (file : StatementFile) : Prop :=
  let '(_, _, responses, _) := file in
  Forall (fun response => match response with
                          | Some objects => Forall follows_protocol objects
                          | None => True
                          end) responses.

(** The object the prompt describes: the four fields of the extraction
    protocol and no other key; and the transaction it validates to. *)
Definition protocol_object (date : option string) (description : string)
           (amount : pyval) (transaction_type : TransactionType)
  : gmap string pyval :=
  <["date" := py_of_opt_str date]>
  (<["description" := PyStr description]>
  (<["amount" := amount]>
  (<["transaction_type" := PyStr (TransactionType_value transaction_type)]> ∅))).

Definition protocol_row (date : option string) (description : string)
           (amount : pyval) (transaction_type : TransactionType)
  : Transaction :=
  mkTransaction date description (Pydantic.clean_amount amount)
                None None None (Some 1) None transaction_type.

Ltac open_binds H :=
  repeat match type of H with
         | (?x ≫= _) = Some _ =>
             let E := fresh "V" in
             destruct x eqn:E; simpl in H; [ | discriminate H ]
         end.

Lemma validated_at_defaults (o : gmap string pyval) (t : Transaction) :
  follows_protocol o -> Transaction_from_dict o = Some t -> at_defaults t.
Proof.
  intros (H1 & H2 & H3 & H4) H. unfold Transaction_from_dict in H.
  rewrite H1, H2, H3, H4 in H. open_binds H.
  simpl in *. inversion H. subst t.
  repeat match goal with
         | V : Some _ = Some _ |- _ => inversion V; clear V
         end.
  subst. repeat split.
Qed.

Lemma validate_protocol_object (date : option string) (description : string)
      (amount : pyval) (transaction_type : TransactionType) :
  Transaction_from_dict (protocol_object date description amount transaction_type)
  = Some (protocol_row date description amount transaction_type).
Proof.
  unfold Transaction_from_dict, protocol_object, protocol_row.
  repeat (rewrite ?lookup_insert_eq;
          try (rewrite lookup_insert_ne by discriminate)).
  rewrite !lookup_empty.
  destruct date, transaction_type; reflexivity.
Qed.

Lemma tag_transaction_fields (source_account : string) (row : Transaction) :
  let t := tag_transaction source_account row in
  short_description t = short_description row
  /\ category t = category row
  /\ is_expense t = is_expense row
  /\ is_split t = (if PyStr.contains "achu" (PyStr.lower (description row))
                   then Some 2 else is_split row)
  /\ description t = description row.
Proof.
  unfold tag_transaction. simpl.
  destruct (PyStr.contains "achu" (PyStr.lower (description row)));
    repeat split; reflexivity.
Qed.

Lemma tag_transaction_state (source_account : string) (row : Transaction) :
  at_defaults row -> extracted_state (tag_transaction source_account row).
Proof.
  intros (H1 & H2 & H3 & H4).
  destruct (tag_transaction_fields source_account row) as (E1 & E2 & E3 & E4 & E5).
  unfold extracted_state. rewrite E1, E2, E3, E4, E5, H1, H2, H3, H4.
  destruct (PyStr.contains "achu" (PyStr.lower (description row)));
    repeat split; reflexivity.
Qed.

Lemma page_of_response_state (source_account : string)
      (response : option (list (gmap string pyval))) :
  match response with
  | Some objects => Forall follows_protocol objects
  | None => True
  end ->
  Forall extracted_state
         (page_transactions source_account (page_of_response response)).
Proof.
  destruct response as [objects|]; [ | constructor ].
  intros Hobjects. unfold page_of_response. simpl.
  destruct (validate_rows objects) as [rows|] eqn:E; [ | constructor ].
  unfold validate_rows in E. apply mapM_Some in E. simpl.
  induction E as [|o row objects rows Ho _ IH]; simpl; [constructor | ].
  apply Forall_cons in Hobjects as [Hp Hobjects].
  constructor; [ | apply IH, Hobjects ].
  apply tag_transaction_state, (validated_at_defaults o); assumption.
Qed.

Lemma parse_pdfs_Forall (P : Transaction -> Prop)
      (docs : list PdfDocument) (preview_mode : bool) :
  Forall (fun d => Forall P (pdf_transactions d)) docs ->
  forall acc, Forall P acc ->
    match parse_pdfs docs preview_mode acc with
    | Some txs => Forall P txs
    | None => True
    end.
Proof.
  induction 1 as [|d docs Hd Hdocs IH]; intros acc Hacc; simpl; [assumption | ].
  assert (Happ : Forall P (acc ++ pdf_transactions d))
    by (apply Forall_app; split; assumption).
  destruct (pdf_opened d); simpl; [ | apply IH; assumption ].
  destruct (preview_mode && _)%bool.
  - destruct (pdf_preview d); [apply IH | apply IH | exact I]; assumption.
  - apply IH; assumption.
Qed.

Lemma match_step_short_description (st : Categorizer.MatchState)
      (r : Categorizer.AIProcessedTransaction) :
  map short_description (Categorizer.batch (Categorizer.match_step st r))
  = map short_description (Categorizer.batch st).
Proof.
  unfold Categorizer.match_step.
  destruct ((0 <=? Categorizer.original_index r)
            && (Categorizer.original_index r
                <? Z.of_nat (length (Categorizer.batch st))))%bool;
    simpl; [ | reflexivity ].
  generalize (Z.to_nat (Categorizer.original_index r)). intros i.
  revert i. induction (Categorizer.batch st) as [|t l IH]; intros [|i]; simpl;
    try reflexivity.
  f_equal. apply IH.
Qed.

Lemma match_fold_short_description
      (results : list Categorizer.AIProcessedTransaction) :
  forall st,
    map short_description
        (Categorizer.batch (fold_left Categorizer.match_step results st))
    = map short_description (Categorizer.batch st).
Proof.
  induction results as [|r results IH]; intros st; simpl; [reflexivity | ].
  rewrite IH. apply match_step_short_description.
Qed.

Lemma enrichment_keeps_short_description (st : Categorizer.AIState)
      (raw : list Transaction) :
  map short_description (fst (Categorizer.process_transactions_ai st raw))
  = map short_description raw.
Proof.
  unfold Categorizer.process_transactions_ai.
  destruct (Categorizer.agent st) as [run|];
    [ | cbn [fst]; rewrite map_map; reflexivity ].
  destruct (Categorizer.prompt_has_error st);
    [cbn [fst]; rewrite map_map; reflexivity | ].
  destruct raw as [|t raw]; [reflexivity | ].
  destruct (run (Categorizer.prepare_input (t :: raw))); cbn [fst];
    try (rewrite map_map; reflexivity).
  unfold Categorizer.match_results.
  rewrite match_fold_short_description. reflexivity.
Qed.

(** C6, as the code has it. A transaction validated from a response
    object that carries none of the four fields has [short_description],
    [category] and [is_expense] unset and [is_split] at its default
    [1]. The extraction stage validates every object against the whole
    model and writes, of the four fields, only [is_split], which it sets
    to [2] when the description contains "achu" in any letter case: the
    three other fields, and [is_split] otherwise, are what the object
    validates to. So on responses that follow the protocol every
    transaction the stage returns has the first three unset and
    [is_split] at [2] or [1]. The enrichment stage never writes
    [short_description]. *)
Theorem extraction_leaves_enrichment_fields :
  (forall (o : gmap string pyval) (t : Transaction),
      follows_protocol o -> Transaction_from_dict o = Some t -> at_defaults t)
  /\ (forall (source_account : string) (row : Transaction),
         let t := tag_transaction source_account row in
         short_description t = short_description row
         /\ category t = category row
         /\ is_expense t = is_expense row
         /\ is_split t
            = (if PyStr.contains "achu" (PyStr.lower (description row))
               then Some 2 else is_split row))
  /\ (forall (files : list StatementFile) (preview_mode : bool),
         Forall responses_follow_protocol files ->
         match parse_pdfs (map document_of files) preview_mode [] with
         | Some txs => Forall extracted_state txs
         | None => True
         end)
  /\ (forall (st : Categorizer.AIState) (raw : list Transaction),
         map short_description (fst (Categorizer.process_transactions_ai st raw))
         = map short_description raw).
Proof.
  split; [exact validated_at_defaults | ].
  split.
  { intros source_account row.
    destruct (tag_transaction_fields source_account row) as (E1 & E2 & E3 & E4 & _).
    repeat split; assumption. }
  split; [ | exact enrichment_keeps_short_description ].
  intros files preview_mode Hfiles.
  apply parse_pdfs_Forall; [ | constructor ].
  apply Forall_fmap. eapply Forall_impl; [exact Hfiles | ].
  intros [[[source_account opened] responses] preview] Hfile.
  unfold pdf_transactions. simpl. apply Forall_concat, Forall_fmap, Forall_fmap.
  simpl in Hfile. eapply Forall_impl; [exact Hfile | ].
  intros response Hresponse. apply page_of_response_state, Hresponse.
Qed.

Definition coffee_object : gmap string pyval :=
  protocol_object (Some "01/05/2024") "Coffee" (PyFloat 5) debit.

Definition achu_object : gmap string pyval :=
  protocol_object (Some "02/05/2024") "UPI transfer to ACHU" (PyFloat 250) debit.

Definition statement_file : StatementFile :=
  ("HDFC Savings", true, [Some [coffee_object; achu_object]], PreviewAdd).

Definition statement : PdfDocument := document_of statement_file.

Lemma extraction_leaves_enrichment_fields_witness :
  match parse_pdfs (map document_of [statement_file]) false [] with
  | Some txs => Forall extracted_state txs
  | None => True
  end.
Proof.
  apply (proj1 (proj2 (proj2 extraction_leaves_enrichment_fields))).
  repeat constructor; vm_compute; reflexivity.
Defined.

(** A response whose object carries the four fields as well. *)
Definition labelled_object : gmap string pyval :=
  <["short_description" := PyStr "Lunch"]>
  (<["category" := PyStr "Food"]>
  (<["is_expense" := PyInt 1]>
  (<["is_split" := PyInt 0]>
     (protocol_object (Some "03/05/2024") "Lunch at the cafe" (PyFloat 12) debit)))).

Definition labelled_statement : PdfDocument :=
  document_of ("HDFC Savings", true, [Some [labelled_object]], PreviewAdd).

(** C6 as stated fails. [is_split] is not unset in a new transaction
    (it is [1]), and the extraction stage returns a transaction whose
    [is_split] it has set to [2]; and a response object that carries
    the four fields is validated with them, so that the extraction
    stage returns a transaction with all four populated. *)
Lemma extraction_populates_enrichment_fields :
  (is_split <$> Transaction_from_dict coffee_object) = Some (Some 1)
  /\ (is_split <$> default [] (parse_pdfs [statement] false []))
     = [Some 1; Some 2]
  /\ ((fun t => (short_description t, category t, is_expense t, is_split t))
        <$> default [] (parse_pdfs [labelled_statement] false []))
     = [(Some "Lunch", Some FOOD, Some 1, Some 0)].
Proof. repeat split; vm_compute; reflexivity. Qed.

End ExtractionFacts.

(** ** Enrichment: failed batches and matching by index *)

Module CategorizerFacts.
Import Categorizer.








Definition raising_agent : AIState :=
  mkAIState (Some (fun _ => AgentException)) false.

Definition malformed_agent : AIState :=
  mkAIState (Some (fun _ => AgentValidationError)) false.

Definition wrong_type_agent : AIState :=
  mkAIState (Some (fun _ => AgentUnexpectedType)) false.

Definition extracted_batch : list Transaction :=
  default [] (Extraction.parse_pdfs [ExtractionFacts.statement] false []).


Example failure_causes_agree :
  fst (process_transactions_ai raising_agent extracted_batch)
    = fst (process_transactions_ai malformed_agent extracted_batch)
  /\ fst (process_transactions_ai raising_agent extracted_batch)
    = fst (process_transactions_ai wrong_type_agent extracted_batch)
  /\ snd (process_transactions_ai raising_agent extracted_batch)
    <> snd (process_transactions_ai malformed_agent extracted_batch).
Proof. repeat split; try reflexivity. vm_compute. discriminate. Qed.

(** *** Matching by [original_index] *)

(** The updates the results make to the transaction at position [i], in
    the order of the results. *)
Definition updates_at (i : nat) (results : list AIProcessedTransaction)
                      (t : Transaction) : Transaction :=
  fold_left (fun t r => if decide (original_index r = Z.of_nat i)
                        then update_from r t else t)
            results t.

Lemma match_step_lookup (st : MatchState) (r : AIProcessedTransaction) (i : nat) :
  batch (match_step st r) !! i
  = (fun t => if decide (original_index r = Z.of_nat i) then update_from r t else t)
      <$> batch st !! i.
Proof.
  unfold match_step.
  destruct ((0 <=? original_index r)
            && (original_index r <? Z.of_nat (length (batch st))))%bool eqn:E; simpl.
  - apply andb_true_iff in E as [E1 E2].
    apply Z.leb_le in E1. apply Z.ltb_lt in E2.
    destruct (decide (original_index r = Z.of_nat i)) as [Heq|Hne].
    + rewrite Heq, Nat2Z.id, list_lookup_alter_eq.
      destruct (batch st !! i); reflexivity.
    + rewrite list_lookup_alter_ne by lia.
      destruct (batch st !! i); reflexivity.
  - destruct (decide (original_index r = Z.of_nat i)) as [Heq|Hne].
    + assert (Hge : (length (batch st) <= i)%nat).
      { apply andb_false_iff in E as [E|E];
          [apply Z.leb_gt in E | apply Z.ltb_ge in E]; lia. }
      rewrite (lookup_ge_None_2 _ _ Hge). reflexivity.
    + destruct (batch st !! i); reflexivity.
Qed.

Lemma match_fold_lookup (results : list AIProcessedTransaction) :
  forall (st : MatchState) (i : nat),
    batch (fold_left match_step results st) !! i
    = updates_at i results <$> batch st !! i.
Proof.
  induction results as [|r results IH]; intros st i; simpl.
  - destruct (batch st !! i); reflexivity.
  - rewrite IH, match_step_lookup. destruct (batch st !! i); reflexivity.
Qed.

Lemma match_fold_length (results : list AIProcessedTransaction) :
  forall st, length (batch (fold_left match_step results st)) = length (batch st).
Proof.
  induction results as [|r results IH]; intros st; simpl; [reflexivity | ].
  rewrite IH. unfold match_step.
  destruct ((0 <=? original_index r)
            && (original_index r <? Z.of_nat (length (batch st))))%bool; simpl;
    [apply length_alter | reflexivity].
Qed.

Lemma updates_at_untouched (i : nat) (results : list AIProcessedTransaction) :
  (forall r, r ∈ results -> original_index r <> Z.of_nat i) ->
  forall t, updates_at i results t = t.
Proof.
  unfold updates_at.
  induction results as [|r results IH]; intros H t; simpl; [reflexivity | ].
  destruct (decide (original_index r = Z.of_nat i)) as [Heq|_].
  - exfalso. apply (H r); [left | assumption].
  - apply IH. intros r' Hr'. apply H. right. assumption.
Qed.

Lemma updates_at_app (i : nat) (rs1 rs2 : list AIProcessedTransaction) t :
  updates_at i (rs1 ++ rs2) t = updates_at i rs2 (updates_at i rs1 t).
Proof. unfold updates_at. apply fold_left_app. Qed.

(** The updates never touch the extracted fields. *)
Lemma updates_at_keeps (i : nat) (results : list AIProcessedTransaction) :
  forall t, description (updates_at i results t) = description t
            /\ amount (updates_at i results t) = amount t.
Proof.
  unfold updates_at.
  induction results as [|r results IH]; intros t; simpl; [split; reflexivity | ].
  destruct (IH (if decide (original_index r = Z.of_nat i)
                then update_from r t else t)) as [Hd Hm].
  rewrite Hd, Hm. destruct (decide (original_index r = Z.of_nat i)); split; reflexivity.
Qed.

(** A result whose index is out of range changes no transaction. *)
Lemma match_step_out_of_range (st : MatchState) (r : AIProcessedTransaction) :
  ~ (0 <= original_index r < Z.of_nat (length (batch st))) ->
  batch (match_step st r) = batch st
  /\ match_log (match_step st r) = match_log st ++ [LogInvalidIndex (original_index r)].
Proof.
  intros H. unfold match_step.
  destruct ((0 <=? original_index r)
            && (original_index r <? Z.of_nat (length (batch st))))%bool eqn:E.
  - apply andb_true_iff in E as [E1 E2].
    apply Z.leb_le in E1. apply Z.ltb_lt in E2. lia.
  - split; reflexivity.
Qed.

(** The batch the run hands to the checkpoint: enrichment, then the
    default category for a transaction that has none. *)
Definition enriched (st : AIState) (raw : list Transaction) : list Transaction :=
  map Main.ensure_category (fst (process_transactions_ai st raw)).

Lemma enriched_lookup (st : AIState) (run : Agent) (raw : list Transaction)
      (results : list AIProcessedTransaction) (i : nat) :
  agent st = Some run -> prompt_has_error st = false ->
  run (prepare_input raw) = AgentBatch results ->
  enriched st raw !! i
  = (fun t => Main.ensure_category (updates_at i results t)) <$> raw !! i.
Proof.
  intros Ha Hp Hr. unfold enriched, process_transactions_ai. rewrite Ha, Hp.
  destruct raw as [|t0 raw]; [reflexivity | ].
  rewrite Hr. simpl fst. rewrite map_is_fmap, list_lookup_fmap.
  unfold match_results. rewrite match_fold_lookup. simpl batch.
  destruct ((t0 :: raw) !! i); reflexivity.
Qed.

(** C4, as the code has it. When the classifier answers with a list of
    results, the batch keeps its length; the transaction at a position
    that a result names (within bounds) holds the category, [is_expense]
    and [is_split] of the last such result, with its description and
    amount unchanged; a result whose index is out of range is logged and
    changes nothing; and a transaction that no result names keeps its
    [is_expense] and [is_split] and its category, the fallback category
    being given to it only when it has none. *)
Theorem matching_by_index (st : AIState) (run : Agent) (raw : list Transaction)
        (results : list AIProcessedTransaction) :
  agent st = Some run -> prompt_has_error st = false ->
  run (prepare_input raw) = AgentBatch results ->
  length (enriched st raw) = length raw
  /\ (forall i t rs1 r rs2,
        raw !! i = Some t -> results = rs1 ++ r :: rs2 ->
        original_index r = Z.of_nat i ->
        (forall r', r' ∈ rs2 -> original_index r' <> Z.of_nat i) ->
        exists t', enriched st raw !! i = Some t'
          /\ category t' = Some (Category_from_string (category_str r))
          /\ is_expense t' = Some (ai_is_expense r)
          /\ is_split t' = Some (ai_is_split r)
          /\ description t' = description t /\ amount t' = amount t)
  /\ (forall i t,
        raw !! i = Some t ->
        (forall r, r ∈ results -> original_index r <> Z.of_nat i) ->
        enriched st raw !! i = Some (Main.ensure_category t)
        /\ is_expense (Main.ensure_category t) = is_expense t
        /\ is_split (Main.ensure_category t) = is_split t
        /\ category (Main.ensure_category t)
           = Some (default UNCATEGORIZED (category t)))
  /\ (forall rs1 r rs2,
        results = rs1 ++ r :: rs2 ->
        ~ (0 <= original_index r < Z.of_nat (length raw)) ->
        batch (match_results results raw) = batch (match_results (rs1 ++ rs2) raw)
        /\ LogInvalidIndex (original_index r) ∈ match_log (match_results results raw)).
Proof.
  intros Ha Hp Hr. split; [ | split; [ | split ] ].
  - unfold enriched, process_transactions_ai. rewrite Ha, Hp.
    destruct raw as [|t0 raw]; [reflexivity | ].
    rewrite Hr. simpl fst. rewrite length_map. unfold match_results.
    rewrite match_fold_length. reflexivity.
  - intros i t rs1 r rs2 Hi Hres Hidx Hlast.
    rewrite (enriched_lookup st run raw results i Ha Hp Hr), Hi. simpl.
    eexists. split; [reflexivity | ].
    rewrite Hres, updates_at_app.
    change (r :: rs2) with ([r] ++ rs2). rewrite updates_at_app.
    rewrite (updates_at_untouched i rs2 Hlast).
    unfold updates_at at 1. simpl.
    destruct (decide (original_index r = Z.of_nat i)) as [_|Hne]; [ | contradiction ].
    unfold Main.ensure_category. simpl. repeat split; apply updates_at_keeps.
  - intros i t Hi Hnone.
    rewrite (enriched_lookup st run raw results i Ha Hp Hr), Hi. simpl.
    rewrite (updates_at_untouched i results Hnone).
    unfold Main.ensure_category. destruct (category t) eqn:E; simpl;
      rewrite ?E; repeat split.
  - intros rs1 r rs2 Hres Hout. subst results. unfold match_results.
    rewrite !fold_left_app. simpl.
    set (st1 := fold_left match_step rs1 (mkMatchState raw [] [])).
    assert (Hlen : length (batch st1) = length raw).
    { unfold st1. rewrite match_fold_length. reflexivity. }
    destruct (match_step_out_of_range st1 r) as [Hb Hl]; [rewrite Hlen; assumption | ].
    split.
    + apply list_eq. intros j. rewrite !match_fold_lookup, Hb. reflexivity.
    + assert (Hmono : forall rs s x, x ∈ match_log s ->
                        x ∈ match_log (fold_left match_step rs s)).
      { clear. induction rs as [|r rs IH]; intros s x Hx; simpl; [assumption | ].
        apply IH. unfold match_step.
        destruct ((0 <=? original_index r)
                  && (original_index r <? Z.of_nat (length (batch s))))%bool; simpl;
          [assumption | apply elem_of_app; left; assumption]. }
      apply Hmono. rewrite Hl. apply elem_of_app. right. left.
Qed.

(** *** The batch of five *)

Definition five_rows : list Transaction :=
  [ExtractionFacts.protocol_row (Some "01/05/2024") "Coffee" (PyFloat 5) debit;
   ExtractionFacts.protocol_row (Some "02/05/2024") "Rent May" (PyFloat 900) debit;
   ExtractionFacts.protocol_row (Some "03/05/2024") "Salary" (PyFloat 3000) credit;
   ExtractionFacts.protocol_row (Some "04/05/2024") "Groceries" (PyFloat 60) debit;
   ExtractionFacts.protocol_row (Some "05/05/2024") "Fuel" (PyFloat 40) debit].

Definition five_batch : list Transaction :=
  Extraction.page_transactions "HDFC Savings" (Some five_rows).

(** Three results with a valid index and one with index 7. *)
Definition five_results : list AIProcessedTransaction :=
  [mkAIProcessedTransaction 0 "Food" 1 0;
   mkAIProcessedTransaction 2 "Salary" 0 0;
   mkAIProcessedTransaction 3 "Grocery" 1 1;
   mkAIProcessedTransaction 7 "Rent" 1 0].

Definition five_run : Agent := fun _ => AgentBatch five_results.

Definition five_state : AIState := mkAIState (Some five_run) false.

(** C4 as stated fails: in the batch of five with three valid results
    and one out of range, the two transactions no result names end with
    the fallback category but not with the fallback flags: [is_expense]
    is still unset and [is_split] is still [1]. *)
Lemma unmatched_keep_their_flags :
  map (fun t => (category t, is_expense t, is_split t))
      (enriched five_state five_batch)
  = [(Some FOOD, Some 1, Some 0);
     (Some UNCATEGORIZED, None, Some 1);
     (Some SALARY, Some 0, Some 0);
     (Some GROCERY, Some 1, Some 1);
     (Some UNCATEGORIZED, None, Some 1)].
Proof. vm_compute. reflexivity. Qed.

Lemma matching_by_index_witness :
  agent five_state = Some five_run
  /\ five_run (prepare_input five_batch) = AgentBatch five_results
  /\ length (enriched five_state five_batch) = length five_batch
  /\ (exists t', enriched five_state five_batch !! 3%nat = Some t'
        /\ category t' = Some GROCERY
        /\ is_expense t' = Some 1 /\ is_split t' = Some 1
        /\ description t' = "Groceries")
  /\ (exists t, five_batch !! 4%nat = Some t
        /\ enriched five_state five_batch !! 4%nat = Some (Main.ensure_category t)
        /\ is_expense (Main.ensure_category t) = None
        /\ is_split (Main.ensure_category t) = Some 1).
Proof.
  destruct (matching_by_index five_state five_run five_batch five_results
              eq_refl eq_refl eq_refl) as (Hlen & Hhit & Hmiss & _).
  split; [reflexivity | ]. split; [reflexivity | ]. split; [exact Hlen | ].
  split.
  - destruct (Hhit 3%nat _
                [mkAIProcessedTransaction 0 "Food" 1 0;
                 mkAIProcessedTransaction 2 "Salary" 0 0]
                (mkAIProcessedTransaction 3 "Grocery" 1 1)
                [mkAIProcessedTransaction 7 "Rent" 1 0]
                eq_refl eq_refl eq_refl)
      as (t' & H1 & H2 & H3 & H4 & H5 & _).
    + intros r' Hr'. apply list_elem_of_singleton in Hr'. subst r'. discriminate.
    + exists t'. repeat split; assumption.
  - eexists. split; [reflexivity | ].
    destruct (Hmiss 4%nat _ eq_refl) as (H1 & _).
    + intros r Hr. unfold five_results in Hr.
      repeat (apply elem_of_cons in Hr as [->|Hr]; [discriminate | ]).
      inversion Hr.
    + split; [exact H1 | split; reflexivity].
Defined.

End CategorizerFacts.

(** ** Account sheets: the sign of the written amount *)

Module SheetRowsFacts.
Import SheetRows.

Lemma account_row_in_data (account_name : string) (all : list Transaction)
      (t : Transaction) :
  In t all -> source_account t = Some account_name ->
  In (account_row t) (data_to_write account_name all).
Proof.
  intros Hin Hacc. unfold data_to_write. apply in_map, filter_In.
  split; [assumption | ]. rewrite Hacc. apply String.eqb_refl.
Qed.

(** C9. A transaction of an account group is written as a row whose
    sixth cell is the amount with the sign of its type: for a stored
    amount of magnitude [m], whatever its stored sign, a debit is
    written as [m] and a credit as [-m]. *)
Theorem written_amount_sign (account_name : string) (all : list Transaction)
        (t : Transaction) (a m : Q) :
  In t all -> source_account t = Some account_name ->
  amount t = Some a -> Qabs a == m ->
  In (account_row t) (data_to_write account_name all)
  /\ exists x, account_row t !! 5%nat = Some (CellNum x)
       /\ x == match transaction_type t with
               | debit => m
               | credit => - m
               end.
Proof.
  intros Hin Hacc Ha Hm. split; [apply account_row_in_data; assumption | ].
  unfold account_row, signed_amount. rewrite Ha.
  destruct (transaction_type t); simpl; eexists; (split; [reflexivity | ]).
  - apply Qopp_comp. exact Hm.
  - exact Hm.
Qed.

Definition debit_120 : Transaction :=
  mkTransaction (Some "03/05/2024") "Card payment" (Some 120%Q)
                (Some "HDFC Savings") None (Some 1) (Some 0) (Some SHOPPING) debit.

Definition credit_120 : Transaction :=
  mkTransaction (Some "04/05/2024") "Refund" (Some 120%Q)
                (Some "HDFC Savings") None (Some 0) (Some 0) (Some REFUND) credit.

Definition debit_minus_120 : Transaction :=
  mkTransaction (Some "05/05/2024") "Card payment" (Some (-120)%Q)
                (Some "HDFC Savings") None (Some 1) (Some 0) (Some SHOPPING) debit.

Lemma written_amount_sign_witness :
  exists x, account_row debit_120 !! 5%nat = Some (CellNum x) /\ x == 120.
Proof.
  exact (proj2 (written_amount_sign "HDFC Savings" [debit_120; credit_120]
                  debit_120 120 120 (or_introl eq_refl) eq_refl eq_refl
                  (Qeq_refl 120))).
Defined.

Example written_amounts :
  map (fun t => account_row t !! 5%nat) [debit_120; credit_120; debit_minus_120]
  = [Some (CellNum 120); Some (CellNum (-120)); Some (CellNum 120)].
Proof. reflexivity. Qed.

End SheetRowsFacts.

(** ** Account sheets: the split formulas *)

Module SheetFormulasFacts.
Import SheetFormulas.

Lemma parse_achu_sheet_appu :
  parse_template achu_sheet_appu_formula_template
  = Some (If (Eq (Ref "G") (Num 0)) (Ref "F")
            (If (Eq (Ref "G") (Num 1)) (Div (Ref "F") (Num 2))
               (If (Eq (Ref "G") (Num 2)) (Num 0) (Num 0)))).
Proof. vm_compute. reflexivity. Qed.

Lemma parse_achu_sheet_achu :
  parse_template achu_sheet_achu_formula_template
  = Some (If (Eq (Ref "G") (Num 0)) (Num 0)
            (If (Eq (Ref "G") (Num 1)) (Div (Ref "F") (Num 2))
               (If (Eq (Ref "G") (Num 2)) (Ref "F") (Num 0)))).
Proof. vm_compute. reflexivity. Qed.

Lemma parse_standard_appu :
  parse_template standard_appu_formula_template
  = Some (Round (If (Ne (Ref "G") (Num 0))
                    (Div (Mul (Ref "B") (Ref "F")) (Ref "G"))
                    (Num 0))).
Proof. vm_compute. reflexivity. Qed.

Lemma parse_standard_achu :
  parse_template standard_achu_formula_template
  = Some (Round (If (Ne (Ref "G") (Num 1))
                    (If (Ne (Ref "G") (Num 0))
                        (Div (Mul (Ref "B") (Ref "F")) (Ref "G"))
                        (Mul (Ref "B") (Ref "F")))
                    (Num 0))).
Proof. vm_compute. reflexivity. Qed.

(** The formulas of the sheet "Achu" do what the split flag says, for
    every cost: all to party A for 0, halves for 1, all to party B for 2. *)
Lemma achu_sheet_shares (is_expense cost : Q) :
  shares true is_expense cost 0 = (Some (Qred cost), Some 0%Q)
  /\ shares true is_expense cost 1 = (Some (Qred (cost / 2)), Some (Qred (cost / 2)))
  /\ shares true is_expense cost 2 = (Some 0%Q, Some (Qred cost)).
Proof.
  unfold shares, template_value, appu_formula_template, achu_formula_template.
  rewrite parse_achu_sheet_appu, parse_achu_sheet_achu.
  repeat split; reflexivity.
Qed.

(** The formulas of every other sheet read the flag as a divisor: for 0
    party A gets nothing and party B the whole rounded cost of an
    expense, for 1 party A gets it all, for 2 each gets a half. *)
Lemma standard_sheet_shares (is_expense cost : Q) :
  shares false is_expense cost 0
    = (Some 0%Q, Some (Qred (round_half_away (is_expense * cost))))
  /\ shares false is_expense cost 1
    = (Some (Qred (round_half_away (is_expense * cost / 1))), Some 0%Q)
  /\ shares false is_expense cost 2
    = (Some (Qred (round_half_away (is_expense * cost / 2))),
       Some (Qred (round_half_away (is_expense * cost / 2)))).
Proof.
  unfold shares, template_value, appu_formula_template, achu_formula_template.
  rewrite parse_standard_appu, parse_standard_achu.
  repeat split; reflexivity.
Qed.

(** C1 at the scenario of the specification, on a sheet other than
    "Achu": an expense of cost 100 shows the shares 0 and 100 for the
    split flag 0, 100 and 0 for the flag 1, and 50 and 50 for the flag
    2, where the claim has 100 and 0, 50 and 50, 0 and 100. On the sheet
    "Achu" the same row shows what the claim says. *)
Theorem standard_sheet_shares_of_100 :
  shares false 1 100 0 = (Some 0%Q, Some 100%Q)
  /\ shares false 1 100 1 = (Some 100%Q, Some 0%Q)
  /\ shares false 1 100 2 = (Some 50%Q, Some 50%Q)
  /\ shares true 1 100 0 = (Some 100%Q, Some 0%Q)
  /\ shares true 1 100 1 = (Some 50%Q, Some 50%Q)
  /\ shares true 1 100 2 = (Some 0%Q, Some 100%Q).
Proof. repeat split; vm_compute; reflexivity. Qed.

(** The formulas written for the rows 2 and 3 of a sheet. *)
Example formula_requests_rows_2_3 :
  formula_requests false 2 3
  = [("H2", "=ROUND(IF(G2<>0, B2*F2/G2, 0))");
     ("I2", "=ROUND(IF(G2<>1, IF(G2<>0, B2*F2/G2, B2*F2) , 0))");
     ("H3", "=ROUND(IF(G3<>0, B3*F3/G3, 0))");
     ("I3", "=ROUND(IF(G3<>1, IF(G3<>0, B3*F3/G3, B3*F3) , 0))")].
Proof. vm_compute. reflexivity. Qed.

End SheetFormulasFacts.

(** ** Dates: the two parsers and the date window *)

Module DateFacts.
Import Main.

Lemma first_format_None (formats : list string) (s : string) :
  Strptime.first_format formats s = None
  <-> forall fmt, In fmt formats -> Strptime.strptime s fmt = None.
Proof.
  induction formats as [|f formats IH]; simpl.
  - split; [intros _ fmt [] | reflexivity].
  - destruct (Strptime.strptime s f) eqn:E.
    + split; [discriminate | ]. intros H.
      specialize (H f (or_introl eq_refl)). congruence.
    + rewrite IH. split.
      * intros H fmt [<-|Hin]; [assumption | apply H; assumption].
      * intros H fmt Hin. apply H. right. assumption.
Qed.

(** Every format of the sheet parser is a format of the filter. *)
Lemma sheet_formats_included :
  forall fmt, In fmt sheet_formats_to_try -> In fmt formats_to_try.
Proof.
  intros fmt Hin. unfold sheet_formats_to_try in Hin. unfold formats_to_try.
  simpl in *. intuition.
Qed.

(** What the sheet parser accepts, the filter accepts. *)
Lemma sheet_parser_accepts_less (s : string) :
  Strptime.first_format sheet_formats_to_try s <> None ->
  parse_transaction_date s <> None.
Proof.
  intros H Hnone. apply H. apply first_format_None. intros fmt Hin.
  unfold parse_transaction_date in Hnone.
  destruct (Strptime.first_format formats_to_try s) eqn:E; [discriminate | ].
  apply (proj1 (first_format_None _ _) E). apply sheet_formats_included, Hin.
Qed.

(** A date no format of the sheet parser reads is written as the empty
    string. *)
Lemma unparsed_date_written_empty (s : string) :
  Strptime.first_format sheet_formats_to_try s = None ->
  parse_date_flexible (Some s) = "".
Proof.
  intros H. unfold parse_date_flexible. rewrite H. destruct s; reflexivity.
Qed.

(** C5 at the date "2024-05-01", in the format the extraction prompt
    asks for: the filter reads it as the first of May 2024, no format of
    the sheet parser reads it, and the sheet shows an empty date. The
    same holds for "01-May-2024" and "May 01, 2024". *)
Theorem iso_date_read_by_filter_only :
  parse_transaction_date "2024-05-01" = Some (PyDate.mk 2024 5 1)
  /\ Strptime.first_format sheet_formats_to_try "2024-05-01" = None
  /\ parse_date_flexible (Some "2024-05-01") = ""
  /\ parse_transaction_date "01-May-2024" = Some (PyDate.mk 2024 5 1)
  /\ parse_date_flexible (Some "01-May-2024") = ""
  /\ parse_transaction_date "May 01, 2024" = Some (PyDate.mk 2024 5 1)
  /\ parse_date_flexible (Some "May 01, 2024") = "".
Proof. repeat split; vm_compute; reflexivity. Qed.

Example sheet_date_formats :
  parse_date_flexible (Some "1/5/2024") = "01/05/2024"
  /\ parse_date_flexible (Some "01-May-24") = "01/05/2024"
  /\ parse_date_flexible (Some "01/05/2024 10:20:30") = "01/05/2024"
  /\ parse_date_flexible (Some "31/02/2024") = ""
  /\ parse_date_flexible None = "".
Proof. repeat split; vm_compute; reflexivity. Qed.

(** *** The date window *)

(** The last day the filter keeps: the second of the following month. *)
Definition second_of_next_month (y m : Z) : PyDate.t :=
  if m =? 12 then PyDate.mk (y + 1) 1 2 else PyDate.mk y (m + 1) 2.

Lemma date_window_value (y m : Z) :
  1 <= y <= 9999 -> 1 <= m <= 12 -> ~ (y = 9999 /\ m = 12) ->
  date_window y m = Some (PyDate.mk y m 1, second_of_next_month y m).
Proof.
  intros Hy Hm Hlast. unfold date_window, second_of_next_month.
  assert (Hstart : PyDate.make y m 1 = Some (PyDate.mk y m 1)).
  { unfold PyDate.make, PyDate.valid, PyDate.days_in_month.
    replace (1 <=? y) with true by (symmetry; apply Z.leb_le; lia).
    replace (y <=? 9999) with true by (symmetry; apply Z.leb_le; lia).
    replace (1 <=? m) with true by (symmetry; apply Z.leb_le; lia).
    replace (m <=? 12) with true by (symmetry; apply Z.leb_le; lia).
    simpl. destruct (m =? 2); [destruct (PyDate.is_leap y) | ]; try reflexivity.
    destruct ((m =? 4) || (m =? 6) || (m =? 9) || (m =? 11)); reflexivity. }
  rewrite Hstart. simpl.
  unfold PyDate.add_one_month. simpl.
  destruct (m =? 12) eqn:E12.
  - apply Z.eqb_eq in E12. subst m.
    assert (Hy' : y + 1 <= 9999) by lia.
    unfold PyDate.make, PyDate.valid. simpl.
    replace (1 <=? y + 1) with true by (symmetry; apply Z.leb_le; lia).
    replace (y + 1 <=? 9999) with true by (symmetry; apply Z.leb_le; lia).
    reflexivity.
  - apply Z.eqb_neq in E12.
    assert (Hd : 2 <= PyDate.days_in_month y (m + 1)).
    { unfold PyDate.days_in_month.
      destruct (m + 1 =? 2); [destruct (PyDate.is_leap y) | ]; try lia.
      destruct ((m + 1 =? 4) || (m + 1 =? 6) || (m + 1 =? 9) || (m + 1 =? 11)); lia. }
    rewrite Z.min_l by lia.
    unfold PyDate.make, PyDate.valid.
    replace (1 <=? y) with true by (symmetry; apply Z.leb_le; lia).
    replace (y <=? 9999) with true by (symmetry; apply Z.leb_le; lia).
    replace (1 <=? m + 1) with true by (symmetry; apply Z.leb_le; lia).
    replace (m + 1 <=? 12) with true by (symmetry; apply Z.leb_le; lia).
    replace (1 <=? PyDate.days_in_month y (m + 1)) with true
      by (symmetry; apply Z.leb_le; lia).
    simpl. unfold PyDate.add_one_day. simpl.
    replace (1 <? PyDate.days_in_month y (m + 1)) with true
      by (symmetry; apply Z.ltb_lt; lia).
    reflexivity.
Qed.

(** The test of the loop on one transaction. *)
Definition in_window (window : PyDate.t * PyDate.t) (t : Transaction) : bool :=
  match date t with
  | Some s =>
      match parse_transaction_date s with
      | Some d => PyDate.leb (fst window) d && PyDate.leb d (snd window)
      | None => false
      end
  | None => false
  end.

Lemma filter_loop_is_filter (window : PyDate.t * PyDate.t)
      (transactions : list Transaction) :
  forall st,
    filtered_list (fold_left (filter_step window) transactions st)
    = filtered_list st ++ List.filter (in_window window) transactions.
Proof.
  induction transactions as [|t l IH]; intros st; simpl.
  - symmetry. apply app_nil_r.
  - rewrite IH. unfold filter_step, in_window.
    destruct (date t) as [s|]; [ | reflexivity ].
    destruct (parse_transaction_date s) as [d|]; [ | reflexivity ].
    destruct (PyDate.leb (fst window) d && PyDate.leb d (snd window)); simpl;
      [rewrite <- app_assoc | ]; reflexivity.
Qed.

(** C10. For a target month of a year from 1 to 9999 (December 9999
    apart, whose following month does not exist), the filter keeps, in
    their order, exactly the transactions whose date string parses to a
    date from the first day of the month to the second day of the
    following month, both included. *)
Theorem date_filter_window (transactions : list Transaction) (y m : Z) :
  1 <= y <= 9999 -> 1 <= m <= 12 -> ~ (y = 9999 /\ m = 12) ->
  let window := (PyDate.mk y m 1, second_of_next_month y m) in
  filter_transactions_by_date transactions y m
  = List.filter (in_window window) transactions
  /\ forall t,
       In t (filter_transactions_by_date transactions y m)
       <-> In t transactions
           /\ exists s d, date t = Some s /\ parse_transaction_date s = Some d
                /\ PyDate.leb (PyDate.mk y m 1) d = true
                /\ PyDate.leb d (second_of_next_month y m) = true.
Proof.
  intros Hy Hm Hlast window.
  assert (Heq : filter_transactions_by_date transactions y m
                = List.filter (in_window window) transactions).
  { unfold filter_transactions_by_date.
    rewrite (date_window_value y m Hy Hm Hlast).
    unfold filter_loop. rewrite filter_loop_is_filter. reflexivity. }
  split; [exact Heq | ].
  intros t. rewrite Heq, filter_In. unfold in_window, window. simpl.
  split.
  - intros [Hin Hw]. split; [assumption | ].
    destruct (date t) as [s|]; [ | discriminate ].
    destruct (parse_transaction_date s) as [d|] eqn:Hd; [ | discriminate ].
    apply andb_true_iff in Hw as [H1 H2]. exists s, d. auto.
  - intros [Hin (s & d & Hs & Hd & H1 & H2)]. split; [assumption | ].
    rewrite Hs, Hd, H1, H2. reflexivity.
Qed.

Definition dated (s : string) : Transaction :=
  mkTransaction (Some s) "Card payment" (Some 10%Q) (Some "HDFC Savings")
                None None (Some 1) None debit.

(** The boundary cases for May 2024. *)
Lemma date_filter_window_witness :
  filter_transactions_by_date
    [dated "01/05/2024"; dated "30/04/2024"; dated "02/06/2024";
     dated "03/06/2024"; dated "2024-05-17"; dated "not a date"]
    2024 5
  = [dated "01/05/2024"; dated "02/06/2024"; dated "2024-05-17"].
Proof.
  rewrite (proj1 (date_filter_window
                    [dated "01/05/2024"; dated "30/04/2024"; dated "02/06/2024";
                     dated "03/06/2024"; dated "2024-05-17"; dated "not a date"]
                    2024 5 ltac:(lia) ltac:(lia) ltac:(lia))).
  vm_compute. reflexivity.
Defined.

(** Outside of these months the window cannot be computed and the
    filter returns the list it was given. *)
Example date_filter_fails_open :
  filter_transactions_by_date [dated "03/06/2024"] 2024 13 = [dated "03/06/2024"]
  /\ filter_transactions_by_date [dated "03/06/2024"] 9999 12 = [dated "03/06/2024"].
Proof. split; vm_compute; reflexivity. Qed.

End DateFacts.

(** ** Checkpoints: the round trip and the resume point *)

Module CheckpointFacts.
Import Main.

(** The category a saved category is read back as. *)
Definition reparsed (c : Category) : Category :=
  Category_from_string (Category_value c).

(** The transaction a saved transaction is read back as. *)
Definition reloaded (t : Transaction) : Transaction :=
  set_category (option_map reparsed (category t)) t.

Lemma reparsed_value (c : Category) :
  reparsed c = match c with
               | BODY => GYM
               | HOUSE => HOUSEHOLD
               | other => other
               end.
Proof. destruct c; vm_compute; reflexivity. Qed.

Lemma dump_lookups (t : Transaction) :
  model_dump_json t !! "date" = Some (py_of_opt_str (date t))
  /\ model_dump_json t !! "description" = Some (PyStr (description t))
  /\ model_dump_json t !! "amount" = Some (py_of_opt_float (amount t))
  /\ model_dump_json t !! "source_account" = Some (py_of_opt_str (source_account t))
  /\ model_dump_json t !! "short_description"
     = Some (py_of_opt_str (short_description t))
  /\ model_dump_json t !! "is_expense" = Some (py_of_opt_int (is_expense t))
  /\ model_dump_json t !! "is_split" = Some (py_of_opt_int (is_split t))
  /\ model_dump_json t !! "category"
     = Some (py_of_opt_str (option_map Category_value (category t)))
  /\ model_dump_json t !! "transaction_type"
     = Some (PyStr (TransactionType_value (transaction_type t))).
Proof. repeat split; reflexivity. Qed.

Definition converted_category (v : pyval) : pyval :=
  match v with
  | PyStr s => PyCategory (Category_from_string s)
  | PyNone => PyNone
  | PyCategory c => PyCategory c
  | _ => PyNone
  end.

Lemma convert_category_lookup (d : gmap string pyval) (k : string) :
  convert_category d !! k
  = if decide (k = "category") then converted_category <$> d !! "category"
    else d !! k.
Proof.
  unfold convert_category.
  destruct (decide (k = "category")) as [->|Hk].
  - destruct (d !! "category") as [[ | | | | | | ]|] eqn:E; simpl;
      rewrite ?lookup_insert_eq, ?E; reflexivity.
  - destruct (d !! "category") as [[ | | | | | | ]|] eqn:E; simpl;
      rewrite ?lookup_insert_ne by congruence; reflexivity.
Qed.

Lemma validate_dumped_str (default o : option string) :
  Pydantic.validate_optional_str default (Some (py_of_opt_str o)) = Some o.
Proof. destruct o; reflexivity. Qed.

Lemma validate_dumped_int (default o : option Z) :
  Pydantic.validate_optional_int default (Some (py_of_opt_int o)) = Some o.
Proof. destruct o; reflexivity. Qed.

Lemma validate_dumped_amount (o : option Q) :
  Pydantic.validate_optional_amount (Some (py_of_opt_float o)) = o.
Proof. destruct o; reflexivity. Qed.

Lemma validate_dumped_type (tt : TransactionType) :
  Pydantic.validate_transaction_type (Some (PyStr (TransactionType_value tt)))
  = Some tt.
Proof. destruct tt; reflexivity. Qed.

Lemma validate_dumped_category (o : option Category) :
  Pydantic.validate_optional_category
    (converted_category <$> Some (py_of_opt_str (option_map Category_value o)))
  = Some (option_map reparsed o).
Proof. destruct o; reflexivity. Qed.

(** An item the run saved is read back, with its category resolved
    again from its display value. *)
Lemma roundtrip_item (t : Transaction) :
  deserialize_categorized_item (ItemDict (model_dump_json t)) = Some (reloaded t).
Proof.
  unfold deserialize_categorized_item, Transaction_from_dict.
  rewrite !convert_category_lookup.
  destruct (dump_lookups t) as (H1 & H2 & H3 & H4 & H5 & H6 & H7 & H8 & H9).
  repeat (case_decide; try discriminate; try congruence).
  rewrite H1, H2, H3, H4, H5, H6, H7, H8, H9.
  rewrite !validate_dumped_str, !validate_dumped_int, validate_dumped_amount,
    validate_dumped_type, validate_dumped_category.
  reflexivity.
Qed.

Lemma roundtrip_items (txs : list Transaction) :
  omap deserialize_categorized_item
       (map (fun t => ItemDict (model_dump_json t)) txs)
  = map reloaded txs.
Proof.
  induction txs as [|t txs IH]; [reflexivity | ].
  cbn [map omap list_omap]. rewrite roundtrip_item, IH. reflexivity.
Qed.

(** The resolver never answers BODY or HOUSE. *)
Lemma from_string_not_body_house (s : string) :
  Category_from_string s <> BODY /\ Category_from_string s <> HOUSE.
Proof.
  unfold Category_from_string.
  set (u := PyStr.strip (PyStr.upper s)).
  set (v0 := PyStr.replace_space_underscore u).
  set (v1 := if String.eqb v0 "ENTERTAINTMENT" then "ENTERTAINMENT" else v0).
  set (v2 := if String.eqb v1 "BODY" then "GYM" else v1).
  set (v3 := if String.eqb v2 "HOUSE" then "HOUSEHOLD" else v2).
  assert (Hb : v3 <> "BODY").
  { unfold v3, v2. destruct (String.eqb v1 "BODY") eqn:E1; simpl.
    - discriminate.
    - destruct (String.eqb v1 "HOUSE"); [discriminate | ].
      intros H. apply String.eqb_neq in E1. contradiction. }
  assert (Hh : v3 <> "HOUSE").
  { unfold v3. destruct (String.eqb v2 "HOUSE") eqn:E2; [discriminate | ].
    apply String.eqb_neq in E2. assumption. }
  destruct (find (fun m => String.eqb (Category_name m) v3) Category_members)
    as [m|] eqn:F1.
  - apply find_some in F1 as [_ F1]. apply String.eqb_eq in F1.
    split; intros ->; simpl in F1; congruence.
  - destruct (find (fun m => String.eqb (PyStr.upper (Category_value m)) u)
                   Category_members) as [m|] eqn:F2; [ | split; discriminate ].
    apply find_some in F2 as [_ F2]. apply String.eqb_eq in F2.
    split; intros ->.
    + assert (Hu : u = "BODY") by (rewrite <- F2; reflexivity).
      assert (Hv : v3 = "GYM") by (unfold v3, v2, v1, v0; rewrite Hu; reflexivity).
      rewrite Hv in F1. vm_compute in F1. discriminate.
    + assert (Hu : u = "HOUSE") by (rewrite <- F2; reflexivity).
      assert (Hv : v3 = "HOUSEHOLD")
        by (unfold v3, v2, v1, v0; rewrite Hu; reflexivity).
      rewrite Hv in F1. vm_compute in F1. discriminate.
Qed.

Lemma reparsed_from_string (s : string) :
  reparsed (Category_from_string s) = Category_from_string s.
Proof.
  destruct (from_string_not_body_house s) as [Hb Hh].
  rewrite reparsed_value.
  destruct (Category_from_string s); try reflexivity; contradiction.
Qed.

(** C2, as the code has it. Saving a list of categorized transactions
    and loading the file reproduces every transaction, none dropped and
    in order, with every field unchanged but the category, which is
    resolved again from its display value: every member of the
    vocabulary is read back as itself except BODY, read back as GYM, and
    HOUSE, read back as HOUSEHOLD; a category the resolver itself
    produced is read back unchanged. *)
Theorem categorized_checkpoint_roundtrip :
  (forall t txs,
      load_categorized (save_checkpoint (t :: txs)) = Some (map reloaded (t :: txs)))
  /\ (forall t,
        description (reloaded t) = description t
        /\ amount (reloaded t) = amount t
        /\ is_expense (reloaded t) = is_expense t
        /\ is_split (reloaded t) = is_split t
        /\ category (reloaded t) = option_map reparsed (category t))
  /\ (forall c, reparsed c = match c with
                             | BODY => GYM
                             | HOUSE => HOUSEHOLD
                             | other => other
                             end)
  /\ (forall s, reparsed (Category_from_string s) = Category_from_string s)
  /\ reparsed DEFAULT_CATEGORY_ENUM = DEFAULT_CATEGORY_ENUM.
Proof.
  split; [ | split; [ | split; [ | split ] ] ].
  - intros t txs. unfold load_categorized, load_checkpoint, save_checkpoint.
    cbn [map]. change (ItemDict (model_dump_json t)
                       :: map (fun t0 => ItemDict (model_dump_json t0)) txs)
      with (map (fun t0 => ItemDict (model_dump_json t0)) (t :: txs)).
    rewrite roundtrip_items. reflexivity.
  - intros t. repeat split; reflexivity.
  - apply reparsed_value.
  - apply reparsed_from_string.
  - vm_compute. reflexivity.
Qed.

Definition gym_session : Transaction :=
  mkTransaction (Some "06/05/2024") "Fitness club" (Some 45%Q)
                (Some "HDFC Savings") None (Some 1) (Some 0) (Some BODY) debit.

(** C2 as stated fails for the member BODY of the vocabulary: a
    transaction saved with that category is loaded with GYM. *)
Lemma body_category_not_preserved :
  category gym_session = Some BODY
  /\ option_map (map category) (load_categorized (save_checkpoint [gym_session]))
     = Some [Some GYM].
Proof. split; [reflexivity | vm_compute; reflexivity]. Qed.

(** *** The resume point *)

Lemma resume_categorized (w : World) (item : CheckpointItem)
      (items : list CheckpointItem) :
  categorized_transactions_file w = FileArray (item :: items) ->
  resume w = (Categorized, None,
              Some (omap deserialize_categorized_item (item :: items))).
Proof.
  intros Hf. unfold resume, load_categorized, load_checkpoint. rewrite Hf.
  reflexivity.
Qed.

(** C7. When the categorized checkpoint is a non-empty array, the run
    resumes from it whatever the processed checkpoint holds: it fetches
    nothing, parses nothing, filters nothing, calls no classifier and
    saves no checkpoint; the only things it does are to ask for the
    confirmation and, once confirmed, to update the sheets with exactly
    the records loaded from the file. (When no record of the file could
    be loaded the run ends without writing.) *)
Theorem categorized_checkpoint_first (w : World) (item : CheckpointItem)
        (items : list CheckpointItem) :
  categorized_transactions_file w = FileArray (item :: items) ->
  let loaded := omap deserialize_categorized_item (item :: items) in
  fst (fst (resume w)) = Categorized
  /\ (forall e, In e (main w) -> e = EvAskUser \/ e = EvUpdateSheet loaded)
  /\ (loaded <> [] -> proceed w = true ->
      main w = [EvAskUser; EvUpdateSheet loaded])
  /\ (loaded <> [] -> proceed w = false -> main w = [EvAskUser])
  /\ (loaded = [] -> main w = []).
Proof.
  intros Hf loaded.
  assert (Hmain : main w = finish w (Some loaded)).
  { unfold main. rewrite (resume_categorized w item items Hf). reflexivity. }
  split; [rewrite (resume_categorized w item items Hf); reflexivity | ].
  rewrite Hmain. unfold finish.
  split; [ | split; [ | split ] ].
  - intros e He. destruct loaded as [|t l]; [destruct He | ].
    destruct He as [<-|He]; [left; reflexivity | ].
    destruct (proceed w); [ | destruct He ].
    destruct He as [<-|[]]. right. reflexivity.
  - intros Hne Hp. rewrite Hp. destruct loaded; [contradiction | reflexivity].
  - intros Hne Hp. rewrite Hp. destruct loaded; [contradiction | reflexivity].
  - intros ->. reflexivity.
Qed.

Definition categorized_pair : list Transaction :=
  [SheetRowsFacts.debit_120; SheetRowsFacts.credit_120].

(** A world with both checkpoints, statements to download and a
    classifier. *)
Definition both_checkpoints : World :=
  mkWorld (save_checkpoint categorized_pair)
          (save_checkpoint CategorizerFacts.five_batch)
          [ExtractionFacts.statement] false CategorizerFacts.five_state
          2024 5 true true true.

Lemma categorized_checkpoint_first_witness :
  main both_checkpoints = [EvAskUser; EvUpdateSheet categorized_pair].
Proof.
  refine (proj1 (proj2 (proj2
            (categorized_checkpoint_first both_checkpoints
               (ItemDict (model_dump_json SheetRowsFacts.debit_120))
               [ItemDict (model_dump_json SheetRowsFacts.credit_120)]
               eq_refl))) _ eq_refl).
  vm_compute. discriminate.
Defined.

(** Without the categorized checkpoint the run enriches what the
    processed checkpoint holds, and without any checkpoint it starts
    with the e-mails. *)
Example other_resume_points :
  fst (fst (resume (mkWorld FileMissing (save_checkpoint CategorizerFacts.five_batch)
                            [] false CategorizerFacts.five_state 2024 5 true
                            true true)))
    = Processed
  /\ fst (fst (resume (mkWorld (FileArray []) FileUnreadable
                               [] false CategorizerFacts.five_state 2024 5 true
                               true true)))
    = Fresh
  /\ head (main (mkWorld FileMissing FileMissing [ExtractionFacts.statement] false
                         CategorizerFacts.five_state 2024 5 true true true))
    = Some EvFetchEmails.
Proof. repeat split; vm_compute; reflexivity. Qed.

(** The processed checkpoint is read with the parser of the sheets: a
    date saved in the ISO format comes back as the empty string. *)
Example processed_checkpoint_iso_date :
  option_map (map date)
    (load_processed (save_checkpoint [DateFacts.dated "2024-05-17";
                                      DateFacts.dated "17/05/2024"]))
  = Some [Some ""; Some "17/05/2024"].
Proof. vm_compute. reflexivity. Qed.

End CheckpointFacts.

(** ** Sheet synchronisation: a second run *)

Module SheetSyncFacts.
Import SheetSync.
#[local] Set Warnings "-clear-no-such-hyp".





(** *** The deletions *)




(** *** The additions *)





(** *** The reordering *)

Lemma insert_by_perm (key : string -> nat) (x : string) (l : list string) :
  insert_by key x l ≡ₚ x :: l.
Proof.
  induction l as [|y l IH]; simpl; [reflexivity | ].
  destruct (Nat.ltb (key x) (key y)); [reflexivity | ].
  rewrite IH. apply perm_swap.
Qed.

Lemma sorted_by_perm (key : string -> nat) (l : list string) :
  sorted_by key l ≡ₚ l.
Proof.
  unfold sorted_by.
  assert (H : forall acc, fold_left (fun a x => insert_by key x a) l acc ≡ₚ l ++ acc).
  { induction l as [|x l IH]; intros acc; simpl; [reflexivity | ].
    rewrite IH, insert_by_perm. symmetry. apply Permutation_middle. }
  rewrite H. rewrite app_nil_r. reflexivity.
Qed.

(** *** The state after the two loops *)

(** The state after the deletions and after the additions, as [sync]
    computes them. *)
Definition after_deletions (iteration_order : list string -> list string)
                           (target : list string) (spreadsheet : workbook)
  : SyncState :=
  let existing : gset string := list_to_set spreadsheet in
  let sheets_to_delete := existing ∖ list_to_set target in
  let st := mkSyncState spreadsheet existing [] in
  if negb (bool_decide (sheets_to_delete = ∅))
     && (Nat.ltb 1 (size existing) || bool_decide (sheets_to_delete = ∅))
  then fold_left delete_step (iteration_order (elements sheets_to_delete)) st
  else st.

Definition after_additions (iteration_order : list string -> list string)
                           (target : list string) (spreadsheet : workbook)
  : SyncState :=
  let st := after_deletions iteration_order target spreadsheet in
  fold_left (add_step (list_to_set target ∖ existing_sheet_names st)) target st.

Lemma sync_unfold (o : list string -> list string) (target : list string)
      (spreadsheet : workbook) :
  sync o target spreadsheet
  = let st := after_additions o target spreadsheet in
    let ordered := sorted_by (order_key target) (doc st) in
    mkSyncState ordered (existing_sheet_names st)
                (ops st ++ match ordered with
                           | [] => []
                           | _ => [OpReorder ordered]
                           end).
Proof. reflexivity. Qed.





(** *** The second run *)




Definition as_stored (l : list string) : list string := l.

Definition may_target : list string := target_sheet_names ["HDFC Savings"].



(** A workbook with stale sheets beside target sheets is settled by one
    run as well. *)
Example stale_sheets_beside_targets :
  ops (sync as_stored may_target ["Sheet1"; "Old"; "Cash"])
  = [OpDelete "Old" true; OpDelete "Sheet1" true; OpAdd "Achu" true;
     OpAdd "Final Recon" true; OpAdd "Reporting" true; OpAdd "HDFC Savings" true;
     OpReorder ["Cash"; "Achu"; "Final Recon"; "Reporting"; "HDFC Savings"]]
  \/ ops (sync as_stored may_target ["Sheet1"; "Old"; "Cash"])
  = [OpDelete "Sheet1" true; OpDelete "Old" true; OpAdd "Achu" true;
     OpAdd "Final Recon" true; OpAdd "Reporting" true; OpAdd "HDFC Savings" true;
     OpReorder ["Cash"; "Achu"; "Final Recon"; "Reporting"; "HDFC Savings"]].
Proof. vm_compute. tauto. Qed.

End SheetSyncFacts.

(** * Further properties of the code *)

(** ** The resolver and the amount cleaner *)

Module ResolverFacts.

Lemma upper_char_upper (c : ascii) : PyStr.upper_char (PyStr.upper_char c) = PyStr.upper_char c.
Proof. destruct c as [[] [] [] [] [] [] [] []]; reflexivity. Qed.

Lemma upper_char_lower (c : ascii) : PyStr.upper_char (PyStr.lower_char c) = PyStr.upper_char c.
Proof. destruct c as [[] [] [] [] [] [] [] []]; reflexivity. Qed.

Lemma is_space_upper (c : ascii) : PyStr.is_space (PyStr.upper_char c) = PyStr.is_space c.
Proof. destruct c as [[] [] [] [] [] [] [] []]; reflexivity. Qed.

Lemma upper_upper (s : string) : PyStr.upper (PyStr.upper s) = PyStr.upper s.
Proof. induction s as [|c s IH]; simpl; [ | rewrite upper_char_upper, IH ]; reflexivity. Qed.

Lemma upper_lower (s : string) : PyStr.upper (PyStr.lower s) = PyStr.upper s.
Proof. induction s as [|c s IH]; simpl; [ | rewrite upper_char_lower, IH ]; reflexivity. Qed.

Lemma upper_lstrip (s : string) : PyStr.upper (PyStr.lstrip s) = PyStr.lstrip (PyStr.upper s).
Proof.
  induction s as [|c s IH]; simpl; [reflexivity | ].
  rewrite is_space_upper. destruct (PyStr.is_space c); [assumption | reflexivity].
Qed.

Lemma upper_rstrip (s : string) : PyStr.upper (PyStr.rstrip s) = PyStr.rstrip (PyStr.upper s).
Proof.
  induction s as [|c s IH]; simpl; [reflexivity | ].
  rewrite <- IH, is_space_upper.
  destruct (PyStr.rstrip s) as [|d r]; simpl; [ | reflexivity ].
  destruct (PyStr.is_space c); reflexivity.
Qed.

Lemma rstrip_rstrip (s : string) : PyStr.rstrip (PyStr.rstrip s) = PyStr.rstrip s.
Proof.
  induction s as [|c s IH]; simpl; [reflexivity | ].
  destruct (PyStr.rstrip s) as [|d r] eqn:E.
  - destruct (PyStr.is_space c) eqn:Ec; simpl; [ | rewrite Ec ]; reflexivity.
  - change (PyStr.rstrip (String c (String d r)))
      with (match PyStr.rstrip (String d r) with
            | EmptyString => if PyStr.is_space c then EmptyString
                             else String c EmptyString
            | r' => String c r'
            end).
    rewrite IH. reflexivity.
Qed.

Lemma rstrip_keeps_head (c : ascii) (r : string) :
  PyStr.is_space c = false -> exists r', PyStr.rstrip (String c r) = String c r'.
Proof.
  intros Hc. simpl. destruct (PyStr.rstrip r); [rewrite Hc | ]; eexists; reflexivity.
Qed.

Lemma strip_strip (s : string) : PyStr.strip (PyStr.strip s) = PyStr.strip s.
Proof.
  unfold PyStr.strip.
  assert (H : PyStr.lstrip s = EmptyString
              \/ exists c r, PyStr.lstrip s = String c r /\ PyStr.is_space c = false).
  { induction s as [|c s IH]; simpl; [left; reflexivity | ].
    destruct (PyStr.is_space c) eqn:E; [assumption | ].
    right. exists c, s. split; [reflexivity | assumption]. }
  destruct H as [->|(c & r & -> & Hc)]; [reflexivity | ].
  destruct (rstrip_keeps_head c r Hc) as [r' Hr]. rewrite Hr.
  simpl PyStr.lstrip. rewrite Hc, <- Hr. apply rstrip_rstrip.
Qed.

(** The resolver reads its argument only through its upper-cased,
    stripped form. *)
Lemma from_string_normal_form (s1 s2 : string) :
  PyStr.strip (PyStr.upper s1) = PyStr.strip (PyStr.upper s2) ->
  Category_from_string s1 = Category_from_string s2.
Proof. intros H. unfold Category_from_string. rewrite H. reflexivity. Qed.

(** X1. On an argument made of ASCII characters the category resolver
    ignores the letter case and the white space around it: the string,
    its upper-cased form, its lower-cased form and its stripped form
    all resolve to the same member. (The case mapping of other
    characters is outside the model, and the statement is not made for
    them.) *)
Theorem from_string_ignores_case_and_padding (s : string) :
  PyStr.is_ascii s = true ->
  Category_from_string (PyStr.upper s) = Category_from_string s
  /\ Category_from_string (PyStr.lower s) = Category_from_string s
  /\ Category_from_string (PyStr.strip s) = Category_from_string s.
Proof.
  intros _. repeat split; apply from_string_normal_form.
  - rewrite upper_upper. reflexivity.
  - rewrite upper_lower. reflexivity.
  - unfold PyStr.strip at 2. rewrite upper_rstrip, upper_lstrip.
    apply (strip_strip (PyStr.upper s)).
Qed.

Lemma from_string_ignores_case_and_padding_witness :
  PyStr.is_ascii "  gRoCeRy " = true
  /\ Category_from_string "  GROCERY " = Category_from_string "  gRoCeRy "
  /\ Category_from_string "  grocery " = Category_from_string "  gRoCeRy "
  /\ Category_from_string "gRoCeRy" = Category_from_string "  gRoCeRy ".
Proof.
  split; [reflexivity | ].
  exact (from_string_ignores_case_and_padding "  gRoCeRy " eq_refl).
Defined.

Example padded_grocery : Category_from_string "  gRoCeRy " = GROCERY.
Proof. vm_compute. reflexivity. Qed.

Definition is_amount_char (c : ascii) : bool :=
  (PyStr.is_digit c || Ascii.eqb c "." || Ascii.eqb c "-")%bool.

Lemma keep_amount_chars_app (s1 s2 : string) :
  Pydantic.keep_amount_chars (String.append s1 s2)
  = String.append (Pydantic.keep_amount_chars s1) (Pydantic.keep_amount_chars s2).
Proof.
  induction s1 as [|c s1 IH]; simpl; [reflexivity | ].
  destruct (PyStr.is_digit c || Ascii.eqb c "." || Ascii.eqb c "-")%bool; simpl;
    rewrite IH; reflexivity.
Qed.

(** X2. The amount validator reads a string amount through its digits,
    points and minus signs only: a character of any other kind (a
    thousands separator, a currency sign, a blank) can be inserted
    anywhere without changing the amount. *)
Theorem clean_amount_ignores_other_characters (s1 s2 : string) (c : ascii) :
  is_amount_char c = false ->
  Pydantic.clean_amount (PyStr (String.append s1 (String c s2)))
  = Pydantic.clean_amount (PyStr (String.append s1 s2)).
Proof.
  intros Hc. unfold Pydantic.clean_amount.
  rewrite !keep_amount_chars_app. simpl. unfold is_amount_char in Hc.
  rewrite Hc. reflexivity.
Qed.

Lemma clean_amount_ignores_other_characters_witness :
  Pydantic.clean_amount (PyStr "1,234.50") = Pydantic.clean_amount (PyStr "1234.50")
  /\ Pydantic.clean_amount (PyStr "1234.50") = Some (123450 # 100)%Q.
Proof.
  split; [ | reflexivity ].
  exact (clean_amount_ignores_other_characters "1" "234.50" "," eq_refl).
Defined.

End ResolverFacts.

(** ** Enrichment: what every path keeps *)

Module EnrichmentFacts.
Import Categorizer.

(** The fields of a transaction that come from extraction. *)
Definition extracted_fields (t : Transaction)
  : option string * string * option Q * option string * option string
    * TransactionType :=
  (date t, description t, amount t, source_account t, short_description t,
   transaction_type t).

Lemma match_step_fields (st : MatchState) (r : AIProcessedTransaction) :
  map extracted_fields (batch (match_step st r)) = map extracted_fields (batch st).
Proof.
  unfold match_step.
  destruct ((0 <=? original_index r)
            && (original_index r <? Z.of_nat (length (batch st))))%bool;
    simpl; [ | reflexivity ].
  generalize (Z.to_nat (original_index r)). intros i.
  revert i. induction (batch st) as [|t l IH]; intros [|i]; simpl;
    try reflexivity.
  f_equal. apply IH.
Qed.

Lemma match_fold_fields (results : list AIProcessedTransaction) :
  forall st, map extracted_fields (batch (fold_left match_step results st))
             = map extracted_fields (batch st).
Proof.
  induction results as [|r results IH]; intros st; simpl; [reflexivity | ].
  rewrite IH. apply match_step_fields.
Qed.

(** X3. Whatever the classifier does (no classifier, an exception, a
    malformed answer, any list of results), enrichment returns a batch
    of the same length in the same order in which every transaction
    keeps its date, description, amount, source account, short
    description and type: only category, is_expense and is_split are
    ever written. *)
Theorem enrichment_keeps_extracted_fields (st : AIState) (raw : list Transaction) :
  map extracted_fields (fst (process_transactions_ai st raw))
  = map extracted_fields raw.
Proof.
  unfold process_transactions_ai.
  destruct (agent st) as [run|]; [ | cbn [fst]; rewrite map_map; reflexivity ].
  destruct (prompt_has_error st); [cbn [fst]; rewrite map_map; reflexivity | ].
  destruct raw as [|t raw]; [reflexivity | ].
  destruct (run (prepare_input (t :: raw))); cbn [fst];
    try (rewrite map_map; reflexivity).
  unfold match_results. rewrite match_fold_fields. reflexivity.
Qed.

Lemma ensure_category_set (t : Transaction) : category (Main.ensure_category t) <> None.
Proof. unfold Main.ensure_category. destruct (category t) eqn:E; simpl; congruence. Qed.

(** X4. The expense filter keeps, in order, exactly the transactions
    whose flag is 1 or unset; applying it twice changes nothing more;
    and it keeps every transaction of a batch that failed as a whole. *)
Theorem filter_expenses_keeps_expenses (txs : list Transaction) :
  (forall t, In t (filter_expenses txs)
             <-> In t txs /\ (is_expense t = Some 1 \/ is_expense t = None))
  /\ filter_expenses (filter_expenses txs) = filter_expenses txs
  /\ sublist (filter_expenses txs) txs
  /\ filter_expenses (map assign_error_defaults txs) = map assign_error_defaults txs.
Proof.
  split; [ | split; [ | split ] ].
  - intros t. unfold filter_expenses. rewrite filter_In. split.
    + intros [Hin H]. split; [assumption | ].
      destruct (is_expense t) as [e|]; [left | right; reflexivity].
      apply Z.eqb_eq in H. rewrite H. reflexivity.
    + intros [Hin [H|H]]; (split; [assumption | ]); rewrite H; reflexivity.
  - unfold filter_expenses. induction txs as [|t txs IH]; simpl; [reflexivity | ].
    destruct (match is_expense t with None => true | Some e => e =? 1 end) eqn:E;
      simpl; rewrite ?E, IH; reflexivity.
  - unfold filter_expenses. induction txs as [|t txs IH]; simpl; [constructor | ].
    destruct (match is_expense t with None => true | Some e => e =? 1 end);
      [apply sublist_skip | apply sublist_cons]; assumption.
  - unfold filter_expenses. induction txs as [|t txs IH]; simpl; [reflexivity | ].
    rewrite IH. reflexivity.
Qed.

(** X5. The request sent to the classifier has one entry per
    transaction, and the index of an entry is the position of its
    transaction in the batch, so that [original_index] addresses the
    batch. *)
Theorem prepare_input_indices (raw : list Transaction) :
  map input_index (prepare_input raw) = seq 0 (length raw)
  /\ map input_description (prepare_input raw) = map description raw.
Proof.
  unfold prepare_input.
  assert (H : forall (n : nat) (l : list Transaction),
            map input_index
                (imap (fun i t =>
                         mkAIInput (n + i)
                           (match date t with
                            | Some d => if String.eqb d "" then "Unknown" else d
                            | None => "Unknown"
                            end)
                           (description t)
                           (match amount t with Some a => a | None => 0%Q end)) l)
            = seq n (length l)
            /\ map input_description
                (imap (fun i t =>
                         mkAIInput (n + i)
                           (match date t with
                            | Some d => if String.eqb d "" then "Unknown" else d
                            | None => "Unknown"
                            end)
                           (description t)
                           (match amount t with Some a => a | None => 0%Q end)) l)
               = map description l).
  { intros n l. revert n. induction l as [|t l IH]; intros n; [split; reflexivity | ].
    cbn [imap map length seq]. destruct (IH (S n)) as [H1 H2].
    rewrite Nat.add_0_r. split; f_equal.
    - rewrite <- H1. f_equal. apply imap_ext. intros i x _. simpl.
      f_equal. lia.
    - rewrite <- H2. f_equal. apply imap_ext. intros i x _. simpl.
      f_equal. lia. }
  apply (H 0%nat raw).
Qed.

End EnrichmentFacts.

(** ** Enrichment: the log of the transactions no result updated *)

Module NotUpdatedFacts.
Import Categorizer.

Lemma updated_indices_fold (results : list AIProcessedTransaction) :
  forall (st : MatchState) (i : nat),
    i ∈ updated_indices (fold_left match_step results st)
    <-> i ∈ updated_indices st
        \/ ((i < length (batch st))%nat
            /\ exists r, r ∈ results /\ original_index r = Z.of_nat i).
Proof.
  induction results as [|r results IH]; intros st i; simpl.
  - split; [left; assumption | ]. intros [H|(_ & r & Hr & _)]; [assumption | ].
    inversion Hr.
  - rewrite IH. unfold match_step.
    destruct ((0 <=? original_index r)
              && (original_index r <? Z.of_nat (length (batch st))))%bool eqn:E;
      simpl.
    + apply andb_true_iff in E as [E1 E2].
      apply Z.leb_le in E1. apply Z.ltb_lt in E2. rewrite length_alter.
      split.
      * intros [H|(Hlt & r' & Hr' & Hidx)].
        -- apply elem_of_cons in H as [->|H]; [ | left; assumption ].
           right. split; [lia | ]. exists r. split; [left | lia].
        -- right. split; [assumption | ]. exists r'. split; [right | ]; assumption.
      * intros [H|(Hlt & r' & Hr' & Hidx)].
        -- left. right. assumption.
        -- apply elem_of_cons in Hr' as [->|Hr'].
           ++ left. apply elem_of_cons. left. lia.
           ++ right. split; [assumption | ]. exists r'. split; assumption.
    + split.
      * intros [H|(Hlt & r' & Hr' & Hidx)]; [left; assumption | ].
        right. split; [assumption | ]. exists r'. split; [right | ]; assumption.
      * intros [H|(Hlt & r' & Hr' & Hidx)]; [left; assumption | ].
        apply elem_of_cons in Hr' as [->|Hr'].
        -- exfalso. apply andb_false_iff in E as [E|E];
             [apply Z.leb_gt in E | apply Z.ltb_ge in E]; lia.
        -- right. split; [assumption | ]. exists r'. split; assumption.
Qed.

Lemma existsb_eqb_elem (i : nat) (l : list nat) :
  existsb (Nat.eqb i) l = true <-> i ∈ l.
Proof.
  rewrite existsb_exists, list_elem_of_In. split.
  - intros (x & Hx & Heq). apply Nat.eqb_eq in Heq. subst x. assumption.
  - intros H. exists i. split; [assumption | apply Nat.eqb_refl].
Qed.

(** X6. When the classifier answers with a list of results, the log
    holds the warning "not updated" for position [i] with description
    [d] exactly when the batch has a transaction with that description
    at position [i] and no result names [i]. *)
Theorem not_updated_logged_exactly (st : AIState) (run : Agent)
        (raw : list Transaction) (results : list AIProcessedTransaction)
        (i : nat) (d : string) :
  agent st = Some run -> prompt_has_error st = false ->
  run (prepare_input raw) = AgentBatch results ->
  LogNotUpdated i d ∈ snd (process_transactions_ai st raw)
  <-> (exists t, raw !! i = Some t /\ description t = d)
      /\ forall r, r ∈ results -> original_index r <> Z.of_nat i.
Proof.
  intros Ha Hp Hr. unfold process_transactions_ai. rewrite Ha, Hp.
  destruct raw as [|t0 raw].
  { simpl. split.
    - intros H. apply list_elem_of_singleton in H. discriminate.
    - intros [(t & Ht & _) _]. rewrite lookup_nil in Ht. discriminate. }
  rewrite Hr. cbn [snd]. set (raw' := t0 :: raw) in *. clearbody raw'.
  set (m := match_results results raw').
  assert (Hlog : forall l, LogNotUpdated i d ∈ match_log (fold_left match_step l
                                                          (mkMatchState raw' [] []))
                           -> False).
  { assert (G : forall l s, LogNotUpdated i d ∈ match_log (fold_left match_step l s)
                            -> LogNotUpdated i d ∈ match_log s).
    { induction l as [|r l IH]; intros s H; simpl in H; [assumption | ].
      apply IH in H. unfold match_step in H.
      destruct ((0 <=? original_index r)
                && (original_index r <? Z.of_nat (length (batch s))))%bool;
        simpl in H; [assumption | ].
      apply elem_of_app in H as [H|H]; [assumption | ].
      apply list_elem_of_singleton in H. discriminate. }
    intros l H. apply G in H. simpl in H. inversion H. }
  rewrite !elem_of_app.
  assert (Hnu : LogNotUpdated i d ∈ not_updated_log (updated_indices m) (batch m)
                <-> (exists t, raw' !! i = Some t /\ description t = d)
                    /\ forall r, r ∈ results -> original_index r <> Z.of_nat i).
  { unfold not_updated_log. rewrite list_elem_of_omap. split.
    - intros ([j t] & Hin & Hf). apply elem_of_lookup_imap in Hin
        as (j' & t' & Heq & Hlook). inversion Heq. subst j' t'. simpl in Hf.
      destruct (existsb (Nat.eqb j) (updated_indices m)) eqn:E; [discriminate | ].
      inversion Hf. subst j.
      unfold m, match_results in Hlook.
      rewrite CategorizerFacts.match_fold_lookup in Hlook. simpl batch in Hlook.
      destruct (raw' !! i) as [t1|] eqn:Hraw; [ | discriminate ].
      simpl in Hlook. inversion Hlook. subst t.
      split.
      + exists t1. split; [reflexivity | ].
        symmetry. apply CategorizerFacts.updates_at_keeps.
      + intros r Hrin Hidx.
        assert (Hup : i ∈ updated_indices m).
        { unfold m, match_results. apply updated_indices_fold. right. simpl.
          split; [apply lookup_lt_Some in Hraw; assumption | ].
          exists r. split; assumption. }
        apply existsb_eqb_elem in Hup. congruence.
    - intros [(t & Ht & Hd) Hnone].
      exists (i, CategorizerFacts.updates_at i results t). split.
      + apply elem_of_lookup_imap. exists i, (CategorizerFacts.updates_at i results t).
        split; [reflexivity | ]. unfold m, match_results.
        rewrite CategorizerFacts.match_fold_lookup. simpl batch. rewrite Ht.
        reflexivity.
      + simpl.
        destruct (existsb (Nat.eqb i) (updated_indices m)) eqn:E.
        * exfalso. apply existsb_eqb_elem in E.
          unfold m, match_results in E. apply updated_indices_fold in E.
          simpl in E. destruct E as [E|(_ & r & Hrin & Hidx)]; [inversion E | ].
          apply (Hnone r Hrin Hidx).
        * rewrite (proj1 (CategorizerFacts.updates_at_keeps i results t)), Hd.
          reflexivity. }
  split.
  - intros [H|[H|H]].
    + destruct (Nat.eqb (length results) (length raw')); [inversion H | ].
      apply list_elem_of_singleton in H. discriminate.
    + exfalso. apply (Hlog results). exact H.
    + apply Hnu. exact H.
  - intros H. right. right. apply Hnu. exact H.
Qed.

Lemma not_updated_logged_exactly_witness :
  LogNotUpdated 4 "Fuel"
    ∈ snd (process_transactions_ai CategorizerFacts.five_state
                                   CategorizerFacts.five_batch).
Proof.
  apply (proj2 (not_updated_logged_exactly CategorizerFacts.five_state
                  CategorizerFacts.five_run CategorizerFacts.five_batch
                  CategorizerFacts.five_results 4 "Fuel" eq_refl eq_refl eq_refl)).
  split.
  - eexists. split; reflexivity.
  - intros r Hr. unfold CategorizerFacts.five_results in Hr.
    repeat (apply elem_of_cons in Hr as [->|Hr]; [discriminate | ]).
    inversion Hr.
Defined.

Example five_batch_log :
  snd (process_transactions_ai CategorizerFacts.five_state CategorizerFacts.five_batch)
  = [LogCountMismatch 5 4; LogInvalidIndex 7;
     LogNotUpdated 1 "Rent May"; LogNotUpdated 4 "Fuel"].
Proof. vm_compute. reflexivity. Qed.

End NotUpdatedFacts.

(** ** Extraction: what the parsed list holds *)

Module ParsePdfsFacts.
Import Extraction.

Lemma parse_pdfs_no_preview (docs : list PdfDocument) :
  forall acc,
    parse_pdfs docs false acc
    = Some (acc ++ concat (map pdf_transactions (List.filter pdf_opened docs))).
Proof.
  induction docs as [|d docs IH]; intros acc; simpl.
  - rewrite app_nil_r. reflexivity.
  - destruct (pdf_opened d); simpl; rewrite IH; [ | reflexivity ].
    rewrite <- app_assoc. reflexivity.
Qed.

Lemma page_transactions_account (account : string) (p : Page) (t : Transaction) :
  In t (page_transactions account p) -> source_account t = Some account.
Proof.
  destruct p as [rows|]; simpl; [ | intros [] ].
  intros H. apply in_map_iff in H as (r & <- & _).
  unfold tag_transaction. simpl.
  destruct (PyStr.contains "achu" (PyStr.lower (description r))); reflexivity.
Qed.

(** X7. Without preview mode the extraction stage always returns, and
    what it returns is the concatenation, in order, of the transactions
    of the documents that could be opened: a document that cannot be
    opened contributes nothing, and neither does a page whose
    extraction failed; every transaction carries the account its
    document was attributed to, and there is one transaction per
    extracted row. *)
Theorem parse_pdfs_collects_opened_documents (docs : list PdfDocument) :
  parse_pdfs docs false []
  = Some (concat (map pdf_transactions (List.filter pdf_opened docs)))
  /\ (forall d t, In t (pdf_transactions d) ->
                  source_account t = Some (pdf_source_account d))
  /\ (forall d, length (pdf_transactions d)
                = list_sum (map (fun p => match p with
                                          | Some rows => length rows
                                          | None => 0%nat
                                          end) (pdf_pages d))).
Proof.
  split; [apply (parse_pdfs_no_preview docs []) | split ].
  - intros d t Hin. unfold pdf_transactions in Hin.
    apply in_concat in Hin as (l & Hl & Ht).
    apply in_map_iff in Hl as (p & <- & _).
    apply (page_transactions_account _ p t Ht).
  - intros d. unfold pdf_transactions.
    induction (pdf_pages d) as [|p ps IH]; simpl; [reflexivity | ].
    rewrite length_app, IH. f_equal.
    destruct p as [rows|]; simpl; [apply length_map | reflexivity].
Qed.

End ParsePdfsFacts.

(** ** The date filter: counts, repetition, calendar dates *)

Module FilterFacts.
Import Main.

Lemma filter_step_counts (window : PyDate.t * PyDate.t) (st : FilterState)
      (t : Transaction) :
  (length (filtered_list (filter_step window st t))
   + ignored_count (filter_step window st t)
   + no_date_count (filter_step window st t))%nat
  = S (length (filtered_list st) + ignored_count st + no_date_count st)%nat.
Proof.
  unfold filter_step.
  destruct (date t) as [s|]; [ | simpl; lia ].
  destruct (parse_transaction_date s) as [d|]; [ | simpl; lia ].
  destruct (PyDate.leb (fst window) d && PyDate.leb d (snd window))%bool; simpl;
    rewrite ?length_app; simpl; lia.
Qed.

Lemma filter_step_no_date (window : PyDate.t * PyDate.t) (st : FilterState)
      (t : Transaction) :
  no_date_count (filter_step window st t)
  = (no_date_count st
     + if match date t with
          | Some s => match parse_transaction_date s with
                      | Some _ => false
                      | None => true
                      end
          | None => true
          end then 1 else 0)%nat.
Proof.
  unfold filter_step.
  destruct (date t) as [s|]; [ | simpl; lia ].
  destruct (parse_transaction_date s) as [d|]; [ | simpl; lia ].
  destruct (PyDate.leb (fst window) d && PyDate.leb d (snd window))%bool; simpl; lia.
Qed.

(** The transaction has no date the filter can read. *)
Definition undated (t : Transaction) : bool :=
  match date t with
  | Some s => match parse_transaction_date s with
              | Some _ => false
              | None => true
              end
  | None => true
  end.

(** X8. The date filter accounts for every transaction: the number
    kept, the number ignored as out of range and the number skipped for
    want of a readable date add up to the length of the input, and the
    last count is the number of transactions whose date is missing or
    unparseable. *)
Theorem filter_counts_add_up (window : PyDate.t * PyDate.t)
        (transactions : list Transaction) :
  let r := filter_loop window transactions in
  (length (filtered_list r) + ignored_count r + no_date_count r)%nat
  = length transactions
  /\ no_date_count r = length (List.filter undated transactions).
Proof.
  unfold filter_loop.
  assert (H : forall st,
            (length (filtered_list (fold_left (filter_step window) transactions st))
             + ignored_count (fold_left (filter_step window) transactions st)
             + no_date_count (fold_left (filter_step window) transactions st))%nat
            = (length transactions
               + (length (filtered_list st) + ignored_count st + no_date_count st))%nat
            /\ no_date_count (fold_left (filter_step window) transactions st)
               = (no_date_count st + length (List.filter undated transactions))%nat).
  { induction transactions as [|t l IH]; intros st; simpl; [lia | ].
    destruct (IH (filter_step window st t)) as [H1 H2].
    rewrite H1, H2, filter_step_counts, filter_step_no_date.
    unfold undated at 2. split; [lia | ].
    destruct (match date t with
              | Some s => match parse_transaction_date s with
                          | Some _ => false
                          | None => true
                          end
              | None => true
              end); simpl; lia. }
  destruct (H (mkFilterState [] 0 0)) as [H1 H2]. simpl in *. split; lia.
Qed.

(** X9. Filtering twice with the same target month gives what filtering
    once gives, for every year and month (also those for which the
    filter returns its input), and the result is a sublist of the
    input. *)
Theorem filter_by_date_idempotent (transactions : list Transaction) (y m : Z) :
  filter_transactions_by_date (filter_transactions_by_date transactions y m) y m
  = filter_transactions_by_date transactions y m
  /\ sublist (filter_transactions_by_date transactions y m) transactions.
Proof.
  unfold filter_transactions_by_date.
  destruct (date_window y m) as [window|]; [ | split; reflexivity ].
  unfold filter_loop. rewrite !DateFacts.filter_loop_is_filter. simpl.
  split.
  - induction transactions as [|t l IH]; simpl; [reflexivity | ].
    destruct (DateFacts.in_window window t) eqn:E; simpl; rewrite ?E, ?IH;
      reflexivity.
  - induction transactions as [|t l IH]; simpl; [constructor | ].
    destruct (DateFacts.in_window window t);
      [apply sublist_skip | apply sublist_cons]; assumption.
Qed.

Lemma first_format_valid (formats : list string) (s : string)
      (parsed : Strptime.datetime) :
  Strptime.first_format formats s = Some parsed ->
  PyDate.valid (PyDate.year (Strptime.dt_date parsed))
               (PyDate.month (Strptime.dt_date parsed))
               (PyDate.day (Strptime.dt_date parsed)) = true.
Proof.
  induction formats as [|fmt formats IH]; simpl; [discriminate | ].
  destruct (Strptime.strptime s fmt) as [p|] eqn:E; [ | exact IH ].
  intros H. inversion H. subst p. clear H.
  unfold Strptime.strptime in E.
  destruct (Strptime.read_format fmt false) as [ds|]; [ | discriminate ].
  destruct (Strptime.matches ds s) as [|[found rest] ms]; [discriminate | ].
  destruct rest; [ | discriminate ].
  unfold Strptime.convert in E.
  match type of E with
  | match PyDate.make ?y ?m ?d with _ => _ end = _ =>
      unfold PyDate.make in E; destruct (PyDate.valid y m d) eqn:V;
      [ | discriminate ]
  end.
  match type of E with
  | (if ?c then _ else _) = _ => destruct c; [ | discriminate ]
  end.
  inversion E. subst parsed. simpl. exact V.
Qed.

(** X10. A date the filter reads from a string is always a date of the
    calendar: a year from 1 to 9999, a month from 1 to 12 and a day
    that exists in that month (so "30/02/2024" is not read). The same
    holds for the sheet parser. *)
Theorem parsed_date_is_calendar_date (s : string) (d : PyDate.t) :
  parse_transaction_date s = Some d
  \/ option_map Strptime.dt_date (Strptime.first_format sheet_formats_to_try s)
     = Some d ->
  1 <= PyDate.year d <= 9999 /\ 1 <= PyDate.month d <= 12
  /\ 1 <= PyDate.day d <= PyDate.days_in_month (PyDate.year d) (PyDate.month d).
Proof.
  assert (G : forall formats,
            option_map Strptime.dt_date (Strptime.first_format formats s) = Some d ->
            PyDate.valid (PyDate.year d) (PyDate.month d) (PyDate.day d) = true).
  { intros formats H.
    destruct (Strptime.first_format formats s) as [p|] eqn:E; [ | discriminate ].
    simpl in H. inversion H. subst d.
    apply (first_format_valid formats s p E). }
  intros [H|H]; apply G in H; unfold PyDate.valid in H;
    repeat (apply andb_true_iff in H as [H ?]);
    repeat match goal with
           | X : (_ <=? _) = true |- _ => apply Z.leb_le in X
           end; lia.
Qed.

Lemma parsed_date_is_calendar_date_witness :
  parse_transaction_date "29/02/2024" = Some (PyDate.mk 2024 2 29)
  /\ 1 <= 29 <= PyDate.days_in_month 2024 2
  /\ parse_transaction_date "30/02/2024" = None.
Proof.
  split; [reflexivity | ]. split; [ | reflexivity ].
  exact (proj2 (proj2 (parsed_date_is_calendar_date "29/02/2024"
                         (PyDate.mk 2024 2 29) (or_introl eq_refl)))).
Defined.

End FilterFacts.

(** ** Checkpoints: the processed file and malformed items *)

Module LoadFacts.
Import Main.

Lemma convert_processed_category (d : gmap string pyval) :
  convert_processed d !! "category" = None
  \/ convert_processed d !! "category" = Some PyNone.
Proof.
  unfold convert_processed.
  match goal with
  | |- context [match ?d1 !! "category" with _ => _ end] =>
      destruct (d1 !! "category") eqn:E
  end.
  - right. apply lookup_insert_eq.
  - left. exact E.
Qed.

Lemma convert_processed_date (d : gmap string pyval) :
  convert_processed d !! "date"
  = match d !! "date" with
    | Some (PyStr s) => Some (PyStr (parse_date_flexible (Some s)))
    | Some (PyCategory c) =>
        Some (PyStr (parse_date_flexible (Some (Category_value c))))
    | other => other
    end.
Proof.
  unfold convert_processed.
  match goal with
  | |- context [match ?d1 !! "category" with _ => _ end] =>
      assert (H : (match d1 !! "category" with
                   | Some _ => <["category" := PyNone]> d1
                   | None => d1
                   end) !! "date" = d1 !! "date")
        by (destruct (d1 !! "category");
            [apply lookup_insert_ne; discriminate | reflexivity]);
      rewrite H
  end.
  destruct (d !! "date") as [[ | | | | | | ]|] eqn:E;
    rewrite ?lookup_insert_eq, ?E; reflexivity.
Qed.

Ltac open_validation H :=
  repeat match type of H with
         | (?x ≫= _) = Some _ =>
             let E := fresh "V" in
             destruct x eqn:E; simpl in H; [ | discriminate H ]
         end.

(** The date an item of the processed file is loaded with: what the
    date parser of the sheets makes of the saved string, and no date
    when the item has none. *)
Definition loaded_date (item_dict : gmap string pyval) : option string :=
  match item_dict !! "date" with
  | Some (PyStr s) => Some (parse_date_flexible (Some s))
  | Some (PyCategory c) => Some (parse_date_flexible (Some (Category_value c)))
  | _ => None
  end.

Lemma processed_item_loaded (item_dict : gmap string pyval) (t : Transaction) :
  deserialize_processed_item (ItemDict item_dict) = Some t ->
  category t = None /\ date t = loaded_date item_dict.
Proof.
  simpl. intros Hit. unfold Transaction_from_dict in Hit.
  rewrite convert_processed_date in Hit.
  open_validation Hit. inversion Hit. subst t. simpl. clear Hit.
  split.
  - destruct (convert_processed_category item_dict) as [E|E]; rewrite E in *;
      simpl in *; congruence.
  - unfold loaded_date.
    destruct (item_dict !! "date") as [[ | | | | | | ]|]; simpl in V;
      try discriminate; inversion V; reflexivity.
Qed.

(** X11. A transaction loaded from the processed checkpoint never
    carries a category, whatever its item holds, and its date is what
    the date parser of the sheets makes of the date saved in its own
    item (no date when the item has none): the loaded list is the list
    of the items that deserialize, in their order, each with these two
    fields. *)
Theorem processed_checkpoint_has_no_category (f : CheckpointFile)
        (txs : list Transaction) :
  load_processed f = Some txs ->
  exists items,
    f = FileArray items
    /\ txs = omap deserialize_processed_item items
    /\ Forall2 (fun it t =>
                  exists item_dict,
                    it = ItemDict item_dict
                    /\ category t = None
                    /\ date t = loaded_date item_dict)
               (List.filter (fun it => bool_decide
                               (is_Some (deserialize_processed_item it))) items)
               txs.
Proof.
  unfold load_processed, load_checkpoint.
  destruct f as [ | |items]; try discriminate.
  intros H.
  assert (Ht : txs = omap deserialize_processed_item items)
    by (destruct items; [discriminate | inversion H; reflexivity]).
  subst txs. clear H. exists items. split; [reflexivity | ].
  split; [reflexivity | ].
  induction items as [|it items IH]; [constructor | ].
  cbn [List.filter omap list_omap].
  destruct (deserialize_processed_item it) as [t|] eqn:E.
  - rewrite bool_decide_eq_true_2 by (eexists; reflexivity).
    constructor; [ | exact IH ].
    destruct it as [item_dict|]; [ | discriminate ].
    exists item_dict. split; [reflexivity | ].
    apply processed_item_loaded, E.
  - rewrite bool_decide_eq_false_2 by (intros [x Hx]; discriminate).
    exact IH.
Qed.

Definition saved_pair : list Transaction :=
  [SheetRowsFacts.debit_120; DateFacts.dated "2024-05-17"].

Lemma processed_checkpoint_has_no_category_witness :
  exists items,
    save_checkpoint saved_pair = FileArray items
    /\ default [] (load_processed (save_checkpoint saved_pair))
       = omap deserialize_processed_item items
    /\ Forall2 (fun it t =>
                  exists item_dict,
                    it = ItemDict item_dict
                    /\ category t = None
                    /\ date t = loaded_date item_dict)
               (List.filter (fun it => bool_decide
                               (is_Some (deserialize_processed_item it))) items)
               (default [] (load_processed (save_checkpoint saved_pair))).
Proof.
  apply (processed_checkpoint_has_no_category (save_checkpoint saved_pair)).
  vm_compute. reflexivity.
Defined.

(** A saved date of the form day/month/year is loaded as it is; one in
    the ISO form is loaded as the empty string. *)
Example processed_dates_loaded :
  option_map (map (fun t => (date t, category t)))
    (load_processed (save_checkpoint saved_pair))
  = Some [(Some "03/05/2024", None); (Some "", None)]
  /\ map (fun t => loaded_date (model_dump_json t)) saved_pair
     = [Some "03/05/2024"; Some ""].
Proof. split; vm_compute; reflexivity. Qed.

(** X12. An item of a checkpoint file that cannot be deserialized is
    dropped on its own: the file still loads, and the items before and
    after it load as they do without it. An element that is not an
    object is such an item for both checkpoints. *)
Theorem malformed_item_is_dropped_alone
        (deserialize : CheckpointItem -> option Transaction)
        (before after : list CheckpointItem) (bad : CheckpointItem) :
  deserialize bad = None ->
  load_checkpoint deserialize (FileArray (before ++ bad :: after))
  = Some (omap deserialize before ++ omap deserialize after).
Proof.
  intros Hbad. unfold load_checkpoint.
  destruct (before ++ bad :: after) as [|x l] eqn:E.
  - destruct before; discriminate.
  - rewrite <- E, omap_app. simpl. rewrite Hbad. reflexivity.
Qed.

Lemma malformed_item_is_dropped_alone_witness :
  load_categorized
    (FileArray ([ItemDict (model_dump_json SheetRowsFacts.debit_120)]
                ++ ItemOther
                :: [ItemDict (model_dump_json SheetRowsFacts.credit_120)]))
  = Some [SheetRowsFacts.debit_120; SheetRowsFacts.credit_120].
Proof.
  exact (malformed_item_is_dropped_alone deserialize_categorized_item
           [ItemDict (model_dump_json SheetRowsFacts.debit_120)]
           [ItemDict (model_dump_json SheetRowsFacts.credit_120)]
           ItemOther eq_refl).
Defined.

End LoadFacts.

(** ** The run: what reaches the sheets *)

Module RunFacts.
Import Main.

Lemma finish_update (w : World) (f : option (list Transaction))
      (txs : list Transaction) :
  In (EvUpdateSheet txs) (finish w f) ->
  f = Some txs /\ txs <> [] /\ proceed w = true /\ In EvAskUser (finish w f).
Proof.
  unfold finish. destruct f as [[|t l]|]; simpl; try tauto.
  intros [H|H]; [discriminate | ].
  destruct (proceed w); [ | destruct H ].
  destruct H as [H|[]]. inversion H. subst txs.
  repeat split; try discriminate. left. reflexivity.
Qed.

Lemma finish_no_save (w : World) (f : option (list Transaction))
      (file : CheckpointFile) :
  ~ In (EvSaveCategorized file) (finish w f).
Proof.
  unfold finish. destruct f as [[|t l]|]; simpl; try tauto.
  destruct (proceed w); simpl; intuition discriminate.
Qed.

Lemma stage1_events (w : World) (all : list Transaction) (events : list Event) :
  stage1 w = Some (all, events) ->
  forall e, In e events ->
            e = EvFetchEmails \/ e = EvParsePdfs \/ e = EvDateFilter
            \/ e = EvSaveProcessedFailed
            \/ exists file, e = EvSaveProcessed file.
Proof.
  unfold stage1. destruct (downloaded w) as [|d ds].
  - intros H. inversion H. subst. simpl. intuition.
  - destruct (Extraction.parse_pdfs (d :: ds) (preview w) []) as [parsed|];
      [ | discriminate ].
    intros H. inversion H. subst. clear H.
    destruct (filter_transactions_by_date parsed (year w) (month_num w));
      [simpl; intuition | ].
    destruct (processed_write_ok w); simpl; intuition eauto.
Qed.

Lemma stage1_no_update (w : World) (all : list Transaction) (events : list Event)
      (txs : list Transaction) :
  stage1 w = Some (all, events) -> ~ In (EvUpdateSheet txs) events.
Proof.
  intros H Hin.
  destruct (stage1_events w all events H _ Hin)
    as [E|[E|[E|[E|[file E]]]]]; discriminate.
Qed.

Lemma stage1_no_save (w : World) (all : list Transaction) (events : list Event)
      (file : CheckpointFile) :
  stage1 w = Some (all, events) -> ~ In (EvSaveCategorized file) events.
Proof.
  intros H Hin.
  destruct (stage1_events w all events H _ Hin)
    as [E|[E|[E|[E|[file' E]]]]]; discriminate.
Qed.

Lemma stage2_events (w : World) (all : list Transaction) :
  (fst (stage2 w all) = None /\ snd (stage2 w all) = [])
  \/ (fst (stage2 w all) = Some [] /\ snd (stage2 w all) = [EvEnrich all])
  \/ (all <> []
      /\ CategorizerFacts.enriched (ai_state w) all <> []
      /\ fst (stage2 w all) = Some (CategorizerFacts.enriched (ai_state w) all)
      /\ snd (stage2 w all)
         = [EvEnrich all;
            if categorized_write_ok w
            then EvSaveCategorized
                   (save_checkpoint (CategorizerFacts.enriched (ai_state w) all))
            else EvSaveCategorizedFailed]).
Proof.
  unfold stage2, CategorizerFacts.enriched.
  destruct all as [|t l]; [left; split; reflexivity | right ].
  destruct (fst (Categorizer.process_transactions_ai (ai_state w) (t :: l)))
    as [|e es]; [left; split; reflexivity | right ].
  repeat split; discriminate.
Qed.

Lemma stage2_no_update (w : World) (all txs : list Transaction) :
  ~ In (EvUpdateSheet txs) (snd (stage2 w all)).
Proof.
  destruct (stage2_events w all) as [[_ E]|[[_ E]|(_ & _ & _ & E)]];
    rewrite E; simpl; [tauto | intuition discriminate | ].
  destruct (categorized_write_ok w); intuition discriminate.
Qed.

(** X13. The run updates the sheets at most with a non-empty list and
    only after the confirmation was asked for and given: when there is
    no transaction, or the answer is not yes, nothing is written. *)
Theorem sheet_update_needs_transactions_and_consent (w : World)
        (txs : list Transaction) :
  In (EvUpdateSheet txs) (main w) ->
  txs <> [] /\ proceed w = true /\ In EvAskUser (main w).
Proof.
  unfold main. destruct (resume w) as [[stage all] final].
  destruct stage.
  - destruct (stage1 w) as [[all1 events]|] eqn:E1.
    + intros H. apply in_app_or in H as [H|H].
      { exfalso. apply (stage1_no_update w all1 events txs E1 H). }
      apply in_app_or in H as [H|H].
      { exfalso. apply (stage2_no_update w all1 txs H). }
      apply finish_update in H as (_ & H1 & H2 & H3).
      repeat split; try assumption. apply in_or_app. right. apply in_or_app.
      right. assumption.
    + simpl. intuition discriminate.
  - intros H. apply in_app_or in H as [H|H].
    { exfalso. apply (stage2_no_update w (default [] all) txs H). }
    apply finish_update in H as (_ & H1 & H2 & H3).
    repeat split; try assumption. apply in_or_app. right. assumption.
  - intros H. apply finish_update in H as (_ & H1 & H2 & H3). auto.
Qed.

Lemma sheet_update_needs_transactions_and_consent_witness :
  CheckpointFacts.categorized_pair <> []
  /\ proceed CheckpointFacts.both_checkpoints = true
  /\ In EvAskUser (main CheckpointFacts.both_checkpoints).
Proof.
  apply (sheet_update_needs_transactions_and_consent
           CheckpointFacts.both_checkpoints CheckpointFacts.categorized_pair).
  vm_compute. right. left. reflexivity.
Defined.

(** The run from stage 2 on, after the events [pre] of stage 1. *)
Lemma written_after_stage2 (w : World) (all txs : list Transaction)
      (pre : list Event) :
  (forall l, ~ In (EvUpdateSheet l) pre) ->
  (forall file, ~ In (EvSaveCategorized file) pre) ->
  In (EvUpdateSheet txs)
     (pre ++ snd (stage2 w all) ++ finish w (fst (stage2 w all))) ->
  let trace := pre ++ snd (stage2 w all) ++ finish w (fst (stage2 w all)) in
  Forall (fun t => category t <> None) txs
  /\ (exists batch, In (EvEnrich batch) trace
                    /\ txs = CategorizerFacts.enriched (ai_state w) batch)
  /\ (if categorized_write_ok w
      then In (EvSaveCategorized (save_checkpoint txs)) trace
      else In EvSaveCategorizedFailed trace
           /\ forall file, ~ In (EvSaveCategorized file) trace).
Proof.
  intros Hpre Hsave H trace. unfold trace. clear trace.
  apply in_app_or in H as [H|H]; [exfalso; apply (Hpre txs H) | ].
  apply in_app_or in H as [H|H]; [exfalso; apply (stage2_no_update w all txs H) | ].
  destruct (stage2_events w all) as [[E1 E2]|[[E1 E2]|(_ & _ & E1 & E2)]];
    rewrite E1 in *; rewrite E2 in *.
  - simpl in H. destruct H.
  - simpl in H. destruct H.
  - apply finish_update in H as (Hf & _). inversion Hf. subst txs. clear Hf.
    split; [ | split ].
    + unfold CategorizerFacts.enriched. rewrite map_is_fmap.
      apply Forall_fmap, Forall_true. intros t.
      apply EnrichmentFacts.ensure_category_set.
    + exists all. split; [ | reflexivity ].
      apply in_or_app. right. left. reflexivity.
    + destruct (categorized_write_ok w).
      * apply in_or_app. right. right. left. reflexivity.
      * split; [apply in_or_app; right; right; left; reflexivity | ].
        intros file Hin. apply in_app_or in Hin as [Hin|Hin];
          [apply (Hsave file Hin) | ].
        apply in_app_or in Hin as [Hin|Hin];
          [simpl in Hin; intuition discriminate | ].
        apply (finish_no_save _ _ _ Hin).
Qed.

(** X14. When the run does not resume from the categorized checkpoint,
    whatever it writes to the sheets is the enriched batch: it was
    returned by the enrichment of a batch the run handed to the
    classifier, and every transaction of it has a category. When the
    write of the categorized checkpoint succeeds, the checkpoint holds
    that same list; when the write fails, the failure is logged, no
    categorized checkpoint is saved, and the sheets are written all the
    same. *)
Theorem written_batch_is_the_enriched_batch (w : World) (txs : list Transaction) :
  load_categorized (categorized_transactions_file w) = None ->
  In (EvUpdateSheet txs) (main w) ->
  Forall (fun t => category t <> None) txs
  /\ (exists batch, In (EvEnrich batch) (main w)
                    /\ txs = CategorizerFacts.enriched (ai_state w) batch)
  /\ (if categorized_write_ok w
      then In (EvSaveCategorized (save_checkpoint txs)) (main w)
      else In EvSaveCategorizedFailed (main w)
           /\ forall file, ~ In (EvSaveCategorized file) (main w)).
Proof.
  intros Hcat. unfold main, resume. rewrite Hcat.
  destruct (load_processed (processed_transactions_file w)) as [all|].
  - intros H. apply (written_after_stage2 w (default [] (Some all)) txs []);
      [intros l [] | intros file [] | exact H].
  - destruct (stage1 w) as [[all1 events]|] eqn:E1.
    + intros H. apply (written_after_stage2 w all1 txs events);
        [ | | exact H ].
      * intros l. apply (stage1_no_update w all1 events l E1).
      * intros file. apply (stage1_no_save w all1 events file E1).
    + simpl. intuition discriminate.
Qed.

(** A fresh run in May 2024 on one statement, with a classifier, in
    which the categorized checkpoint cannot be written. *)
Definition fresh_run : World :=
  mkWorld FileMissing FileMissing [ExtractionFacts.statement] false
          CategorizerFacts.five_state 2024 5 true true false.

Lemma written_batch_is_the_enriched_batch_witness :
  exists txs,
    In (EvUpdateSheet txs) (main fresh_run)
    /\ Forall (fun t => category t <> None) txs
    /\ In EvSaveCategorizedFailed (main fresh_run)
    /\ forall file, ~ In (EvSaveCategorized file) (main fresh_run).
Proof.
  eexists. split; [vm_compute; do 7 right; left; reflexivity | ].
  match goal with
  | |- Forall _ ?txs /\ _ =>
      destruct (written_batch_is_the_enriched_batch fresh_run txs eq_refl)
        as (H1 & _ & H2 & H3)
  end.
  - vm_compute. do 7 right. left. reflexivity.
  - repeat split; assumption.
Defined.

Example failed_checkpoint_write :
  map (fun e => match e with
                | EvSaveProcessed _ => "processed checkpoint saved"
                | EvSaveProcessedFailed => "processed checkpoint not saved"
                | EvSaveCategorized _ => "categorized checkpoint saved"
                | EvSaveCategorizedFailed => "categorized checkpoint not saved"
                | EvUpdateSheet _ => "sheets updated"
                | EvAskUser => "confirmation"
                | EvEnrich _ => "enrichment"
                | EvFetchEmails => "fetch"
                | EvParsePdfs => "parse"
                | EvDateFilter => "filter"
                | EvQuit => "quit"
                end) (main fresh_run)
  = ["fetch"; "parse"; "filter"; "processed checkpoint saved"; "enrichment";
     "categorized checkpoint not saved"; "confirmation"; "sheets updated"].
Proof. vm_compute. reflexivity. Qed.

End RunFacts.

(** ** The split formulas on every row *)

Module FormulaFacts.
Import SheetFormulas.

Lemma round_half_away_integer (q : Q) : exists n : Z, round_half_away q = inject_Z n.
Proof.
  unfold round_half_away. destruct (Qle_bool 0 q).
  - eexists. reflexivity.
  - exists (- Qfloor (- q + (1 # 2)))%Z. unfold Qopp, inject_Z. simpl. reflexivity.
Qed.

Lemma round_half_away_zero (q : Q) : q == 0 -> round_half_away q = inject_Z 0.
Proof.
  intros H. unfold round_half_away.
  assert (Hle : Qle_bool 0 q = true) by (apply Qle_bool_iff; rewrite H; apply Qle_refl).
  rewrite Hle. f_equal.
  assert (Hq : q + (1 # 2) == 1 # 2) by (rewrite H; reflexivity).
  rewrite (Qfloor_comp _ _ Hq). reflexivity.
Qed.

(** X15. On the sheet "Achu" the two share formulas never show an
    error, and for every cost and each split flag 0, 1 and 2 the two
    shares add up to the cost of the row (whatever its expense flag);
    for any other value of the flag both shares are 0. *)
Theorem achu_sheet_shares_add_up (is_expense cost is_split : Q) :
  exists a b,
    shares true is_expense cost is_split = (Some a, Some b)
    /\ (is_split == 0 \/ is_split == 1 \/ is_split == 2 -> a + b == cost)
    /\ (~ is_split == 0 -> ~ is_split == 1 -> ~ is_split == 2 ->
        a = 0%Q /\ b = 0%Q).
Proof.
  unfold shares, template_value, appu_formula_template, achu_formula_template.
  rewrite SheetFormulasFacts.parse_achu_sheet_appu,
    SheetFormulasFacts.parse_achu_sheet_achu.
  cbn -[Qeq_bool Qred Qdiv].
  change (sheet_row is_expense cost is_split "G") with is_split.
  change (sheet_row is_expense cost is_split "F") with cost.
  destruct (Qeq_bool is_split (inject_Z 0)) eqn:E0.
  - apply Qeq_bool_iff in E0. cbn -[Qred]. eexists. eexists.
    split; [reflexivity | ]. split.
    + intros _. rewrite !Qred_correct. unfold inject_Z. ring.
    + intros H. contradiction.
  - cbn -[Qeq_bool Qred Qdiv].
    destruct (Qeq_bool is_split (inject_Z 1)) eqn:E1.
    + apply Qeq_bool_iff in E1. cbn -[Qred Qdiv].
      replace (Qeq_bool (inject_Z 2) 0) with false by reflexivity.
      cbn -[Qred Qdiv]. eexists. eexists. split; [reflexivity | ]. split.
      * intros _. rewrite !Qred_correct. unfold inject_Z. field.
      * intros _ H. contradiction.
    + cbn -[Qeq_bool Qred Qdiv].
      destruct (Qeq_bool is_split (inject_Z 2)) eqn:E2.
      * apply Qeq_bool_iff in E2. cbn -[Qred]. eexists. eexists.
        split; [reflexivity | ]. split.
        -- intros _. rewrite !Qred_correct. unfold inject_Z. ring.
        -- intros _ _ H. contradiction.
      * cbn. eexists. eexists. split; [reflexivity | ].
        apply Qeq_bool_neq in E0. apply Qeq_bool_neq in E1.
        apply Qeq_bool_neq in E2. split.
        -- intros [H|[H|H]]; contradiction.
        -- intros _ _ _. split; reflexivity.
Qed.

(** X16. On every other account sheet the two share formulas never
    show an error either (the division by the split flag is guarded),
    both shares are whole numbers, and a row whose expense flag is 0
    shows 0 in both shares whatever its cost and split flag. *)
Theorem standard_sheet_shares_defined (is_expense cost is_split : Q) :
  exists a b,
    shares false is_expense cost is_split = (Some a, Some b)
    /\ (exists n m : Z, a == inject_Z n /\ b == inject_Z m)
    /\ (is_expense == 0 -> a == 0 /\ b == 0).
Proof.
  unfold shares, template_value, appu_formula_template, achu_formula_template.
  rewrite SheetFormulasFacts.parse_standard_appu,
    SheetFormulasFacts.parse_standard_achu.
  cbn -[Qeq_bool Qred Qdiv Qmult round_half_away].
  change (sheet_row is_expense cost is_split "G") with is_split.
  change (sheet_row is_expense cost is_split "F") with cost.
  change (sheet_row is_expense cost is_split "B") with is_expense.
  assert (Hz : forall x, is_expense == 0 -> is_expense * cost / x == 0).
  { intros x H. rewrite H. unfold Qdiv. ring. }
  assert (Hz' : is_expense == 0 -> is_expense * cost == 0).
  { intros H. rewrite H. ring. }
  assert (R : forall q, exists n, Qred (round_half_away q) == inject_Z n).
  { intros q. destruct (round_half_away_integer q) as [n Hn].
    exists n. rewrite Qred_correct, Hn. reflexivity. }
  assert (R0 : forall q, q == 0 -> Qred (round_half_away q) == 0).
  { intros q H. rewrite Qred_correct, (round_half_away_zero q H). reflexivity. }
  change (inject_Z 0) with 0%Q. change (inject_Z 1) with 1%Q.
  destruct (Qeq_bool is_split 0) eqn:E0;
    destruct (Qeq_bool is_split 1) eqn:E1;
    cbn -[Qeq_bool Qred Qdiv Qmult round_half_away];
    rewrite ?E0; cbn -[Qeq_bool Qred Qdiv Qmult round_half_away];
    eexists; eexists; (split; [reflexivity | ]); split.
  all: try match goal with
           | |- exists n m, Qred (round_half_away ?x) == _
                            /\ Qred (round_half_away ?y) == _ =>
               destruct (R x) as [n Hn]; destruct (R y) as [m Hm];
               exists n, m; split; assumption
           end.
  all: intros He; split; apply R0;
    first [reflexivity | apply Hz; exact He | apply Hz'; exact He].
Qed.

End FormulaFacts.

(** ** Sheet synchronisation: what a run may do *)

Module SyncSafetyFacts.
Import SheetSync.
#[local] Set Warnings "-clear-no-such-hyp".

Lemma delete_step_doc (st : SyncState) (y x : string) :
  x <> y -> x ∈ doc st -> x ∈ doc (delete_step st y).
Proof.
  intros Hne Hx. unfold delete_step.
  destruct (bool_decide (size (existing_sheet_names st) = 1%nat)
            && bool_decide (y = "Sheet1")); [assumption | ].
  unfold del_worksheet.
  destruct (bool_decide (y ∈ doc st) && Nat.ltb 1 (length (doc st))); simpl;
    [ | assumption ].
  apply list_elem_of_filter. split; assumption.
Qed.

Lemma delete_fold_doc (l : list string) (x : string) :
  forall st, x ∉ l -> x ∈ doc st -> x ∈ doc (fold_left delete_step l st).
Proof.
  induction l as [|y l IH]; intros st Hx Hin; simpl; [assumption | ].
  apply IH.
  - intros H. apply Hx. right. assumption.
  - apply delete_step_doc; [ | assumption ]. intros ->. apply Hx. left.
Qed.

Lemma add_step_doc (to_add : gset string) (st : SyncState) (y x : string) :
  x <> "Sheet1" -> x ∈ doc st -> x ∈ doc (add_step to_add st y).
Proof.
  intros Hne Hx. unfold add_step.
  destruct (bool_decide (y ∈ to_add)); [ | assumption ].
  destruct (bool_decide ("Sheet1" ∈ existing_sheet_names st)
            && bool_decide (size (existing_sheet_names st) = 1%nat)).
  - unfold update_title.
    destruct (bool_decide ("Sheet1" ∈ doc st) && negb (bool_decide (y ∈ doc st)));
      simpl; [ | assumption ].
    apply list_elem_of_In, in_map_iff. exists x. split.
    + rewrite bool_decide_eq_false_2 by assumption. reflexivity.
    + apply list_elem_of_In. assumption.
  - unfold add_worksheet. destruct (bool_decide (y ∈ doc st)); simpl;
      [assumption | ]. apply elem_of_app. left. assumption.
Qed.

Lemma add_fold_doc (to_add : gset string) (l : list string) (x : string) :
  forall st, x <> "Sheet1" -> x ∈ doc st ->
             x ∈ doc (fold_left (add_step to_add) l st).
Proof.
  induction l as [|y l IH]; intros st Hne Hin; simpl; [assumption | ].
  apply IH; [assumption | ]. apply add_step_doc; assumption.
Qed.

Lemma filter_other_titles (y : string) (l : list string) :
  y ∉ l -> filter (fun x => x <> y) l = l.
Proof.
  induction l as [|z l IH]; intros Hy; [reflexivity | ].
  rewrite filter_cons. destruct (decide (z <> y)) as [Hzy|Hzy].
  - f_equal. apply IH. intros H. apply Hy. right. assumption.
  - exfalso. apply Hzy. intros ->. apply Hy. left.
Qed.

Lemma delete_step_length (st : SyncState) (y : string) :
  NoDup (doc st) -> (1 <= length (doc st))%nat ->
  NoDup (doc (delete_step st y)) /\ (1 <= length (doc (delete_step st y)))%nat.
Proof.
  intros Hnd Hlen. unfold delete_step.
  destruct (bool_decide (size (existing_sheet_names st) = 1%nat)
            && bool_decide (y = "Sheet1")); [split; assumption | ].
  unfold del_worksheet.
  destruct (bool_decide (y ∈ doc st) && Nat.ltb 1 (length (doc st))) eqn:E; simpl;
    [ | split; assumption ].
  apply andb_true_iff in E as [_ E]. apply Nat.ltb_lt in E.
  split; [apply NoDup_filter; assumption | ].
  destruct (doc st) as [|z l]; [simpl in E; lia | ].
  apply NoDup_cons in Hnd as [Hz Hnd].
  cbn. destruct (decide (z <> y)) as [Hzy|Hzy]; simpl; [lia | ].
  assert (Hy : z = y) by (destruct (decide (z = y)); [assumption | contradiction]).
  subst z.
  match goal with
  | |- (1 <= length ?f)%nat =>
      assert (Hf : f = l) by apply (filter_other_titles y l Hz); rewrite Hf
  end.
  simpl in E. lia.
Qed.

Lemma delete_fold_length (l : list string) :
  forall st, NoDup (doc st) -> (1 <= length (doc st))%nat ->
             (1 <= length (doc (fold_left delete_step l st)))%nat.
Proof.
  induction l as [|y l IH]; intros st Hnd Hlen; simpl; [assumption | ].
  destruct (delete_step_length st y Hnd Hlen) as [Hnd' Hlen']. apply IH; assumption.
Qed.

Lemma add_fold_length (to_add : gset string) (l : list string) :
  forall st, (length (doc st) <= length (doc (fold_left (add_step to_add) l st)))%nat.
Proof.
  induction l as [|y l IH]; intros st; simpl; [lia | ].
  etransitivity; [ | apply IH ]. unfold add_step.
  destruct (bool_decide (y ∈ to_add)); [ | lia ].
  destruct (bool_decide ("Sheet1" ∈ existing_sheet_names st)
            && bool_decide (size (existing_sheet_names st) = 1%nat)).
  - unfold update_title.
    destruct (bool_decide ("Sheet1" ∈ doc st) && negb (bool_decide (y ∈ doc st)));
      simpl; [rewrite length_map | ]; lia.
  - unfold add_worksheet. destruct (bool_decide (y ∈ doc st)); simpl;
      [ | rewrite length_app; simpl ]; lia.
Qed.

(** X17. A run never loses a target sheet: a sheet of the workbook
    whose title is in the target list, and is not the default title
    "Sheet1", is still in the workbook after the run, whatever the
    document service answers; and a workbook with at least one sheet
    still has at least one after the run. *)
Theorem sync_keeps_target_sheets (o : list string -> list string)
        (target : list string) (spreadsheet : workbook) :
  (forall l, o l ≡ₚ l) ->
  (forall x, x ∈ spreadsheet -> x ∈ target -> x <> "Sheet1" ->
             x ∈ doc (sync o target spreadsheet))
  /\ (NoDup spreadsheet -> spreadsheet <> [] -> doc (sync o target spreadsheet) <> []).
Proof.
  intros Ho. rewrite SheetSyncFacts.sync_unfold. cbv zeta. simpl doc.
  unfold SheetSyncFacts.after_additions, SheetSyncFacts.after_deletions.
  set (E := list_to_set spreadsheet : gset string).
  set (T := list_to_set target : gset string).
  set (st0 := mkSyncState spreadsheet E []).
  set (st1 := if negb (bool_decide (E ∖ T = ∅))
                 && (Nat.ltb 1 (size E) || bool_decide (E ∖ T = ∅))
              then fold_left delete_step (o (elements (E ∖ T))) st0
              else st0).
  split.
  - intros x Hx HxT Hne.
    rewrite (SheetSyncFacts.sorted_by_perm _ _).
    apply add_fold_doc; [assumption | ].
    unfold st1.
    destruct (negb (bool_decide (E ∖ T = ∅))
              && (Nat.ltb 1 (size E) || bool_decide (E ∖ T = ∅)));
      [ | assumption ].
    apply delete_fold_doc; [ | assumption ].
    rewrite (Ho _). intros H. apply elem_of_elements in H.
    apply elem_of_difference in H as [_ H]. apply H.
    apply elem_of_list_to_set. assumption.
  - intros Hnd Hne.
    assert (H1 : (1 <= length (doc st1))%nat).
    { unfold st1.
      assert (H0 : (1 <= length spreadsheet)%nat)
        by (destruct spreadsheet; [contradiction | simpl; lia]).
      destruct (negb (bool_decide (E ∖ T = ∅))
                && (Nat.ltb 1 (size E) || bool_decide (E ∖ T = ∅)));
        [apply delete_fold_length | ]; assumption. }
    pose proof (add_fold_length (T ∖ existing_sheet_names st1) target st1) as H2.
    pose proof (Permutation_length
                  (SheetSyncFacts.sorted_by_perm
                     (order_key target)
                     (doc (fold_left (add_step (T ∖ existing_sheet_names st1))
                                     target st1)))) as H3.
    intros Hnil. rewrite Hnil in H3. simpl in H3. lia.
Qed.

Lemma sync_keeps_target_sheets_witness :
  "Cash" ∈ doc (sync SheetSyncFacts.as_stored SheetSyncFacts.may_target
                     ["Old"; "Cash"; "Sheet1"]).
Proof.
  refine (proj1 (sync_keeps_target_sheets SheetSyncFacts.as_stored
                   SheetSyncFacts.may_target ["Old"; "Cash"; "Sheet1"] _)
                "Cash" _ _ _).
  - intros l. reflexivity.
  - right. left.
  - left.
  - discriminate.
Defined.

(** What a run may ask of the document service. *)
Definition allowed (target : list string) (spreadsheet : workbook) (op : Op) : Prop :=
  match op with
  | OpDelete x _ => (x ∉ target) /\ x ∈ spreadsheet
  | OpAdd x _ => x ∈ target
  | OpRename old new _ => old = "Sheet1" /\ new ∈ target
  | OpReorder _ => True
  end.

Lemma delete_fold_allowed (target : list string) (spreadsheet : workbook)
      (l : list string) :
  forall st,
    (forall y, y ∈ l -> (y ∉ target) /\ y ∈ spreadsheet) ->
    Forall (allowed target spreadsheet) (ops st) ->
    Forall (allowed target spreadsheet) (ops (fold_left delete_step l st)).
Proof.
  induction l as [|y l IH]; intros st Hl Hops; simpl; [assumption | ].
  apply IH; [intros z Hz; apply Hl; right; assumption | ].
  unfold delete_step.
  destruct (bool_decide (size (existing_sheet_names st) = 1%nat)
            && bool_decide (y = "Sheet1")); [assumption | ].
  destruct (del_worksheet (doc st) y); simpl; apply Forall_app; split;
    try assumption; constructor; try constructor; apply Hl; left.
Qed.

Lemma add_fold_allowed (target : list string) (spreadsheet : workbook)
      (to_add : gset string) (l : list string) :
  (forall y, y ∈ to_add -> y ∈ target) ->
  forall st,
    Forall (allowed target spreadsheet) (ops st) ->
    Forall (allowed target spreadsheet) (ops (fold_left (add_step to_add) l st)).
Proof.
  intros Ha. induction l as [|y l IH]; intros st Hops; simpl; [assumption | ].
  apply IH. unfold add_step.
  destruct (bool_decide (y ∈ to_add)) eqn:E; [ | assumption ].
  apply bool_decide_eq_true in E. apply Ha in E.
  destruct (bool_decide ("Sheet1" ∈ existing_sheet_names st)
            && bool_decide (size (existing_sheet_names st) = 1%nat)).
  - destruct (update_title (doc st) "Sheet1" y); simpl; apply Forall_app; split;
      try assumption; constructor; try constructor; try reflexivity; assumption.
  - destruct (add_worksheet (doc st) y); simpl; apply Forall_app; split;
      try assumption; constructor; try constructor; assumption.
Qed.

(** X18. A run deletes only sheets that were in the workbook and are
    not targets, creates only sheets of the target list, and renames
    only the default sheet "Sheet1", to a title of the target list. *)
Theorem sync_touches_only_what_it_should (o : list string -> list string)
        (target : list string) (spreadsheet : workbook) :
  (forall l, o l ≡ₚ l) ->
  Forall (allowed target spreadsheet) (ops (sync o target spreadsheet)).
Proof.
  intros Ho. rewrite SheetSyncFacts.sync_unfold. cbv zeta. simpl ops.
  apply Forall_app. split.
  - unfold SheetSyncFacts.after_additions. apply add_fold_allowed.
    + intros y Hy. apply elem_of_difference in Hy as [Hy _].
      apply elem_of_list_to_set in Hy. assumption.
    + unfold SheetSyncFacts.after_deletions.
      match goal with
      | |- context [if ?c then _ else _] => destruct c; [ | constructor ]
      end.
      apply delete_fold_allowed; [ | constructor ].
      intros y Hy. rewrite (Ho _) in Hy. apply elem_of_elements in Hy.
      apply elem_of_difference in Hy as [H1 H2].
      rewrite !elem_of_list_to_set in *. split; assumption.
  - match goal with
    | |- context [match ?l with [] => [] | _ => _ end] =>
        destruct l; repeat constructor
    end.
Qed.

Lemma sync_touches_only_what_it_should_witness :
  Forall (allowed SheetSyncFacts.may_target ["Old"; "Cash"; "Sheet1"])
         (ops (sync SheetSyncFacts.as_stored SheetSyncFacts.may_target
                    ["Old"; "Cash"; "Sheet1"])).
Proof.
  apply (sync_touches_only_what_it_should SheetSyncFacts.as_stored).
  intros l. reflexivity.
Defined.

End SyncSafetyFacts.

(** ** The month of the run *)

Module RunMonthFacts.
Import RunMonth.

Lemma valid_bounds (y m d : Z) :
  PyDate.valid y m d = true ->
  1 <= y <= 9999 /\ 1 <= m <= 12 /\ 1 <= d.
Proof.
  unfold PyDate.valid. intros H.
  repeat (apply andb_true_iff in H as [H ?]).
  repeat match goal with
         | h : (_ <=? _) = true |- _ => apply Z.leb_le in h
         end. lia.
Qed.

Lemma month_name_at (m : Z) :
  1 <= m <= 12 ->
  month_names !! Z.to_nat (m - 1)
  = Some (nth (Z.to_nat (m - 1)) month_names "").
Proof.
  intros Hm.
  assert (Hcases : m = 1 \/ m = 2 \/ m = 3 \/ m = 4 \/ m = 5 \/ m = 6 \/ m = 7
                   \/ m = 8 \/ m = 9 \/ m = 10 \/ m = 11 \/ m = 12) by lia.
  repeat (destruct Hcases as [-> | Hcases]; [reflexivity | ]).
  subst m. reflexivity.
Qed.

Lemma sheet_name_of_month (d : PyDate.t) (y m : Z) :
  1 <= y <= 9999 -> 1 <= m <= 12 ->
  12 * PyDate.year d + PyDate.month d = 12 * y + m + 1 ->
  1 <= PyDate.month d <= 12 ->
  sheet_name d
  = Some (String.append "Accounts-"
            (String.append (str_of_Z y)
               (String.append "-" (nth (Z.to_nat (m - 1)) month_names "")))).
Proof.
  intros Hy Hm Heq Hdm. destruct d as [dy dm dd]. simpl in *.
  unfold sheet_name, replace_day_1, sub_one_day. simpl.
  destruct (1 <? dm) eqn:E1.
  - apply Z.ltb_lt in E1. assert (dy = y) by lia. assert (dm - 1 = m) by lia.
    subst. reflexivity.
  - apply Z.ltb_ge in E1. assert (dm = 1) by lia. subst dm.
    assert (m = 12) by lia. assert (dy - 1 = y) by lia. subst m.
    unfold PyDate.make, PyDate.valid. simpl.
    replace (1 <=? dy - 1) with true by (symmetry; apply Z.leb_le; lia).
    replace (dy - 1 <=? 9999) with true by (symmetry; apply Z.leb_le; lia).
    simpl. subst y. reflexivity.
Qed.

(** X19. For every calendar date [today] that the run reads at its
    start, [get_previous_month] fails only in January of year 1;
    otherwise it returns the year, number and English name of the month
    before today's, and the date filter of the run never falls back to
    the unfiltered list: it keeps exactly the transactions dated from
    the first day of that month to the second day of today's month. The
    sheet update reads the clock again: when it reads a date of the
    same month, the workbook is named after the month that was
    filtered; when it reads a date of the following month, the workbook
    is named after the month in which the run started. *)
Theorem run_filters_previous_month (today today_at_update : PyDate.t) :
  PyDate.valid (PyDate.year today) (PyDate.month today) (PyDate.day today) = true ->
  match get_previous_month today with
  | None => PyDate.year today = 1 /\ PyDate.month today = 1
  | Some (y, m, name) =>
      1 <= m <= 12
      /\ 12 * y + m + 1 = 12 * PyDate.year today + PyDate.month today
      /\ month_names !! Z.to_nat (m - 1) = Some name
      /\ (forall transactions,
            Main.filter_transactions_by_date transactions y m
            = List.filter
                (DateFacts.in_window
                   (PyDate.mk y m 1,
                    PyDate.mk (PyDate.year today) (PyDate.month today) 2))
                transactions)
      /\ (PyDate.year today_at_update = PyDate.year today ->
          PyDate.month today_at_update = PyDate.month today ->
          sheet_name today_at_update
          = Some (String.append "Accounts-"
                    (String.append (str_of_Z y) (String.append "-" name))))
      /\ (1 <= PyDate.month today_at_update <= 12 ->
          12 * PyDate.year today_at_update + PyDate.month today_at_update
          = 12 * PyDate.year today + PyDate.month today + 1 ->
          sheet_name today_at_update
          = Some (String.append "Accounts-"
                    (String.append (str_of_Z (PyDate.year today))
                       (String.append "-"
                          (nth (Z.to_nat (PyDate.month today - 1))
                               month_names "")))))
  end.
Proof.
  intros Hv. apply valid_bounds in Hv as (Hy & Hm & _).
  destruct today as [ty tm td]. simpl in *.
  assert (Hnext : 1 <= PyDate.month today_at_update <= 12 ->
                  12 * PyDate.year today_at_update + PyDate.month today_at_update
                  = 12 * ty + tm + 1 ->
                  sheet_name today_at_update
                  = Some (String.append "Accounts-"
                            (String.append (str_of_Z ty)
                               (String.append "-"
                                  (nth (Z.to_nat (tm - 1)) month_names ""))))).
  { intros Hdm Heq. apply sheet_name_of_month; assumption. }
  unfold get_previous_month, replace_day_1, sub_one_day. simpl.
  destruct (1 <? tm) eqn:E1.
  - apply Z.ltb_lt in E1. simpl.
    split; [lia | ]. split; [lia | ].
    split; [unfold strftime_B; simpl; apply month_name_at; lia | ].
    split; [ | split; [ | exact Hnext ] ].
    + intros transactions. unfold Main.filter_transactions_by_date.
      rewrite DateFacts.date_window_value by lia.
      unfold Main.filter_loop. rewrite DateFacts.filter_loop_is_filter. simpl.
      unfold DateFacts.second_of_next_month.
      replace (tm - 1 =? 12) with false by (symmetry; apply Z.eqb_neq; lia).
      replace (tm - 1 + 1) with tm by lia. reflexivity.
    + intros Hsy Hsm. unfold strftime_B. simpl.
      apply sheet_name_of_month; lia.
  - apply Z.ltb_ge in E1. assert (tm = 1) by lia. subst tm.
    unfold PyDate.make, PyDate.valid. simpl.
    destruct (1 <=? ty - 1) eqn:E2; simpl.
    + apply Z.leb_le in E2.
      replace (ty - 1 <=? 9999) with true by (symmetry; apply Z.leb_le; lia).
      simpl.
      split; [lia | ]. split; [lia | ].
      split; [reflexivity | ].
      split; [ | split; [ | exact Hnext ] ].
      * intros transactions. unfold Main.filter_transactions_by_date.
        rewrite DateFacts.date_window_value by lia.
        unfold Main.filter_loop. rewrite DateFacts.filter_loop_is_filter. simpl.
        unfold DateFacts.second_of_next_month. simpl.
        replace (ty - 1 + 1) with ty by lia. reflexivity.
      * intros Hsy Hsm.
        apply (sheet_name_of_month today_at_update (ty - 1) 12); lia.
    + apply Z.leb_gt in E2. lia.
Qed.

Definition bought_on (day : string) : Transaction :=
  mkTransaction (Some day) "Groceries" (Some 250%Q) (Some "HDFC Savings")
                None None (Some 1) None debit.

(** A run started on 31 May 2024 and confirmed on 1 June: April is
    filtered, and the workbook is the one of May. *)
Lemma run_filters_previous_month_witness :
  get_previous_month (PyDate.mk 2024 5 31) = Some (2024, 4, "April")
  /\ Main.filter_transactions_by_date
       [bought_on "30/04/2024"; bought_on "02/05/2024";
        bought_on "03/05/2024"; bought_on "31/03/2024"] 2024 4
     = [bought_on "30/04/2024"; bought_on "02/05/2024"]
  /\ sheet_name (PyDate.mk 2024 6 1) = Some "Accounts-2024-May".
Proof.
  pose proof (run_filters_previous_month (PyDate.mk 2024 5 31)
                (PyDate.mk 2024 6 1) eq_refl) as H.
  change (get_previous_month (PyDate.mk 2024 5 31))
    with (Some (2024, 4, "April")) in H.
  destruct H as (_ & _ & _ & Hf & _ & Hnext).
  split; [reflexivity | ]. split.
  - rewrite Hf. vm_compute. reflexivity.
  - apply Hnext; simpl; lia.
Defined.

Example same_month_workbook :
  sheet_name (PyDate.mk 2024 5 31) = Some "Accounts-2024-April".
Proof. vm_compute. reflexivity. Qed.

End RunMonthFacts.

(** ** Extraction: the account of a statement *)

Module AccountMappingFacts.
Import AccountMapping.

Lemma compiled_hdfc_pattern :
  compile hdfc_pattern
  = Some [OneOrMore AnyChar; One (Literal "_");
          One Digit; One Digit; One Digit; One Digit;
          One Digit; One Digit; One Digit; One Digit;
          One (Literal "_"); OneOrMore AnyChar;
          One (Literal "."); One (Literal "p"); One (Literal "d");
          One (Literal "f")].
Proof. vm_compute. reflexivity. Qed.

Definition chars_in (k : char_class) (s : string) : Prop :=
  Forall (fun c => in_class k c = true) (list_ascii_of_string s).

(** What a pattern of the fragment matches. *)
Fixpoint denotes (p : list piece) (s : string) : Prop :=
  match p with
  | [] => s = "" \/ s = String newline ""
  | One k :: p' =>
      exists c s', s = String c s' /\ in_class k c = true /\ denotes p' s'
  | OneOrMore k :: p' =>
      exists pre s', s = String.append pre s' /\ pre <> ""
                     /\ chars_in k pre /\ denotes p' s'
  end.

Lemma re_match_more (k : char_class) (p : list piece) (c : ascii) (s : string) :
  re_match (OneOrMore k :: p) (String c s)
  = in_class k c && (re_match (OneOrMore k :: p) s || re_match p s).
Proof. reflexivity. Qed.

Lemma at_end_denotes (s : string) :
  at_end s = true <-> s = "" \/ s = String newline "".
Proof.
  destruct s as [|c [|d r]]; simpl.
  - split; auto.
  - rewrite Ascii.eqb_eq. split.
    + intros ->. right. reflexivity.
    + intros [H | H]; [discriminate | congruence].
  - split; [discriminate | ]. intros [H | H]; discriminate.
Qed.

Lemma re_match_denotes (p : list piece) :
  forall s, re_match p s = true <-> denotes p s.
Proof.
  induction p as [|[k|k] p IH]; intros s.
  - apply at_end_denotes.
  - simpl. destruct s as [|c s].
    + split; [discriminate | ]. intros (c & s' & H & _). discriminate.
    + rewrite andb_true_iff, IH. split.
      * intros [Hc Hs]. exists c, s. auto.
      * intros (c' & s' & Heq & Hc & Hs). injection Heq as -> ->. auto.
  - induction s as [|c s IHs].
    + simpl. split; [discriminate | ].
      intros (pre & s' & Heq & Hpre & _).
      destruct pre; [congruence | discriminate].
    + rewrite re_match_more, andb_true_iff, orb_true_iff, IHs, IH.
      cbn [denotes]. split.
      * intros [Hc [(pre & s' & -> & Hpre & Hall & Hs) | Hs]].
        -- exists (String c pre), s'. repeat split; try assumption.
           ++ discriminate.
           ++ constructor; assumption.
        -- exists (String c ""), s. repeat split; try assumption.
           ++ discriminate.
           ++ constructor; [assumption | constructor].
      * intros (pre & s' & Heq & Hpre & Hall & Hs).
        destruct pre as [|c' pre]; [congruence | ].
        simpl in Heq. injection Heq as -> ->.
        unfold chars_in in Hall. simpl in Hall.
        apply Forall_cons in Hall as [Hc Hall].
        split; [assumption | ].
        destruct pre as [|c'' pre].
        -- right. exact Hs.
        -- left. exists (String c'' pre), s'. repeat split; try assumption.
           discriminate.
Qed.

Lemma literal_char (x c : ascii) : in_class (Literal x) c = true <-> c = x.
Proof. simpl. apply Ascii.eqb_eq. Qed.

(** X20. The file-name test of the HDFC rule accepts exactly the names
    made of a non-empty prefix, an underscore, eight digits, an
    underscore, a non-empty middle part and the lower-case extension
    [.pdf] (a newline may end the name); prefix and middle part may hold
    any character but a newline, further underscores included, and the
    eight digits need not be a date. *)
Theorem hdfc_file_name_rule (base_name : string) :
  filename_matches base_name = true <->
  exists pre digits mid tail,
    base_name
    = String.append pre
        (String "_" (String.append digits
           (String "_" (String.append mid (String.append ".pdf" tail)))))
    /\ pre <> "" /\ chars_in AnyChar pre
    /\ String.length digits = 8%nat /\ chars_in Digit digits
    /\ mid <> "" /\ chars_in AnyChar mid
    /\ (tail = "" \/ tail = String newline "").
Proof.
  unfold filename_matches. rewrite compiled_hdfc_pattern, re_match_denotes.
  cbn [denotes]. split.
  - intros (pre & s1 & -> & Hpre & Hpre_all
            & u & s2 & -> & Hu%literal_char
            & d1 & s3 & -> & H1 & d2 & s4 & -> & H2
            & d3 & s5 & -> & H3 & d4 & s6 & -> & H4
            & d5 & s7 & -> & H5 & d6 & s8 & -> & H6
            & d7 & s9 & -> & H7 & d8 & s10 & -> & H8
            & v & s11 & -> & Hv%literal_char
            & mid & s12 & -> & Hmid & Hmid_all
            & c1 & s13 & -> & Hc1%literal_char
            & c2 & s14 & -> & Hc2%literal_char
            & c3 & s15 & -> & Hc3%literal_char
            & c4 & tail & -> & Hc4%literal_char & Htail).
    subst.
    exists pre,
      (String d1 (String d2 (String d3 (String d4
         (String d5 (String d6 (String d7 (String d8 "")))))))),
      mid, tail.
    repeat split; try assumption.
    repeat (constructor; [assumption | ]). constructor.
  - intros (pre & digits & mid & tail & -> & Hpre & Hpre_all & Hlen & Hdig
            & Hmid & Hmid_all & Htail).
    do 8 (destruct digits as [|? digits]; [discriminate | ]).
    destruct digits; [ | discriminate ].
    unfold chars_in in Hdig. simpl in Hdig.
    repeat match goal with
           | H : Forall _ (_ :: _) |- _ => apply Forall_cons in H as [? H]
           end.
    exists pre. eexists. split; [reflexivity | ].
    split; [assumption | ]. split; [assumption | ].
    do 2 eexists. split; [reflexivity | ]. split; [reflexivity | ].
    repeat (do 2 eexists; split; [reflexivity | ]; split; [assumption | ]).
    do 2 eexists. split; [reflexivity | ]. split; [reflexivity | ].
    exists mid. eexists. split; [reflexivity | ].
    split; [assumption | ]. split; [assumption | ].
    repeat (do 2 eexists; split; [reflexivity | ]; split; [reflexivity | ]).
    exact Htail.
Qed.

Example hdfc_file_names :
  map filename_matches
      ["Statement_01042024_1234.pdf"; "x_00000000_y.pdf"; "_01042024_1234.pdf";
       "Statement_0104202_1234.pdf"; "Statement_01042024_1234.PDF";
       "a_b_99999999_c_d.pdf"; "Statement_01042024_.pdf"]
  = [true; true; false; false; false; true; false].
Proof. vm_compute. reflexivity. Qed.

Lemma via_ai_allowed (filename : string) (allowed_names : list string)
      (model : option GenerativeModel) :
  let a := _get_account_name_via_ai filename allowed_names model in
  a ∈ allowed_names \/ a = default_account.
Proof.
  unfold _get_account_name_via_ai.
  destruct allowed_names as [|n ns]; [right; reflexivity | ].
  destruct model as [g|]; [ | right; reflexivity ].
  destruct (g _) as [text|]; [ | right; reflexivity ].
  cbv zeta. case_bool_decide; [left; assumption | right; reflexivity].
Qed.

Lemma source_account_of_allowed (ACCOUNT_NAMES : option (list string))
      (model : GenerativeModel) (pdf_info : PdfInfo) :
  let a := source_account_of ACCOUNT_NAMES model pdf_info in
  a ∈ default [] ACCOUNT_NAMES \/ a = default_account.
Proof.
  unfold source_account_of. cbv zeta.
  destruct (bool_decide (hdfc_savings_account_name ∈ default [] ACCOUNT_NAMES))
    eqn:E; simpl.
  - destruct (filename_matches _ && subject_matches _).
    + left. apply bool_decide_eq_true in E. exact E.
    + apply via_ai_allowed.
  - apply via_ai_allowed.
Qed.

(** X21. Whatever the model answers (a name outside the list, a name
    with other text around it, an error), every transaction the
    extraction stage returns carries an account that is one of the
    configured account names or "Unknown Account"; without a list of
    account names it is always "Unknown Account". *)
Theorem extracted_accounts_are_configured
        (ACCOUNT_NAMES : option (list string)) (model : GenerativeModel)
        (files : list (PdfInfo * (bool * list Extraction.Page
                                  * Extraction.PreviewChoice)))
        (preview_mode : bool) :
  match Extraction.parse_pdfs (map (document ACCOUNT_NAMES model) files)
                              preview_mode [] with
  | Some all_transactions =>
      Forall (fun t => exists a, source_account t = Some a
                         /\ (a ∈ default [] ACCOUNT_NAMES
                             \/ a = "Unknown Account"))
             all_transactions
  | None => True
  end.
Proof.
  apply ExtractionFacts.parse_pdfs_Forall; [ | constructor ].
  apply Forall_forall. intros d Hd.
  apply list_elem_of_In, in_map_iff in Hd as ([info [[opened pages] preview]] & <- & _).
  apply Forall_forall. intros t Ht. apply list_elem_of_In in Ht.
  unfold Extraction.pdf_transactions in Ht. simpl in Ht.
  apply in_concat in Ht as (l & Hl & Ht).
  apply in_map_iff in Hl as (p & <- & _).
  apply ParsePdfsFacts.page_transactions_account in Ht.
  eexists. split; [exact Ht | ].
  apply source_account_of_allowed.
Qed.

End AccountMappingFacts.

(** ** Account sheets: the target list and the rows written *)

Module SheetAccountsFacts.
Import SheetAccounts.

(** *** The order of strings *)

Definition str_le (a b : string) : Prop := String.leb a b = true.

Lemma ascii_compare_N (a b : ascii) :
  Ascii.compare a b = N.compare (N_of_ascii a) (N_of_ascii b).
Proof. reflexivity. Qed.

Lemma ascii_compare_refl (a : ascii) : Ascii.compare a a = Eq.
Proof. rewrite ascii_compare_N. apply N.compare_refl. Qed.

Lemma string_compare_trans_lt (a : string) :
  forall b c, String.compare a b = Lt -> String.compare b c = Lt ->
              String.compare a c = Lt.
Proof.
  induction a as [|x a IH]; intros [|y b] [|z c]; simpl; try congruence.
  rewrite !ascii_compare_N.
  destruct (N.compare_spec (N_of_ascii x) (N_of_ascii y)) as [Hxy|Hxy|Hxy];
    destruct (N.compare_spec (N_of_ascii y) (N_of_ascii z)) as [Hyz|Hyz|Hyz];
    try congruence; intros H1 H2.
  - replace (N_of_ascii x ?= N_of_ascii z)%N with Eq
      by (symmetry; apply N.compare_eq_iff; congruence).
    eauto.
  - replace (N_of_ascii x ?= N_of_ascii z)%N with Lt; [reflexivity | ].
    symmetry. apply N.compare_lt_iff. lia.
  - replace (N_of_ascii x ?= N_of_ascii z)%N with Lt; [reflexivity | ].
    symmetry. apply N.compare_lt_iff. lia.
  - replace (N_of_ascii x ?= N_of_ascii z)%N with Lt; [reflexivity | ].
    symmetry. apply N.compare_lt_iff. lia.
Qed.

Lemma string_compare_refl (a : string) : String.compare a a = Eq.
Proof.
  induction a as [|x a IH]; simpl; [reflexivity | ].
  rewrite ascii_compare_refl. exact IH.
Qed.

Lemma ltb_lt (a b : string) : String.ltb a b = true <-> String.compare a b = Lt.
Proof.
  unfold String.ltb. destruct (String.compare a b); split; intros H;
    first [reflexivity | discriminate H].
Qed.

Lemma ltb_false_le (a b : string) : String.ltb a b = false -> str_le b a.
Proof.
  unfold String.ltb, str_le, String.leb. rewrite (String.compare_antisym b a).
  destruct (String.compare a b); simpl; congruence.
Qed.

Lemma ltb_le (a b : string) : String.ltb a b = true -> str_le a b.
Proof.
  unfold String.ltb, str_le, String.leb.
  destruct (String.compare a b); congruence.
Qed.

#[local] Instance str_le_trans : Transitive str_le.
Proof.
  intros a b c. unfold str_le, String.leb.
  destruct (String.compare a b) eqn:Hab; [ | | congruence ];
    destruct (String.compare b c) eqn:Hbc; try congruence; intros _ _.
  - apply String.compare_eq_iff in Hab, Hbc. subst.
    rewrite string_compare_refl. reflexivity.
  - apply String.compare_eq_iff in Hab. subst. rewrite Hbc. reflexivity.
  - apply String.compare_eq_iff in Hbc. subst. rewrite Hab. reflexivity.
  - rewrite (string_compare_trans_lt a b c Hab Hbc). reflexivity.
Qed.

#[local] Instance str_le_antisym : AntiSymm (=) str_le.
Proof. intros a b. apply String.leb_antisym. Qed.

(** *** [sorted] *)

Lemma insert_sorted_perm (x : string) (l : list string) :
  insert_sorted x l ≡ₚ x :: l.
Proof.
  induction l as [|y r IH]; simpl; [reflexivity | ].
  destruct (String.ltb x y); [reflexivity | ].
  rewrite IH. apply Permutation_swap.
Qed.

Lemma sorted_fold_perm (l : list string) :
  forall acc, fold_left (fun acc x => insert_sorted x acc) l acc ≡ₚ l ++ acc.
Proof.
  induction l as [|x l IH]; intros acc; simpl; [reflexivity | ].
  rewrite IH, insert_sorted_perm. symmetry. apply Permutation_middle.
Qed.

Lemma sorted_perm (l : list string) : sorted l ≡ₚ l.
Proof. unfold sorted. rewrite sorted_fold_perm, app_nil_r. reflexivity. Qed.

Lemma insert_sorted_Sorted (x : string) (l : list string) :
  Sorted str_le l -> Sorted str_le (insert_sorted x l).
Proof.
  induction l as [|y r IH]; intros Hs; simpl.
  - repeat constructor.
  - destruct (String.ltb x y) eqn:E.
    + constructor; [assumption | ]. constructor. apply ltb_le. exact E.
    + apply Sorted_inv in Hs as [Hr Hy]. constructor; [apply IH; assumption | ].
      destruct r as [|z r]; simpl.
      * constructor. apply ltb_false_le. exact E.
      * destruct (String.ltb x z).
        -- constructor. apply ltb_false_le. exact E.
        -- constructor. inversion Hy. assumption.
Qed.

Lemma sorted_fold_Sorted (l : list string) :
  forall acc, Sorted str_le acc ->
              Sorted str_le (fold_left (fun acc x => insert_sorted x acc) l acc).
Proof.
  induction l as [|x l IH]; intros acc Hacc; simpl; [assumption | ].
  apply IH, insert_sorted_Sorted, Hacc.
Qed.

Lemma sorted_Sorted (l : list string) : Sorted str_le (sorted l).
Proof. apply sorted_fold_Sorted. constructor. Qed.

Lemma sorted_perm_eq (l1 l2 : list string) :
  l1 ≡ₚ l2 -> sorted l1 = sorted l2.
Proof.
  intros H. apply (Sorted_unique str_le); try apply sorted_Sorted.
  rewrite !sorted_perm. exact H.
Qed.

(** *** The account names of a batch *)

Lemma account_or_unknown_has (t : Transaction) :
  has_account t = true ->
  source_account t = Some (account_or_unknown t) /\ account_or_unknown t <> "".
Proof.
  unfold has_account, account_or_unknown.
  destruct (source_account t) as [a|]; [ | discriminate ].
  destruct (String.eqb a "") eqn:E; [discriminate | ].
  intros _. split; [reflexivity | ]. apply String.eqb_neq. exact E.
Qed.

Lemma elem_of_all_account_names (o : list string -> list string)
      (all_transactions : list Transaction) (a : string) :
  (forall l, o l ≡ₚ l) ->
  a ∈ all_account_names o all_transactions
  <-> a <> "" /\ exists t, t ∈ all_transactions /\ source_account t = Some a.
Proof.
  intros Ho. unfold all_account_names. cbv zeta.
  rewrite sorted_perm, Ho, elem_of_elements, elem_of_list_to_set.
  rewrite list_elem_of_In, in_map_iff. split.
  - intros (t & <- & Ht). apply filter_In in Ht as [Hin Hhas].
    apply account_or_unknown_has in Hhas as [Hacc Hne].
    split; [assumption | ]. exists t. split; [ | assumption ].
    apply list_elem_of_In. exact Hin.
  - intros (Hne & t & Hin & Hacc). exists t.
    assert (Hhas : has_account t = true).
    { unfold has_account. rewrite Hacc.
      apply negb_true_iff, String.eqb_neq. exact Hne. }
    split.
    + unfold account_or_unknown. rewrite Hacc.
      apply String.eqb_neq in Hne. rewrite Hne. reflexivity.
    + apply filter_In. split; [apply list_elem_of_In | ]; assumption.
Qed.

Lemma all_account_names_NoDup (o : list string -> list string)
      (all_transactions : list Transaction) :
  (forall l, o l ≡ₚ l) -> NoDup (all_account_names o all_transactions).
Proof.
  intros Ho. unfold all_account_names. cbv zeta.
  rewrite sorted_perm, Ho. apply NoDup_elements.
Qed.

Lemma all_account_names_order (o : list string -> list string)
      (all_transactions : list Transaction) :
  (forall l, o l ≡ₚ l) ->
  all_account_names o all_transactions
  = all_account_names (fun l => l) all_transactions.
Proof. intros Ho. unfold all_account_names. apply sorted_perm_eq, Ho. Qed.

Lemma filter_elem_of {A : Type} (f : A -> bool) (l : list A) (x : A) :
  x ∈ List.filter f l <-> x ∈ l /\ f x = true.
Proof. rewrite !list_elem_of_In. apply filter_In. Qed.

Lemma filter_NoDup {A : Type} (f : A -> bool) (l : list A) :
  NoDup l -> NoDup (List.filter f l).
Proof.
  induction 1 as [|x l Hx Hl IH]; simpl; [constructor | ].
  destruct (f x); [ | assumption ].
  constructor; [ | assumption ].
  rewrite filter_elem_of. tauto.
Qed.

Lemma elem_of_target_sheet_names (names : list string) (a : string) :
  a ∈ SheetSync.target_sheet_names names
  <-> a ∈ SheetSync.base_sheets \/ (a ∈ names /\ a <> "").
Proof.
  unfold SheetSync.target_sheet_names.
  rewrite elem_of_app, !filter_elem_of, !negb_true_iff, String.eqb_neq.
  rewrite bool_decide_eq_false.
  destruct (decide (a ∈ SheetSync.base_sheets)); tauto.
Qed.

Lemma target_sheet_names_NoDup (names : list string) :
  NoDup names -> NoDup (SheetSync.target_sheet_names names).
Proof.
  intros Hnd. unfold SheetSync.target_sheet_names. apply NoDup_app.
  split; [ | split ].
  - apply (bool_decide_unpack _). vm_compute. exact I.
  - intros x Hx Hf. apply filter_elem_of in Hf as [_ Hf].
    apply negb_true_iff, bool_decide_eq_false in Hf. contradiction.
  - do 2 apply filter_NoDup. exact Hnd.
Qed.

(** X22. The list of target sheets built from a batch has no
    duplicate, starts with "Cash", "Achu", "Final Recon" and
    "Reporting", holds beside them exactly the non-empty account names
    of the batch, in increasing order, and does not depend on the order
    in which the set of account names is read. *)
Theorem target_sheets_from_transactions (o : list string -> list string)
        (all_transactions : list Transaction) :
  (forall l, o l ≡ₚ l) ->
  let target_sheet_names :=
    SheetSync.target_sheet_names (all_account_names o all_transactions) in
  NoDup target_sheet_names
  /\ take 4 target_sheet_names = ["Cash"; "Achu"; "Final Recon"; "Reporting"]
  /\ (forall a, a ∈ target_sheet_names
                <-> a ∈ SheetSync.base_sheets
                    \/ (a <> "" /\ exists t, t ∈ all_transactions
                                             /\ source_account t = Some a))
  /\ Sorted str_le (drop 4 target_sheet_names)
  /\ target_sheet_names
     = SheetSync.target_sheet_names
         (all_account_names (fun l => l) all_transactions).
Proof.
  intros Ho target_sheet_names. unfold target_sheet_names.
  split; [apply target_sheet_names_NoDup, all_account_names_NoDup, Ho | ].
  split; [reflexivity | ].
  split.
  { intros a. rewrite elem_of_target_sheet_names, (elem_of_all_account_names o) by exact Ho.
    tauto. }
  split.
  { unfold SheetSync.target_sheet_names. simpl drop.
    assert (Hf : forall (f : string -> bool) l,
               Sorted str_le l -> Sorted str_le (List.filter f l)).
    { intros f l Hl. apply Sorted_StronglySorted in Hl; [ | apply _ ].
      apply StronglySorted_Sorted.
      induction Hl as [|x l Hl IH Hx]; simpl; [constructor | ].
      destruct (f x); [ | assumption ].
      constructor; [assumption | ].
      apply Forall_forall. intros y Hy. apply filter_elem_of in Hy as [Hy _].
      rewrite Forall_forall in Hx. apply Hx, Hy. }
    do 2 apply Hf. apply sorted_Sorted. }
  rewrite (all_account_names_order o) by exact Ho. reflexivity.
Qed.

Definition paid_from (account : option string) (description : string)
  : Transaction :=
  mkTransaction (Some "03/05/2024") description (Some 120%Q) account
                None (Some 1) (Some 0) (Some SHOPPING) debit.

Definition may_batch : list Transaction :=
  [paid_from (Some "ICIC Amazon CC") "Books";
   paid_from (Some "HDFC Savings") "Rent";
   paid_from None "Cash withdrawal";
   paid_from (Some "Unknown") "Transfer";
   paid_from (Some "Cash") "Tea";
   paid_from (Some "HDFC Savings") "Fuel"].

Lemma target_sheets_from_transactions_witness :
  SheetSync.target_sheet_names (all_account_names (@rev string) may_batch)
  = ["Cash"; "Achu"; "Final Recon"; "Reporting";
     "HDFC Savings"; "ICIC Amazon CC"; "Unknown"].
Proof.
  rewrite (proj2 (proj2 (proj2 (proj2
             (target_sheets_from_transactions (@rev string) may_batch
                (fun l => Permutation_sym (Permutation_rev l))))))).
  vm_compute. reflexivity.
Defined.

(** *** The rows written to the sheets *)

Definition group_keys (all_transactions : list Transaction) : list string :=
  sorted (elements (list_to_set (map group_key all_transactions) : gset string)).

Lemma elem_of_group_keys (all_transactions : list Transaction) (k : string) :
  k ∈ group_keys all_transactions
  <-> exists t, t ∈ all_transactions /\ group_key t = k.
Proof.
  unfold group_keys.
  rewrite sorted_perm, elem_of_elements, elem_of_list_to_set.
  rewrite list_elem_of_In, in_map_iff.
  split; intros (t & H1 & H2); exists t; rewrite ?list_elem_of_In in *; auto.
Qed.

Lemma group_keys_NoDup (all_transactions : list Transaction) :
  NoDup (group_keys all_transactions).
Proof. unfold group_keys. rewrite sorted_perm. apply NoDup_elements. Qed.

Lemma group_key_account (t : Transaction) (k : string) :
  k <> "" -> (group_key t = k <-> source_account t = Some k).
Proof.
  unfold group_key. destruct (source_account t) as [a|]; simpl; intros Hk.
  - split; congruence.
  - split; [congruence | discriminate].
Qed.

Lemma group_rows (all_transactions : list Transaction) (k : string) :
  k <> "" ->
  map SheetRows.account_row
      (List.filter (fun tx => String.eqb (group_key tx) k) all_transactions)
  = SheetRows.data_to_write k all_transactions.
Proof.
  intros Hk. unfold SheetRows.data_to_write. f_equal.
  apply filter_ext. intros t. unfold group_key.
  destruct (source_account t) as [a|]; [reflexivity | ].
  change (default "" None) with "". apply String.eqb_neq. congruence.
Qed.

(** The test of the loop on the key of a group, the test of membership
    in [account_sheet_names] left out. *)
Definition populated (available : string -> bool) (k : string) : bool :=
  negb (String.eqb k "") && negb (String.eqb k "Unknown") && available k.

Lemma key_in_account_sheet_names (o : list string -> list string)
      (all_transactions : list Transaction) (k : string) :
  (forall l, o l ≡ₚ l) ->
  k ∈ group_keys all_transactions -> k <> "" ->
  k ∈ account_sheet_names (all_account_names o all_transactions).
Proof.
  intros Ho Hk Hne. unfold account_sheet_names, account_sheets.
  rewrite elem_of_list_to_set, elem_of_app. left.
  apply filter_elem_of. split.
  - apply elem_of_all_account_names; [exact Ho | ].
    split; [exact Hne | ].
    apply elem_of_group_keys in Hk as (t & Ht & Hkey).
    exists t. split; [exact Ht | ]. apply group_key_account; assumption.
  - apply negb_true_iff, String.eqb_neq. exact Hne.
Qed.

Lemma populate_unfold (o : list string -> list string)
      (available : string -> bool) (all_transactions : list Transaction) :
  (forall l, o l ≡ₚ l) ->
  populate o available all_transactions
  = omap (fun k => if populated available k
                   then Some (k, SheetRows.data_to_write k all_transactions)
                   else None)
         (group_keys all_transactions).
Proof.
  intros Ho. unfold populate, grouped_data. cbv zeta. fold (group_keys all_transactions).
  pose proof (key_in_account_sheet_names o all_transactions) as Hin.
  induction (group_keys all_transactions) as [|k ks IH]; [reflexivity | ].
  cbn [map omap list_omap].
  rewrite IH by (intros k' Ho' Hk'; apply Hin; [assumption | right; assumption]).
  unfold populated.
  destruct (String.eqb k "") eqn:E1; [reflexivity | ].
  destruct (String.eqb k "Unknown") eqn:E2; [reflexivity | ].
  apply String.eqb_neq in E1. simpl.
  rewrite bool_decide_eq_true_2
    by (apply Hin; [exact Ho | left | exact E1]).
  simpl. destruct (available k); simpl; [ | reflexivity ].
  rewrite group_rows by exact E1. reflexivity.
Qed.

(** A transaction whose row is written. *)
Definition is_written (available : string -> bool) (t : Transaction) : bool :=
  populated available (group_key t).

Lemma filter_length_split {A : Type} (f g : A -> bool) (l : list A) :
  (forall x, f x = true -> g x = true -> False) ->
  length (List.filter (fun x => f x || g x) l)
  = (length (List.filter f l) + length (List.filter g l))%nat.
Proof.
  intros Hd. induction l as [|x l IH]; simpl; [reflexivity | ].
  destruct (f x) eqn:Ef, (g x) eqn:Eg; simpl; try lia.
  exfalso. eauto.
Qed.

Lemma filter_all_false {A : Type} (f : A -> bool) (l : list A) :
  (forall x, f x = false) -> List.filter f l = [].
Proof.
  intros Hf. induction l as [|x l IH]; simpl; [reflexivity | ].
  rewrite Hf. exact IH.
Qed.

Lemma rows_of_groups (sel : string -> bool) (all_transactions : list Transaction)
      (ks : list string) :
  NoDup ks ->
  list_sum (map (fun p => length (snd p))
              (omap (fun k => if sel k
                              then Some (k, SheetRows.data_to_write k all_transactions)
                              else None) ks))
  = length (List.filter
              (fun t => match source_account t with
                        | Some a => sel a && bool_decide (a ∈ ks)
                        | None => false
                        end) all_transactions).
Proof.
  induction 1 as [|k ks Hk Hks IH].
  - simpl. induction all_transactions as [|t l IHl]; simpl; [reflexivity | ].
    destruct (source_account t) as [a|]; [ | exact IHl ].
    rewrite andb_false_r. exact IHl.
  - cbn [omap list_omap].
    rewrite (filter_ext _
               (fun t => (match source_account t with
                          | Some a => sel a && String.eqb a k
                          | None => false
                          end)
                         || (match source_account t with
                             | Some a => sel a && bool_decide (a ∈ ks)
                             | None => false
                             end))).
    2:{ intros t. destruct (source_account t) as [a|]; [ | reflexivity ].
        rewrite <- andb_orb_distrib_r. f_equal.
        destruct (String.eqb a k) eqn:E.
        - apply String.eqb_eq in E. subst a.
          apply bool_decide_eq_true. left.
        - apply String.eqb_neq in E. simpl.
          apply bool_decide_ext. rewrite elem_of_cons. tauto. }
    rewrite filter_length_split.
    2:{ intros t. destruct (source_account t) as [a|]; [ | discriminate ].
        intros [_ H1]%andb_true_iff [_ H2]%andb_true_iff.
        apply String.eqb_eq in H1. subst a.
        apply bool_decide_eq_true in H2. contradiction. }
    rewrite <- IH. destruct (sel k) eqn:Es; simpl.
    + f_equal. unfold SheetRows.data_to_write. rewrite length_map.
      f_equal. apply filter_ext. intros t.
      destruct (source_account t) as [a|]; [ | reflexivity ].
      destruct (String.eqb a k) eqn:E; [ | rewrite andb_false_r; reflexivity ].
      apply String.eqb_eq in E. subst a. rewrite Es. reflexivity.
    + rewrite filter_all_false; [reflexivity | ].
      intros t. destruct (source_account t) as [a|]; [ | reflexivity ].
      destruct (String.eqb a k) eqn:E; [ | apply andb_false_r ].
      apply String.eqb_eq in E. subst a. rewrite Es. reflexivity.
Qed.

Lemma omap_keys_NoDup {B : Type} (f : string -> option (string * B))
      (ks : list string) :
  (forall k p, f k = Some p -> fst p = k) ->
  NoDup ks -> NoDup (map fst (omap f ks)).
Proof.
  intros Hf. induction 1 as [|k ks Hk Hks IH]; [constructor | ].
  cbn [omap list_omap]. destruct (f k) as [p|] eqn:E; [ | exact IH ].
  simpl. constructor; [ | exact IH ].
  rewrite (Hf k p E). intros Hin. apply Hk.
  apply list_elem_of_In, in_map_iff in Hin as (q & <- & Hq).
  apply list_elem_of_In, list_elem_of_omap in Hq as (k' & Hk' & E').
  rewrite (Hf k' q E'). exact Hk'.
Qed.

(** X23. The rows written to the account sheets: a sheet receives rows
    exactly when its title is the account of a transaction of the
    batch, is not empty and not "Unknown", and the sheet is available;
    it then receives the rows of all the transactions of that account,
    in the order of the batch. No sheet is written twice, every sheet
    written is a target sheet (the test against the account sheets
    never rejects a group), and the rows written add up to the number
    of transactions with such an account: a transaction without
    account, or with the account "Unknown", is written nowhere. *)
Theorem each_transaction_written_once (o : list string -> list string)
        (available : string -> bool) (all_transactions : list Transaction) :
  (forall l, o l ≡ₚ l) ->
  let written := populate o available all_transactions in
  NoDup (map fst written)
  /\ (forall name rows,
        (name, rows) ∈ written
        <-> name <> "" /\ name <> "Unknown" /\ available name = true
            /\ rows = SheetRows.data_to_write name all_transactions
            /\ exists t, t ∈ all_transactions /\ source_account t = Some name)
  /\ (forall name rows,
        (name, rows) ∈ written ->
        name ∈ SheetSync.target_sheet_names (all_account_names o all_transactions))
  /\ list_sum (map (fun p => length (snd p)) written)
     = length (List.filter (is_written available) all_transactions).
Proof.
  intros Ho written. unfold written. rewrite (populate_unfold o) by exact Ho.
  assert (Hmem : forall name rows,
    (name, rows) ∈ omap (fun k => if populated available k
                                  then Some (k, SheetRows.data_to_write k all_transactions)
                                  else None) (group_keys all_transactions)
    <-> name <> "" /\ name <> "Unknown" /\ available name = true
        /\ rows = SheetRows.data_to_write name all_transactions
        /\ exists t, t ∈ all_transactions /\ source_account t = Some name).
  { intros name rows. rewrite list_elem_of_omap. split.
    - intros (k & Hk & Hsel).
      destruct (populated available k) eqn:E; [ | discriminate ].
      injection Hsel as -> ->. unfold populated in E.
      apply andb_true_iff in E as [E Hav]. apply andb_true_iff in E as [E1 E2].
      apply negb_true_iff, String.eqb_neq in E1, E2.
      repeat split; try assumption.
      apply elem_of_group_keys in Hk as (t & Ht & Hkey).
      exists t. split; [exact Ht | ]. apply group_key_account; assumption.
    - intros (H1 & H2 & Hav & -> & t & Ht & Hacc).
      exists name. split.
      + apply elem_of_group_keys. exists t. split; [exact Ht | ].
        apply group_key_account; assumption.
      + unfold populated. apply String.eqb_neq in H1, H2.
        rewrite H1, H2, Hav. reflexivity. }
  split; [ | split; [exact Hmem | split ] ].
  - apply omap_keys_NoDup; [ | apply group_keys_NoDup ].
    intros k p Hp. destruct (populated available k); [ | discriminate ].
    injection Hp as <-. reflexivity.
  - intros name rows Hin. apply Hmem in Hin as (H1 & _ & _ & _ & t & Ht & Hacc).
    apply elem_of_target_sheet_names. right. split; [ | exact H1 ].
    apply elem_of_all_account_names; [exact Ho | ]. split; [exact H1 | ].
    exists t. auto.
  - rewrite rows_of_groups by apply group_keys_NoDup.
    f_equal. apply filter_ext_in. intros t Ht.
    unfold is_written, group_key.
    destruct (source_account t) as [a|] eqn:Hacc; simpl; [ | reflexivity ].
    rewrite bool_decide_eq_true_2; [apply andb_true_r | ].
    apply elem_of_group_keys. exists t. split; [apply list_elem_of_In, Ht | ].
    unfold group_key. rewrite Hacc. reflexivity.
Qed.

Lemma each_transaction_written_once_witness :
  map (fun p => (fst p, length (snd p)))
      (populate (@rev string) (fun _ => true) may_batch)
  = [("Cash", 1%nat); ("HDFC Savings", 2%nat); ("ICIC Amazon CC", 1%nat)]
  /\ list_sum (map (fun p => length (snd p))
                 (populate (@rev string) (fun _ => true) may_batch))
     = 4%nat.
Proof.
  split; [vm_compute; reflexivity | ].
  rewrite (proj2 (proj2 (proj2
             (each_transaction_written_once (@rev string) (fun _ => true) may_batch
                (fun l => Permutation_sym (Permutation_rev l)))))).
  vm_compute. reflexivity.
Defined.

End SheetAccountsFacts.

(** ** Download: the attachments and their paths *)

Module EmailHandlerFacts.
Import EmailHandler.

(** *** The parts of a message *)

Section PartInduction.
Variable P : Part -> Prop.
Hypothesis step : forall m f a l, Forall P l -> P (mkPart m f a l).

Fixpoint Part_nested_ind (p : Part) : P p :=
  match p with
  | mkPart m f a l =>
      step m f a l
        ((fix all (l : list Part) : Forall P l :=
            match l with
            | [] => @List.Forall_nil Part P
            | q :: l' => @List.Forall_cons Part P q l' (Part_nested_ind q) (all l')
            end) l)
  end.

End PartInduction.

(** The parts of a payload, each before the parts nested in it. *)
Fixpoint all_parts (part : Part) : list Part :=
  part :: (fix nested (l : list Part) : list Part :=
             match l with
             | [] => []
             | nested_part :: l' => all_parts nested_part ++ nested l'
             end) (part_parts part).

Definition is_pdf_type (mime_type : string) : Prop :=
  mime_type = "application/pdf" \/ mime_type = "application/x-pdf".

(** A part that names a PDF file and can be fetched. *)
Definition downloadable (p : Part) : bool :=
  is_potential_pdf p && truthy (part_filename p) && truthy (part_attachmentId p).

Lemma find_pdf_parts_unfold (p : Part) :
  _find_pdf_parts p
  = (if downloadable p then [p] else [])
    ++ concat (map _find_pdf_parts (part_parts p)).
Proof.
  destruct p as [m f a l]. cbn [_find_pdf_parts part_parts].
  f_equal.
  - unfold downloadable. destruct (is_potential_pdf _); [ | reflexivity ].
    cbn [part_filename part_attachmentId andb]. reflexivity.
  - induction l as [|q l IH]; [reflexivity | ].
    cbn [map concat]. rewrite <- IH. reflexivity.
Qed.

Lemma all_parts_unfold (p : Part) :
  all_parts p = p :: concat (map all_parts (part_parts p)).
Proof.
  destruct p as [m f a l]. cbn [all_parts part_parts]. f_equal.
  induction l as [|q l IH]; [reflexivity | ].
  cbn [map concat]. rewrite <- IH. reflexivity.
Qed.

Lemma filter_concat {A : Type} (f : A -> bool) (ls : list (list A)) :
  List.filter f (concat ls) = concat (map (List.filter f) ls).
Proof.
  induction ls as [|l ls IH]; [reflexivity | ].
  cbn [concat map]. rewrite List.filter_app, IH. reflexivity.
Qed.

Lemma find_pdf_parts_filter (p : Part) :
  _find_pdf_parts p = List.filter downloadable (all_parts p).
Proof.
  induction p as [m f a l IH] using Part_nested_ind.
  rewrite find_pdf_parts_unfold, all_parts_unfold.
  cbn [List.filter part_parts].
  assert (Hl : concat (map _find_pdf_parts l)
               = List.filter downloadable (concat (map all_parts l))).
  { rewrite filter_concat, map_map. f_equal.
    induction IH as [|q l Hq Hl IHl]; [reflexivity | ].
    cbn [map]. rewrite Hq, IHl. reflexivity. }
  rewrite Hl. destruct (downloadable (mkPart m f a l)); reflexivity.
Qed.

Lemma truthy_ne (s : string) : truthy s = true <-> s <> "".
Proof. unfold truthy. rewrite negb_true_iff. apply String.eqb_neq. Qed.

Lemma is_potential_pdf_spec (p : Part) :
  is_potential_pdf p = true
  <-> is_pdf_type (PyStr.lower (part_mimeType p))
      \/ (PyStr.lower (part_mimeType p) = "application/octet-stream"
          /\ part_filename p <> ""
          /\ endswith ".pdf" (PyStr.lower (part_filename p)) = true).
Proof.
  unfold is_potential_pdf, is_pdf_type. cbv zeta. cbn [existsb].
  rewrite orb_false_r.
  destruct (String.eqb (PyStr.lower (part_mimeType p)) "application/pdf") eqn:E1.
  { apply String.eqb_eq in E1. simpl. tauto. }
  destruct (String.eqb (PyStr.lower (part_mimeType p)) "application/x-pdf") eqn:E2.
  { apply String.eqb_eq in E2. simpl. tauto. }
  apply String.eqb_neq in E1, E2. cbn [orb].
  rewrite !andb_true_iff, String.eqb_eq, truthy_ne. tauto.
Qed.

(** X24. The search of a message payload returns, each before the
    parts nested in it, exactly the parts of the payload at any depth
    that have a file name, an attachment identifier, and either a PDF
    MIME type or the type [application/octet-stream] with a file name
    ending in [.pdf], letter case ignored: every part it returns can
    be fetched, and no such part is missed. *)
Theorem found_parts_are_the_downloadable_ones (payload : Part) :
  _find_pdf_parts payload = List.filter downloadable (all_parts payload)
  /\ forall part,
       part ∈ _find_pdf_parts payload
       <-> part ∈ all_parts payload
           /\ part_filename part <> "" /\ part_attachmentId part <> ""
           /\ (is_pdf_type (PyStr.lower (part_mimeType part))
               \/ (PyStr.lower (part_mimeType part) = "application/octet-stream"
                   /\ endswith ".pdf" (PyStr.lower (part_filename part)) = true)).
Proof.
  split; [apply find_pdf_parts_filter | ].
  intros part. rewrite find_pdf_parts_filter, !list_elem_of_In, filter_In.
  unfold downloadable.
  rewrite !andb_true_iff, is_potential_pdf_spec, !truthy_ne. tauto.
Qed.

Example statement_mail :
  let pdf := mkPart "application/pdf" "statement.pdf" "att-1" [] in
  let octet := mkPart "Application/Octet-Stream" "Card.PDF" "att-2" [] in
  let inline := mkPart "application/pdf" "inline.pdf" "" [] in
  let text := mkPart "text/plain" "notes.pdf" "att-3" [] in
  _find_pdf_parts
    (mkPart "multipart/mixed" "" ""
       [text; mkPart "multipart/related" "" "" [pdf; inline]; octet])
  = [pdf; octet].
Proof. vm_compute. reflexivity. Qed.

(** *** The path of a saved file *)

Definition candidate (original_filepath : string) (k : Z) : string :=
  let '(name, ext) := splitext original_filepath in
  String.append name (String "_" (String.append (str_of_Z k) ext)).

Lemma unique_loop_S (fuel : nat) (path_exists : string -> bool)
      (original filepath : string) (counter : Z) :
  unique_loop (S fuel) path_exists original filepath counter
  = if path_exists filepath
    then if 100 <? counter + 1 then Some None
         else unique_loop fuel path_exists original
                          (candidate original counter) (counter + 1)
    else Some (Some filepath).
Proof.
  cbn [unique_loop]. unfold candidate.
  destruct (splitext original); reflexivity.
Qed.

Lemma unique_loop_spec (path_exists : string -> bool) (original : string) :
  forall (fuel : nat) (counter : Z) (filepath : string),
    1 <= counter <= 100 -> 101 - counter <= Z.of_nat fuel ->
    match unique_loop fuel path_exists original filepath counter with
    | None => False
    | Some (Some p) =>
        path_exists p = false
        /\ (p = filepath
            \/ path_exists filepath = true
               /\ exists k, counter <= k <= 99 /\ p = candidate original k
                    /\ forall j, counter <= j < k ->
                                 path_exists (candidate original j) = true)
    | Some None =>
        path_exists filepath = true
        /\ forall k, counter <= k <= 99 ->
                     path_exists (candidate original k) = true
    end.
Proof.
  induction fuel as [|fuel IH]; intros counter filepath Hc Hfuel; [lia | ].
  rewrite unique_loop_S.
  destruct (path_exists filepath) eqn:Hex; [ | auto ].
  destruct (100 <? counter + 1) eqn:Hlast.
  - apply Z.ltb_lt in Hlast. split; [reflexivity | ]. intros k Hk. lia.
  - apply Z.ltb_ge in Hlast.
    specialize (IH (counter + 1) (candidate original counter)
                   ltac:(lia) ltac:(lia)).
    destruct (unique_loop fuel path_exists original
                          (candidate original counter) (counter + 1))
      as [[p|]|]; [ | | exact IH ].
    + destruct IH as [Hp [-> | (Hfp & k & Hk & -> & Hbefore)]].
      * split; [exact Hp | ]. right. split; [reflexivity | ].
        exists counter. split; [lia | ]. split; [reflexivity | ].
        intros j Hj. lia.
      * split; [exact Hp | ]. right. split; [reflexivity | ].
        exists k. split; [lia | ]. split; [reflexivity | ].
        intros j Hj. destruct (Z.eq_dec j counter) as [-> | Hne];
          [exact Hfp | apply Hbefore; lia].
    + destruct IH as [Hfp Hall]. split; [reflexivity | ].
      intros k Hk. destruct (Z.eq_dec k counter) as [-> | Hne];
        [exact Hfp | apply Hall; lia].
Qed.

(** X25. The search for a free path always ends within its hundred
    rounds. The path it returns does not exist: it is the computed path
    or the first free one among the candidates numbered 1 to 99, every
    earlier candidate being taken. It gives up exactly when the
    computed path and the 99 candidates all exist; the candidate
    numbered 100 is never tried. *)
Theorem saved_path_is_new (path_exists : string -> bool) (filepath : string) :
  match unique_filepath 101 path_exists filepath with
  | None => False
  | Some (Some p) =>
      path_exists p = false
      /\ (p = filepath
          \/ path_exists filepath = true
             /\ exists k, 1 <= k <= 99 /\ p = candidate filepath k
                  /\ forall j, 1 <= j < k ->
                               path_exists (candidate filepath j) = true)
  | Some None =>
      path_exists filepath = true
      /\ forall k, 1 <= k <= 99 -> path_exists (candidate filepath k) = true
  end.
Proof.
  unfold unique_filepath.
  apply (unique_loop_spec path_exists filepath 101%nat 1 filepath); lia.
Qed.

Example second_copy :
  unique_filepath 101
    (fun p => bool_decide (p ∈ ["downloads/a.b/card.pdf"; "downloads/a.b/card_1.pdf"]))
    "downloads/a.b/card.pdf"
  = Some (Some "downloads/a.b/card_2.pdf").
Proof. vm_compute. reflexivity. Qed.

(** *** The files of a run *)

Definition recorded (existing : gset string) (st : DownloadState) : Prop :=
  NoDup (downloaded_files_info st)
  /\ files st = existing ∪ list_to_set (downloaded_files_info st)
  /\ forall p, p ∈ downloaded_files_info st -> p ∉ existing.

Lemma download_step_recorded (existing : gset string) (st : DownloadState)
      (a : Attachment) :
  recorded existing st -> recorded existing (download_step st a).
Proof.
  intros (Hnd & Hfiles & Hnew). unfold download_step.
  pose proof (unique_loop_spec (fun p => bool_decide (p ∈ files st))
                (attachment_filepath a) 101%nat 1 (attachment_filepath a)
                ltac:(lia) ltac:(lia)) as Hspec.
  unfold unique_filepath.
  destruct (unique_loop 101 _ (attachment_filepath a) (attachment_filepath a) 1)
    as [[p|]|]; try (repeat split; assumption).
  destruct Hspec as [Hp _]. apply bool_decide_eq_false in Hp.
  destruct (write_ok a); [ | repeat split; assumption ].
  rewrite Hfiles in Hp. apply not_elem_of_union in Hp as [Hp1 Hp2].
  rewrite elem_of_list_to_set in Hp2.
  split; [ | split ]; cbn [downloaded_files_info files].
  - apply NoDup_app. split; [exact Hnd | ]. split; [ | apply NoDup_singleton ].
    intros x Hx Hx'. apply list_elem_of_singleton in Hx'. subst x. contradiction.
  - rewrite Hfiles, list_to_set_app_L. cbn [list_to_set].
    rewrite (right_id_L ∅ (∪)). rewrite (assoc_L (∪)). reflexivity.
  - intros x Hx. apply elem_of_app in Hx as [Hx | Hx]; [apply Hnew, Hx | ].
    apply list_elem_of_singleton in Hx. subst x. exact Hp1.
Qed.

Lemma download_fold_recorded (existing : gset string) (l : list Attachment) :
  forall st, recorded existing st -> recorded existing (fold_left download_step l st).
Proof.
  induction l as [|a l IH]; intros st Hst; [exact Hst | ].
  apply IH, download_step_recorded, Hst.
Qed.

Lemma download_fold_length (l : list Attachment) :
  forall st,
    (length (downloaded_files_info (fold_left download_step l st))
     <= length (downloaded_files_info st) + length l)%nat.
Proof.
  induction l as [|a l IH]; intros st; simpl; [lia | ].
  specialize (IH (download_step st a)).
  assert (length (downloaded_files_info (download_step st a))
          <= S (length (downloaded_files_info st)))%nat; [ | lia].
  unfold download_step.
  destruct (unique_filepath _ _ _) as [[p|]|]; try lia.
  destruct (write_ok a); cbn [downloaded_files_info]; [ | lia ].
  rewrite length_app. simpl. lia.
Qed.

(** X26. In one run no two attachments are saved under the same path
    and no file that existed before the run is overwritten: the
    recorded paths are pairwise distinct, none of them existed before,
    the files after the run are the earlier ones and the recorded
    ones, and at most one path is recorded per attachment. *)
Theorem saved_files_are_distinct_and_new (existing : gset string)
        (l : list Attachment) :
  let st := download_all existing l in
  NoDup (downloaded_files_info st)
  /\ (forall p, p ∈ downloaded_files_info st -> p ∉ existing)
  /\ files st = existing ∪ list_to_set (downloaded_files_info st)
  /\ (length (downloaded_files_info st) <= length l)%nat.
Proof.
  intros st.
  destruct (download_fold_recorded existing l (mkDownloadState existing []))
    as (Hnd & Hfiles & Hnew).
  { split; [constructor | ]. split.
    - cbn. rewrite (right_id_L ∅ (∪)). reflexivity.
    - intros p Hp. inversion Hp. }
  split; [exact Hnd | ]. split; [exact Hnew | ]. split; [exact Hfiles | ].
  apply (download_fold_length l (mkDownloadState existing [])).
Qed.

Example same_attachment_twice :
  downloaded_files_info
    (download_all {["downloads/card.pdf"]}
       [mkAttachment "downloads/card.pdf" true;
        mkAttachment "downloads/card.pdf" false;
        mkAttachment "downloads/card.pdf" true])
  = ["downloads/card_1.pdf"; "downloads/card_2.pdf"].
Proof. vm_compute. reflexivity. Qed.

End EmailHandlerFacts.

(** ** Download: the name of a saved file *)

Module SavedNameFacts.
Import EmailHandler.
Import AccountMapping.

Lemma has_sep_append (a b : string) :
  has_sep (String.append a b) = has_sep a || has_sep b.
Proof.
  induction a as [|c a IH]; [reflexivity | ].
  simpl. rewrite IH. apply orb_assoc.
Qed.

Lemma has_sep_sanitize (keep : list ascii) (s : string) :
  existsb (Ascii.eqb "/") keep = false -> has_sep (sanitize keep s) = false.
Proof.
  intros Hkeep. induction s as [|c s IH]; [reflexivity | ].
  cbn [sanitize has_sep]. rewrite IH, orb_false_r.
  destruct (Ascii.eqb c "/") eqn:E.
  - apply Ascii.eqb_eq in E. subst c.
    change (is_alnum "/") with false. rewrite Hkeep. reflexivity.
  - destruct (is_alnum c || existsb (Ascii.eqb c) keep); [exact E | reflexivity].
Qed.

Lemma has_sep_substring (s : string) :
  has_sep s = false -> forall n m, has_sep (String.substring n m s) = false.
Proof.
  induction s as [|c s IH]; intros Hs n m.
  - destruct n, m; reflexivity.
  - cbn [has_sep] in Hs. apply orb_false_iff in Hs as [Hc Hs].
    destruct n as [|n]; [ | apply IH, Hs ].
    destruct m as [|m]; [reflexivity | ].
    cbn [String.substring has_sep]. rewrite Hc. apply IH, Hs.
Qed.

Lemma has_sep_slice_to (n : Z) (s : string) :
  has_sep s = false -> has_sep (slice_to n s) = false.
Proof.
  intros Hs. unfold slice_to.
  destruct (0 <=? n); apply has_sep_substring, Hs.
Qed.

Lemma basename_no_sep (s : string) : has_sep s = false -> basename s = s.
Proof.
  destruct s as [|c s]; [reflexivity | ].
  cbn [has_sep basename]. intros H. apply orb_false_iff in H as [Hc Hs].
  rewrite Hs, Hc. reflexivity.
Qed.

Lemma basename_after_sep (a b : string) :
  has_sep b = false -> basename (String.append a (String "/" b)) = b.
Proof.
  intros Hb. induction a as [|c a IH].
  - change (basename (String "/" b) = b). cbn [basename].
    rewrite Hb. reflexivity.
  - change (basename (String c (String.append a (String "/" b))) = b).
    cbn [basename]. rewrite has_sep_append.
    cbn [has_sep]. rewrite Ascii.eqb_refl, orb_true_r. exact IH.
Qed.

Lemma endswith_spec (suffix s : string) :
  endswith suffix s = true <-> exists pre, s = String.append pre suffix.
Proof.
  induction s as [|c s IH]; cbn [endswith].
  - rewrite orb_false_r, String.eqb_eq. split.
    + intros <-. exists "". reflexivity.
    + intros (pre & H). destruct pre; [exact H | ].
      simpl in H. discriminate.
  - rewrite orb_true_iff, String.eqb_eq, IH. split.
    + intros [<- | (pre & ->)]; [exists ""; reflexivity | ].
      exists (String c pre). reflexivity.
    + intros ([|c' pre] & H); [left; exact H | ].
      simpl in H. injection H as -> ->. right. exists pre. reflexivity.
Qed.

Lemma append_assoc (a b c : string) :
  String.append (String.append a b) c = String.append a (String.append b c).
Proof.
  induction a as [|x a IH]; [reflexivity | ].
  change (String x (String.append (String.append a b) c)
          = String x (String.append a (String.append b c))).
  rewrite IH. reflexivity.
Qed.

Lemma substring_length_le (s : string) :
  forall n, (String.length (String.substring 0 n s) <= n)%nat.
Proof.
  induction s as [|c s IH]; intros [|n]; simpl; try lia.
  specialize (IH n). lia.
Qed.

Lemma slice_to_length (n : Z) (s : string) :
  0 <= n -> len (slice_to n s) <= n.
Proof.
  intros Hn. unfold slice_to, len.
  replace (0 <=? n) with true by (symmetry; apply Z.leb_le; exact Hn).
  pose proof (substring_length_le s (Z.to_nat n)). lia.
Qed.

Lemma output_filename_no_sep (msg_date sender subject filename : string) :
  has_sep msg_date = false ->
  has_sep (output_filename msg_date sender subject filename) = false.
Proof.
  intros Hd. unfold output_filename. cbv zeta.
  pose proof (has_sep_sanitize [" "; "_"; "-"]%char
                (PyStr.strip (before_angle sender)) eq_refl) as H1.
  pose proof (has_sep_sanitize [" "; "_"; "-"]%char subject eq_refl) as H2.
  pose proof (has_sep_sanitize ["."; "_"; "-"]%char filename eq_refl) as H3.
  set (safe_sender := sanitize _ (PyStr.strip _)) in *.
  set (safe_subject := sanitize _ subject) in *.
  set (safe_filename := sanitize _ filename) in *.
  assert (Hdots : forall x, has_sep (String.append "..._" x) = has_sep x)
    by (intros x; reflexivity).
  destruct (max_len <? _).
  - apply has_sep_slice_to.
    rewrite has_sep_append, Hd. cbn [has_sep orb].
    change (Ascii.eqb "_" "/") with false. cbn [orb].
    rewrite has_sep_append, has_sep_slice_to by exact H1.
    rewrite Hdots, has_sep_append, has_sep_slice_to by exact H2.
    rewrite Hdots. exact H3.
  - rewrite has_sep_append, Hd. cbn [has_sep orb].
    change (Ascii.eqb "_" "/") with false. cbn [orb].
    rewrite has_sep_append, H1. cbn [has_sep orb].
    change (Ascii.eqb "_" "/") with false. cbn [orb].
    rewrite has_sep_append, H2. cbn [has_sep orb].
    change (Ascii.eqb "_" "/") with false. exact H3.
Qed.

Lemma output_filename_length (msg_date sender subject filename : string) :
  len (output_filename msg_date sender subject filename) <= 200.
Proof.
  unfold output_filename. cbv zeta.
  destruct (max_len <? _) eqn:E.
  - apply slice_to_length. unfold max_len. lia.
  - apply Z.ltb_ge in E. exact E.
Qed.

(** X27. When the date part of the name holds no [/], the name built
    for a saved attachment holds none either, whatever the sender, the
    subject and the attachment's file name contain, and it is at most
    200 characters long; the path the file is saved under is the
    download directory followed by that name, so the file lies
    directly in the download directory and the extraction stage reads
    that name back as the base name of the path. *)
Theorem saved_file_stays_in_download_path
        (download_path msg_date sender subject filename : string) :
  has_sep msg_date = false ->
  let name := output_filename msg_date sender subject filename in
  has_sep name = false
  /\ len name <= 200
  /\ basename (path_join download_path name) = name
  /\ (path_join download_path name = String.append download_path name
      \/ path_join download_path name
         = String.append download_path (String "/" name)).
Proof.
  intros Hd name.
  assert (Hname : has_sep name = false) by (apply output_filename_no_sep, Hd).
  split; [exact Hname | ].
  split; [apply output_filename_length | ].
  clearbody name. unfold path_join.
  assert (Hjoin :
    (if negb (truthy download_path) || endswith "/" download_path
     then String.append download_path name
     else String.append download_path (String "/" name))
    = match name with
      | String "/" _ => name
      | _ => if negb (truthy download_path) || endswith "/" download_path
             then String.append download_path name
             else String.append download_path (String "/" name)
      end).
  { destruct name as [|c r]; [reflexivity | ].
    cbn [has_sep] in Hname. apply orb_false_iff in Hname as [Hc _].
    apply Ascii.eqb_neq in Hc.
    destruct c as [[] [] [] [] [] [] [] []]; try reflexivity. congruence. }
  rewrite <- Hjoin. clear Hjoin.
  destruct (negb (truthy download_path) || endswith "/" download_path) eqn:E.
  - split; [ | left; reflexivity ].
    apply orb_true_iff in E as [E | E].
    + apply negb_true_iff in E. unfold truthy in E.
      apply negb_false_iff, String.eqb_eq in E. subst download_path.
      apply basename_no_sep, Hname.
    + apply endswith_spec in E as (pre & ->).
      rewrite append_assoc. apply basename_after_sep, Hname.
  - split; [ | right; reflexivity ].
    apply basename_after_sep, Hname.
Qed.

Lemma saved_file_stays_in_download_path_witness :
  basename
    (path_join "downloads/"
       (output_filename "2024-05-03" "HDFC Bank <alerts@hdfc.example>"
                        "Statement" "../../etc/passwd.pdf"))
  = output_filename "2024-05-03" "HDFC Bank <alerts@hdfc.example>"
                    "Statement" "../../etc/passwd.pdf".
Proof.
  exact (proj1 (proj2 (proj2
           (saved_file_stays_in_download_path "downloads/" "2024-05-03"
              "HDFC Bank <alerts@hdfc.example>" "Statement"
              "../../etc/passwd.pdf" eq_refl)))).
Defined.

Example hostile_file_name :
  path_join "downloads/"
    (output_filename "2024-05-03" "HDFC Bank <alerts@hdfc.example>"
                     "Statement" "../../etc/passwd.pdf")
  = "downloads/2024-05-03_HDFC Bank_Statement_.._.._etc_passwd.pdf".
Proof. vm_compute. reflexivity. Qed.

End SavedNameFacts.

(** ** Extraction: opening a statement *)

Module PdfOpenFacts.
Import PdfOpen.

Definition accepts (f : PdfFile) (password : string) : bool :=
  match authenticate f password with
  | Some true => true
  | _ => false
  end.

(** The passwords up to the first accepted one, that one included. *)
Fixpoint until_accepted (f : PdfFile) (l : list string) : list string :=
  match l with
  | [] => []
  | password :: rest =>
      if accepts f password then [password]
      else password :: until_accepted f rest
  end.

Lemma try_passwords_spec (f : PdfFile) (l : list string) :
  forall tried,
    try_passwords f l tried
    = (can_open f && existsb (accepts f) l,
       if can_open f then tried ++ until_accepted f l else tried).
Proof.
  induction l as [|password rest IH]; intros tried; cbn [try_passwords].
  - rewrite andb_false_r. destruct (can_open f); [rewrite app_nil_r | ]; reflexivity.
  - destruct (can_open f) eqn:Hopen.
    + cbn [existsb until_accepted andb].
      destruct (authenticate f password) as [[|]|] eqn:Ha.
      * replace (accepts f password) with true
          by (unfold accepts; rewrite Ha; reflexivity).
        reflexivity.
      * replace (accepts f password) with false
          by (unfold accepts; rewrite Ha; reflexivity).
        rewrite IH, <- app_assoc. reflexivity.
      * replace (accepts f password) with false
          by (unfold accepts; rewrite Ha; reflexivity).
        rewrite IH, <- app_assoc. reflexivity.
    + rewrite IH. reflexivity.
Qed.

(** X28. A statement is processed exactly when it can be opened and
    either needs no password or one of the configured passwords is
    accepted. A statement that needs no password, or cannot be opened,
    is never handed a password; otherwise the configured passwords are
    tried in their order, each at most once, up to the first one that
    is accepted, a password whose check raises counting as refused. *)
Theorem passwords_tried_in_order (f : PdfFile) (pdf_passwords : list string) :
  let '(opened_successfully, tried) := open_document f pdf_passwords in
  opened_successfully
  = can_open f && (negb (needs_pass f) || existsb (accepts f) pdf_passwords)
  /\ tried
     = (if can_open f && needs_pass f
        then until_accepted f pdf_passwords else [])
  /\ tried `prefix_of` pdf_passwords
  /\ (forall password, password ∈ removelast tried -> accepts f password = false).
Proof.
  unfold open_document. cbv zeta.
  assert (Hprefix : forall l, until_accepted f l `prefix_of` l).
  { induction l as [|p l IH]; cbn [until_accepted]; [reflexivity | ].
    destruct (accepts f p); [ | apply prefix_cons, IH ].
    exists l. reflexivity. }
  assert (Hrejected : forall l password,
             password ∈ removelast (until_accepted f l) -> accepts f password = false).
  { induction l as [|p l IH]; intros password; cbn [until_accepted];
      [intros H; inversion H | ].
    destruct (accepts f p) eqn:E; [intros H; inversion H | ].
    destruct (until_accepted f l) as [|q r] eqn:El.
    - intros H; inversion H.
    - cbn [removelast]. intros H. apply elem_of_cons in H as [-> | H];
        [exact E | apply IH, H]. }
  destruct (can_open f) eqn:Hopen, (needs_pass f) eqn:Hpass; cbn [andb negb orb].
  - destruct pdf_passwords as [|p l].
    + repeat split; [reflexivity | intros ? H; inversion H].
    + rewrite try_passwords_spec, Hopen. cbn [andb app].
      repeat split; [apply Hprefix | apply Hrejected].
  - repeat split; [apply prefix_nil | intros ? H; inversion H].
  - destruct pdf_passwords as [|p l].
    + repeat split; [reflexivity | intros ? H; inversion H].
    + rewrite try_passwords_spec, Hopen. cbn [andb].
      repeat split; [apply prefix_nil | intros ? H; inversion H].
  - destruct pdf_passwords as [|p l].
    + repeat split; [reflexivity | intros ? H; inversion H].
    + rewrite try_passwords_spec, Hopen. cbn [andb].
      repeat split; [apply prefix_nil | intros ? H; inversion H].
Qed.

Example third_password_opens :
  open_document
    (mkPdfFile true true
       (fun p => if String.eqb p "abcd1234" then Some true
                 else if String.eqb p "broken" then None else Some false))
    ["0101"; "broken"; "abcd1234"; "never tried"]
  = (true, ["0101"; "broken"; "abcd1234"]).
Proof. vm_compute. reflexivity. Qed.

End PdfOpenFacts.

(** ** The category lists *)

Module CategoryListFacts.
Import Categorizer CategoryLists.

(** The member a listed name is resolved to. *)
Definition resolved (c : Category) : Category :=
  match c with
  | BODY => GYM
  | HOUSE => HOUSEHOLD
  | other => other
  end.

Definition assignable (t : Transaction) : Prop :=
  category t <> Some BODY /\ category t <> Some HOUSE.

Lemma update_from_assignable (ai_txn : AIProcessedTransaction) (t : Transaction) :
  assignable (update_from ai_txn t).
Proof.
  unfold assignable, update_from. simpl.
  destruct (CheckpointFacts.from_string_not_body_house (category_str ai_txn)).
  split; congruence.
Qed.

Lemma assign_if_unset_assignable (t : Transaction) :
  assignable t -> assignable (assign_if_unset t).
Proof.
  unfold assignable, assign_if_unset. simpl.
  destruct (category t); [tauto | ]. intros _. split; discriminate.
Qed.

Lemma assign_error_defaults_assignable (t : Transaction) :
  assignable (assign_error_defaults t).
Proof. unfold assignable, assign_error_defaults. simpl. split; discriminate. Qed.

Lemma match_fold_assignable (results : list AIProcessedTransaction) :
  forall st, Forall assignable (batch st) ->
             Forall assignable (batch (fold_left match_step results st)).
Proof.
  induction results as [|r results IH]; intros st Hst; [exact Hst | ].
  cbn [fold_left]. apply IH. unfold match_step.
  destruct ((0 <=? original_index r)
            && (original_index r <? Z.of_nat (length (batch st))))%bool;
    cbn [batch]; [ | exact Hst ].
  apply Forall_alter; [exact Hst | ].
  intros t _ _. apply update_from_assignable.
Qed.

(** X29. The prompt lists the name of every category, BODY and HOUSE
    among them, but the enrichment stage resolves the name BODY to GYM
    and the name HOUSE to HOUSEHOLD, and every other listed name to its
    own category. No answer of the classifier can set a category to
    BODY or HOUSE: a batch that holds neither before enrichment holds
    neither after it, on every path of the stage. *)
Theorem body_and_house_are_never_assigned (st : AIState)
        (raw_transactions : list Transaction) :
  Forall assignable raw_transactions ->
  Forall assignable (fst (process_transactions_ai st raw_transactions))
  /\ map Category_from_string offered_names = map resolved Category_members
  /\ forall ai_txn t,
       category (update_from ai_txn t)
       = Some (Category_from_string (category_str ai_txn))
       /\ assignable (update_from ai_txn t).
Proof.
  intros Hraw. split; [ | split ].
  - unfold process_transactions_ai.
    assert (Hunset : Forall assignable (map assign_if_unset raw_transactions)).
    { apply Forall_fmap. eapply Forall_impl; [exact Hraw | ].
      intros t. apply assign_if_unset_assignable. }
    assert (Herr : Forall assignable (map assign_error_defaults raw_transactions)).
    { apply Forall_fmap, Forall_forall. intros t _.
      apply assign_error_defaults_assignable. }
    destruct (agent st) as [run|]; [ | exact Hunset ].
    destruct (prompt_has_error st); [exact Hunset | ].
    destruct raw_transactions as [|t raw]; [constructor | ].
    destruct (run (prepare_input (t :: raw))); cbn [fst]; try exact Herr.
    apply match_fold_assignable. exact Hraw.
  - vm_compute. reflexivity.
  - intros ai_txn t. split; [reflexivity | apply update_from_assignable].
Qed.

Lemma body_and_house_are_never_assigned_witness :
  Forall assignable
    (fst (process_transactions_ai
            (mkAIState
               (Some (fun _ => AgentBatch [mkAIProcessedTransaction 0 "Body" 1 0;
                                           mkAIProcessedTransaction 1 "HOUSE" 1 1]))
               false)
            [mkTransaction (Some "03/05/2024") "Gym fee" (Some 900%Q)
                           (Some "HDFC Savings") None None (Some 1) None debit;
             mkTransaction (Some "04/05/2024") "Paint" (Some 400%Q)
                           (Some "HDFC Savings") None None (Some 1) None debit])).
Proof.
  apply (body_and_house_are_never_assigned _ _).
  repeat constructor; discriminate.
Defined.

Example offered_body_becomes_gym :
  map (fun t => category t)
    (fst (process_transactions_ai
            (mkAIState
               (Some (fun _ => AgentBatch [mkAIProcessedTransaction 0 "BODY" 1 0;
                                           mkAIProcessedTransaction 1 "HOUSE" 1 1]))
               false)
            [mkTransaction (Some "03/05/2024") "Gym fee" (Some 900%Q)
                           (Some "HDFC Savings") None None (Some 1) None debit;
             mkTransaction (Some "04/05/2024") "Paint" (Some 400%Q)
                           (Some "HDFC Savings") None None (Some 1) None debit]))
  = [Some GYM; Some HOUSEHOLD].
Proof. vm_compute. reflexivity. Qed.

(** X30. The drop-down list put on the category column holds the
    display value of every category except "Uncategorized". The
    category cell of a row is the display value of the transaction's
    category, so the rows of a batch that received the failure
    defaults carry "Uncategorized", a value that is not in the list. *)
Theorem uncategorized_is_not_in_the_validation_list :
  (forall c, Category_value c ∈ category_values_for_validation
             <-> c <> UNCATEGORIZED)
  /\ (forall t c, category t = Some c ->
                  SheetRows.account_row t !! 2%nat
                  = Some (SheetRows.CellStr (Category_value c)))
  /\ (forall t, SheetRows.account_row (assign_error_defaults t) !! 2%nat
                = Some (SheetRows.CellStr "Uncategorized"))
  /\ "Uncategorized" ∉ category_values_for_validation.
Proof.
  assert (Hlist : forall v, v ∈ category_values_for_validation
                            <-> exists c, c <> UNCATEGORIZED /\ Category_value c = v).
  { intros v. unfold category_values_for_validation.
    rewrite SheetAccountsFacts.sorted_perm, list_elem_of_In, in_map_iff.
    split.
    - intros (c & <- & Hc). apply filter_In in Hc as [_ Hc].
      apply negb_true_iff, bool_decide_eq_false in Hc. exists c. auto.
    - intros (c & Hc & <-). exists c. split; [reflexivity | ].
      apply filter_In. split.
      + destruct c; vm_compute; tauto.
      + apply negb_true_iff, bool_decide_eq_false. exact Hc. }
  assert (Hinj : forall c, Category_value c = "Uncategorized" -> c = UNCATEGORIZED).
  { intros c. destruct c; cbn [Category_value]; intros H;
      first [reflexivity | discriminate H]. }
  split; [ | split; [ | split ] ].
  - intros c. rewrite Hlist. split.
    + intros (d & Hd & Hv) ->. apply Hd, Hinj, Hv.
    + intros Hc. exists c. auto.
  - intros t c Hc. unfold SheetRows.account_row. rewrite Hc. reflexivity.
  - intros t. reflexivity.
  - intros Hin. apply Hlist in Hin as (c & Hc & Hv).
    apply Hinj in Hv. contradiction.
Qed.

End CategoryListFacts.
